(** * AIOPedia: page resolution and lazy content loading

    A shallow embedding of [aiopedia/aiopedia.py] (classes [WikiPage] and
    [AIOPedia]) and the properties of its resolution and caching logic.

    Modelling choices, all of them visible in the definitions below:

    - A Python object is its attribute dictionary, a [gmap string value]:
      [hasattr]/[getattr] are lookups, an assignment [self.x = v] is an
      insert.  The source decides cache presence by probing attributes, so
      the attribute names are kept as they are spelled in the source.
    - Parsed JSON and the other Python values the code handles are the
      inductive [value]; a JSON object is an association list (Python keeps
      insertion order and the code takes "the first key").  JSON numbers are
      integers here; floating point numbers are not modelled.
    - Characters are code points below 256.
    - Every coroutine body runs atomically: a task handed to the event loop
      waits in [pending] until the loop picks it, and then runs to its end.
      The outcome of a scheduled task, an exception included, is kept with
      the finished task in [done]; the source never looks at those futures.
    - The HTTP collaborator is a function [http] from a request to a parsed
      response or a raised transport error: what the accessors and [search]
      get when they await [json()].  [__load] and [continued_query] call
      [json()] and do not await it: what they take as the response is given
      by a second function, [json_call], and for the module's default
      session, an [aiohttp.ClientSession], it is a coroutine object, which
      has no items.  Every request issued is appended to [log].  The HTML
      parser used on disambiguation pages is the function [find_all_li].
    - Dictionaries have string keys.  A continuation that would put a key of
      another type into the parameters of a query is outside the model, and
      reported as such. *)

From Stdlib Require Import ZArith String Ascii List Bool Lia DecimalString.
From stdpp Require Import base gmap strings list.

Set Warnings "-register-all".

Local Open Scope string_scope.
Local Open Scope list_scope.
Local Open Scope Z_scope.

(** ** Python and JSON values *)

Inductive value : Type :=
| VNone
| VBool (b : bool)
| VInt (n : Z)
| VStr (s : string)
| VList (l : list value)
| VTuple (l : list value)
| VDict (d : list (string * value))
| VObj (id : nat).

(** An association list read the way a Python [dict] built by a JSON parser
    is read: the first entry with the key. *)
Fixpoint dict_get {A : Type} (k : string) (d : list (string * A)) : option A :=
  match d with
  | [] => None
  | (k', v) :: r => if String.eqb k k' then Some v else dict_get k r
  end.

(** [d[k] = v]: overwrite in place, or append a new key at the end. *)
Fixpoint dict_set {A : Type} (k : string) (v : A) (d : list (string * A)) : list (string * A) :=
  match d with
  | [] => [(k, v)]
  | (k', v') :: r => if String.eqb k k' then (k', v) :: r else (k', v') :: dict_set k v r
  end.

(** [d.update(e)] *)
Definition dict_update {A : Type} (d e : list (string * A)) : list (string * A) :=
  fold_left (fun acc kv => dict_set (fst kv) (snd kv) acc) e d.

Definition dict_has {A : Type} (k : string) (d : list (string * A)) : bool :=
  match dict_get k d with Some _ => true | None => false end.

(** Python truthiness. *)
Definition truthy (v : value) : bool :=
  match v with
  | VNone => false
  | VBool b => b
  | VInt n => negb (n =? 0)
  | VStr s => negb (String.eqb s EmptyString)
  | VList l | VTuple l => match l with [] => false | _ => true end
  | VDict d => match d with [] => false | _ => true end
  | VObj _ => true
  end.

(** Python [==]. *)
Fixpoint py_eq (a b : value) {struct a} : bool :=
  match a, b with
  | VNone, VNone => true
  | VBool x, VBool y => Bool.eqb x y
  | VBool x, VInt y => Z.b2z x =? y
  | VInt x, VBool y => x =? Z.b2z y
  | VInt x, VInt y => x =? y
  | VStr x, VStr y => String.eqb x y
  | VList l1, VList l2 | VTuple l1, VTuple l2 =>
      (fix go (l1 l2 : list value) {struct l1} : bool :=
         match l1, l2 with
         | [], [] => true
         | x :: xs, y :: ys => py_eq x y && go xs ys
         | _, _ => false
         end) l1 l2
  | VDict d1, VDict d2 =>
      (length d1 =? length d2)%nat &&
      (fix go (d : list (string * value)) {struct d} : bool :=
         match d with
         | [] => true
         | (k, v) :: r =>
             match dict_get k d2 with
             | Some v' => py_eq v v'
             | None => false
             end && go r
         end) d1
  | VObj x, VObj y => (x =? y)%nat
  | _, _ => false
  end.

(** ** Exceptions and results *)

(** [RedirectError], [DisambiguationError], [HTTPTimeoutError] and
    [WikipediaException] are imported by the source from its [exceptions]
    module; only their constructor arguments matter here.  [AssertionError]
    always carries that module's [ODD_ERROR_MESSAGE]. *)
Inductive exn : Type :=
| ValueError (msg : string)
| AttributeError (name : string)
| KeyError (key : value)
| IndexError
| TypeError
| TransportError
| AssertionError
| PageError (arg : value)
| RedirectError (arg : value)
| DisambiguationError (title : value) (may_refer_to : list value)
| HTTPTimeoutError (arg : value)
| WikipediaException (arg : value).

Inductive result (A : Type) : Type :=
| Ret (a : A)
| Raise (e : exn).
Arguments Ret {A} a.
Arguments Raise {A} e.

(** ** Strings *)

(** [sub in s] *)
Definition str_contains (sub s : string) : bool :=
  match String.index 0 sub s with Some _ => true | None => false end.

(** [s[i:j]] for indices that are not negative. *)
Definition str_slice (s : string) (i j : nat) : string :=
  String.substring i (j - i) s.

(** [s.lstrip("=")] *)
Fixpoint lstrip_eq (s : string) : string :=
  match s with
  | String c r => if Ascii.eqb c "="%char then lstrip_eq r else s
  | EmptyString => s
  end.

(** What [str.isspace] accepts among the code points below 256. *)
Definition is_space (c : ascii) : bool :=
  let n := nat_of_ascii c in
  ((9 <=? n) && (n <=? 13) || (28 <=? n) && (n <=? 32) || (n =? 133) || (n =? 160))%nat.

Fixpoint lstrip_ws (s : string) : string :=
  match s with
  | String c r => if is_space c then lstrip_ws r else s
  | EmptyString => s
  end.

Fixpoint rstrip_ws (s : string) : string :=
  match s with
  | String c r =>
      match rstrip_ws r with
      | EmptyString => if is_space c then EmptyString else String c EmptyString
      | r' => String c r'
      end
  | EmptyString => EmptyString
  end.

(** [s.strip()] *)
Definition strip (s : string) : string := rstrip_ws (lstrip_ws s).

(** [s.replace(" ", "%20")] *)
Fixpoint replace_spaces (s : string) : string :=
  match s with
  | String c r =>
      if Ascii.eqb c " "%char then "%20" +:+ replace_spaces r
      else String c (replace_spaces r)
  | EmptyString => EmptyString
  end.

(** ** Container operations on values *)

(** [k in c] for a string [k]. *)
Definition py_in (k : string) (c : value) : result bool :=
  match c with
  | VDict d => Ret (dict_has k d)
  | VList l | VTuple l => Ret (existsb (py_eq (VStr k)) l)
  | VStr s => Ret (str_contains k s)
  | _ => Raise TypeError
  end.

Definition seq_index (n : nat) (i : Z) : option nat :=
  let j := if i <? 0 then i + Z.of_nat n else i in
  if (0 <=? j) && (j <? Z.of_nat n) then Some (Z.to_nat j) else None.

Definition as_index (k : value) : option Z :=
  match k with
  | VInt i => Some i
  | VBool b => Some (Z.b2z b)
  | _ => None
  end.

(** [c[k]] *)
Definition py_getitem (c k : value) : result value :=
  match c with
  | VDict d =>
      match k with
      | VStr s => match dict_get s d with Some v => Ret v | None => Raise (KeyError k) end
      | VList _ | VDict _ => Raise TypeError
      | _ => Raise (KeyError k)
      end
  | VList l | VTuple l =>
      match as_index k with
      | Some i =>
          match seq_index (length l) i with
          | Some j => match nth_error l j with Some v => Ret v | None => Raise IndexError end
          | None => Raise IndexError
          end
      | None => Raise TypeError
      end
  | VStr s =>
      match as_index k with
      | Some i =>
          match seq_index (String.length s) i with
          | Some j => Ret (VStr (String.substring j 1 s))
          | None => Raise IndexError
          end
      | None => Raise TypeError
      end
  | _ => Raise TypeError
  end.

(** [c.get(k)] *)
Definition py_get (c : value) (k : string) : result value :=
  match c with
  | VDict d => Ret (default VNone (dict_get k d))
  | _ => Raise (AttributeError "get")
  end.

(** [list(c.keys())] and [c.values()] *)
Definition py_keys (c : value) : result (list value) :=
  match c with
  | VDict d => Ret (map (fun kv => VStr (fst kv)) d)
  | _ => Raise (AttributeError "keys")
  end.

Definition py_values (c : value) : result (list value) :=
  match c with
  | VDict d => Ret (map snd d)
  | _ => Raise (AttributeError "values")
  end.

Fixpoint chars (s : string) : list value :=
  match s with
  | String c r => VStr (String c EmptyString) :: chars r
  | EmptyString => []
  end.

(** The items a [for] loop takes from [c]. *)
Definition py_iter (c : value) : result (list value) :=
  match c with
  | VList l | VTuple l => Ret l
  | VDict d => Ret (map (fun kv => VStr (fst kv)) d)
  | VStr s => Ret (chars s)
  | _ => Raise TypeError
  end.

Definition first_item (l : list value) : result value :=
  match l with
  | x :: _ => Ret x
  | [] => Raise IndexError
  end.

(** ** Requests, tasks and the world *)

(** The text of a URL built by an f-string: literal text and the values
    formatted into it.  [format] puts formatted strings in as text, so that a
    URL made of strings only is a single literal. *)
Inductive piece : Type :=
| Lit (s : string)
| Fmt (v : value).

Fixpoint format (ps : list piece) : list piece :=
  match ps with
  | [] => []
  | p :: r =>
      let p' := match p with Fmt (VStr s) => Lit s | _ => p end in
      match p', format r with
      | Lit a, Lit b :: r' => Lit (a +:+ b) :: r'
      | _, r' => p' :: r'
      end
  end.

(** [session.get(url, params=params)] *)
Record request : Type := Request {
  rq_session : value;
  rq_url : list piece;
  rq_params : option (list (string * value))
}.

(** The coroutines the source hands to the event loop. *)
Inductive task : Type :=
| LoadTask (redirect preload : bool)
| ContentTask.

(** What a coroutine of the page can read and change: the attributes of the
    page object, the tasks waiting on the event loop, and the requests sent
    so far. *)
Record world : Type := World {
  obj : gmap string value;
  pending : list task;
  log : list request
}.

Definition set_obj (o : gmap string value) (w : world) : world :=
  World o (pending w) (log w).
Definition set_pending (p : list task) (w : world) : world :=
  World (obj w) p (log w).
Definition set_log (l : list request) (w : world) : world :=
  World (obj w) (pending w) l.

(** The event loop at work: the world, and the finished tasks with their
    outcomes, in the order they finished. *)
Record run : Type := Run {
  state : world;
  done : list (task * result value)
}.

(** [asyncio.get_event_loop()] and the module-level default of the
    [session] argument of [WikiPage.__init__], which Python evaluates once. *)
Definition event_loop : value := VObj 0.
Definition default_session : value := VObj 1.

(** The coroutine object that [json()] of a response of [aiohttp] returns
    when it is called and not awaited.  It is an object without items; its
    identity plays no part. *)
Definition coroutine : value := VObj 3.

(** ** The state and exception monad of the embedding *)

Definition M (A : Type) : Type := world -> result A * world.

Definition ret {A : Type} (a : A) : M A := fun w => (Ret a, w).
Definition raise {A : Type} (e : exn) : M A := fun w => (Raise e, w).
Definition lift {A : Type} (r : result A) : M A := fun w => (r, w).
Definition bind {A B : Type} (m : M A) (k : A -> M B) : M B :=
  fun w =>
    match m w with
    | (Ret a, w') => k a w'
    | (Raise e, w') => (Raise e, w')
    end.

Declare Scope py_scope.
Delimit Scope py_scope with py.
Notation "x <- m ;; k" := (bind m (fun x => k))
  (at level 100, m at next level, right associativity) : py_scope.
Notation "m ;; k" := (bind m (fun _ => k))
  (at level 100, right associativity) : py_scope.
Local Open Scope py_scope.

Definition getattr (name : string) : M value :=
  fun w =>
    match obj w !! name with
    | Some v => (Ret v, w)
    | None => (Raise (AttributeError name), w)
    end.

Definition getattr_default (name : string) (d : value) : M value :=
  fun w => (Ret (default d (obj w !! name)), w).

Definition hasattr (name : string) : M bool :=
  fun w => (Ret (bool_decide (is_Some (obj w !! name))), w).

Definition setattr (name : string) (v : value) : M unit :=
  fun w => (Ret tt, set_obj (<[name := v]> (obj w)) w).

(** [asyncio.run_coroutine_threadsafe(coro, self.loop)]; the future it
    returns is dropped by every caller. *)
Definition run_coroutine_threadsafe (t : task) : M unit :=
  _ <- getattr "loop" ;;
  fun w => (Ret tt, set_pending (pending w ++ [t]) w).

Definition py_assert (b : bool) : M unit :=
  if b then ret tt else raise AssertionError.

Fixpoint for_each {A : Type} (f : A -> M unit) (l : list A) : M unit :=
  match l with
  | [] => ret tt
  | x :: r => f x ;; for_each f r
  end.

(** ** The collaborators *)

(** An [li] element as the source reads it: [li.get('class', [])] and, when
    the item has an anchor, [li.a.get_text()]. *)
Record li_tag : Type := LiTag {
  li_class : list string;
  li_a : option string
}.

Definition dict : Type := list (string * value).

Section Program.

Variable http : request -> result value.
Variable json_call : request -> result value.
Variable find_all_li : value -> list li_tag.

(** [await (await session.get(...)).json()]: the parsed body of the
    response, or the error the transport raises. *)
Definition session_get (session : value) (url : list piece) (params : option dict) : M value :=
  fun w =>
    let rq := Request session url params in
    (http rq, set_log (log w ++ [rq]) w).

(** The value of [r.json()] where the source calls it without [await].
    For a session of the caller's it is whatever that call returns, or the
    error the transport raises: the collaborator [json_call].  The module's
    default session is an [aiohttp.ClientSession], whose [json()] is a
    coroutine function: there the value is a coroutine object, whatever the
    response holds. *)
Definition unawaited_json (rq : request) : result value :=
  match json_call rq with
  | Ret v => Ret (if py_eq (rq_session rq) default_session then coroutine else v)
  | Raise e => Raise e
  end.

(** [async with session.get(...) as r: result = r.json()] *)
Definition session_get_unawaited (session : value) (url : list piece) (params : option dict)
    : M value :=
  fun w =>
    let rq := Request session url params in
    (unawaited_json rq, set_log (log w ++ [rq]) w).

Definition getitem (c k : value) : M value := lift (py_getitem c k).
Definition getkey (c : value) (k : string) : M value := lift (py_getitem c (VStr k)).
Definition contains (k : string) (c : value) : M bool := lift (py_in k c).

(** ** class WikiPage *)

Definition endpoint_of (locale : string) : value :=
  VStr ("https://" +:+ locale +:+ ".wikipedia.org/w/api.php?action=query&format=json").

(** [getattr(self, prop)] in the preload loop.  [content] and [summary] are
    asynchronous properties of the class: reading them makes a coroutine
    object that is dropped unstarted.  The other names are no attribute of
    the class, so only the instance dictionary can provide them. *)
Definition preload_props : list string :=
  ["content"; "summary"; "images"; "references"; "links"; "sections"].

Definition touch (prop : string) : M unit :=
  if orb (String.eqb prop "content") (String.eqb prop "summary") then ret tt
  else _ <- getattr prop ;; ret tt.

(** [WikiPage.__init__]; the keyword defaults of the source are
    [title=None], [page_id=None], [redirect=True], [preload=False],
    [original_title=''], [locale='en'] and [session=default_session]. *)
Definition WikiPage_init (title page_id : value) (redirect preload : bool)
    (original_title : value) (locale : string) (session : value) : M unit :=
  (if truthy title then
     setattr "title" title ;;
     setattr "original_title" original_title
   else if truthy page_id then
     setattr "page_id" page_id
   else
     raise (ValueError "Either a Title or a Page ID myst be specified.")) ;;
  setattr "loop" event_loop ;;
  setattr "session" session ;;
  setattr "endpoint" (endpoint_of locale) ;;
  run_coroutine_threadsafe (LoadTask redirect preload) ;;
  if preload then for_each touch preload_props else ret tt.

Definition load_query : string :=
  "&prop=info|pageprops&inprop=url&ppprop=disambiguation&redirects= ".

Definition html_query : string :=
  "&prop=revisions&rvprop=content&rvparse=&rvlimit=1".

(** [[li.a.get_text() for li in filtered_lis if li.a]] over the items whose
    joined classes do not contain [tocsection]. *)
Definition may_refer_to_of (lis : list li_tag) : list value :=
  let filtered_lis :=
    filter (fun li => negb (str_contains "tocsection" (String.concat EmptyString (li_class li)))) lis in
  omap (fun li => VStr <$> li_a li) filtered_lis.

(** The redirect source that [__load] expects: the normalized title when the
    response has a [normalized] block, else the title as given. *)
Definition expected_source (query : value) : M value :=
  has_normalized <- contains "normalized" query ;;
  if has_normalized then
    ns <- getkey query "normalized" ;;
    normalized <- getitem ns (VInt 0) ;;
    nfrom <- getkey normalized "from" ;;
    t <- getattr "title" ;;
    py_assert (py_eq nfrom t) ;;
    getkey normalized "to"
  else getattr "title".

(** The disambiguation branch of [__load]: fetch the rendered page, collect
    the candidates and raise. *)
Definition raise_disambiguation (page page_id : value) : M unit :=
  endpoint <- getattr "endpoint" ;;
  has_page_id <- hasattr "page_id" ;;
  selector <- (if has_page_id
               then p <- getattr "page_id" ;; ret [Lit "&pageids="; Fmt p]
               else t <- getattr "title" ;; ret [Lit "&titles="; Fmt t]) ;;
  session <- getattr "session" ;;
  result <- session_get_unawaited session (format (Fmt endpoint :: Lit html_query :: selector))
              None ;;
  q <- getkey result "query" ;;
  ps <- getkey q "pages" ;;
  p <- getitem ps page_id ;;
  revs <- getkey p "revisions" ;;
  rev <- getitem revs (VInt 0) ;;
  html <- getkey rev "*" ;;
  let may_refer_to := may_refer_to_of (find_all_li html) in
  page_title <- getkey page "title" ;;
  t <- getattr_default "title" page_title ;;
  raise (DisambiguationError t may_refer_to).

(** The head of [__load]: build the URL and take what [r.json()] returns. *)
Definition load_fetch : M value :=
  endpoint <- getattr "endpoint" ;;
  pid <- getattr_default "page_id" VNone ;;
  selector <- (if negb (truthy pid)
               then t <- getattr "title" ;; ret [Lit "&titles="; Fmt t]
               else p <- getattr "page_id" ;; ret [Lit "&pageids="; Fmt p]) ;;
  session <- getattr "session" ;;
  session_get_unawaited session (format (Fmt endpoint :: Lit load_query :: selector)) None.

(** [WikiPage.__load] *)
Definition WikiPage_load (redirect preload : bool) : M unit :=
  result <- load_fetch ;;
  query <- getkey result "query" ;;
  pages <- getkey query "pages" ;;
  keys <- lift (py_keys pages) ;;
  page_id <- lift (first_item keys) ;;
  pages' <- getkey query "pages" ;;
  page <- getitem pages' page_id ;;
  missing <- contains "missing" page ;;
  if missing then
    has_title <- hasattr "title" ;;
    if has_title then t <- getattr "title" ;; raise (PageError t)
    else p <- getattr "page_id" ;; raise (PageError p)
  else
    has_redirects <- contains "redirects" query ;;
    if has_redirects then
      if redirect then
        rs <- getkey query "redirects" ;;
        redirects <- getitem rs (VInt 0) ;;
        from_title <- expected_source query ;;
        rfrom <- getkey redirects "from" ;;
        py_assert (py_eq rfrom from_title) ;;
        rto <- getkey redirects "to" ;;
        WikiPage_init rto VNone redirect preload (VStr EmptyString) "en" default_session
      else
        page_title <- getkey page "title" ;;
        t <- getattr_default "title" page_title ;;
        raise (RedirectError t)
    else
      has_pageprops <- contains "pageprops" page ;;
      if has_pageprops then raise_disambiguation page page_id
      else
        setattr "page_id" page_id ;;
        t <- getkey page "title" ;;
        setattr "title" t ;;
        u <- getkey page "fullurl" ;;
        setattr "url" u.

(** The property [__title_query_param]. *)
Definition WikiPage_title_query_param : M dict :=
  t <- getattr_default "title" VNone ;;
  match t with
  | VNone => p <- getattr "page_id" ;; ret [("pageids", p)]
  | _ => t' <- getattr "title" ;; ret [("titles", t')]
  end.

(** [WikiPage.html] *)
Definition WikiPage_html : M value :=
  cached <- getattr_default "_html" (VBool false) ;;
  (if negb (truthy cached) then
     title <- getattr "title" ;;
     let params := [("prop", VStr "revisions"); ("rvprop", VStr "content");
                    ("rvlimit", VInt 1); ("rvparse", VStr EmptyString); ("titles", title)] in
     session <- getattr "session" ;;
     endpoint <- getattr "endpoint" ;;
     request <- session_get session (format [Fmt endpoint]) (Some params) ;;
     q <- getkey request "query" ;;
     ps <- getkey q "pages" ;;
     pid <- getattr "page_id" ;;
     p <- getitem ps pid ;;
     revs <- getkey p "revisions" ;;
     rev <- getitem revs (VInt 0) ;;
     h <- getkey rev "*" ;;
     setattr "_html" h
   else ret tt) ;;
  getattr "_html".

(** The [titles]/[pageids] entry that [content] and [summary] add. *)
Definition add_selector (params : dict) : M dict :=
  t <- getattr_default "title" VNone ;;
  match t with
  | VNone => p <- getattr "page_id" ;; ret (dict_set "pageids" p params)
  | _ => t' <- getattr "title" ;; ret (dict_set "titles" t' params)
  end.

(** [request['query']['pages'][self.page_id]] *)
Definition own_page (request : value) : M value :=
  q <- getkey request "query" ;;
  ps <- getkey q "pages" ;;
  pid <- getattr "page_id" ;;
  getitem ps pid.

(** The property [WikiPage.content] *)
Definition WikiPage_content : M value :=
  cached <- getattr_default "_content" (VBool false) ;;
  (if negb (truthy cached) then
     params <- add_selector [("prop", VStr "extracts|revisions"); ("explaintext", VStr EmptyString);
                             ("rvprop", VStr "ids")] ;;
     session <- getattr "session" ;;
     endpoint <- getattr "endpoint" ;;
     request <- session_get session (format [Fmt endpoint]) (Some params) ;;
     p <- own_page request ;;
     extract <- getkey p "extract" ;;
     setattr "_content" extract ;;
     p1 <- own_page request ;;
     revs1 <- getkey p1 "revisions" ;;
     rev1 <- getitem revs1 (VInt 0) ;;
     revid <- getkey rev1 "revid" ;;
     setattr "_revision_id" revid ;;
     p2 <- own_page request ;;
     revs2 <- getkey p2 "revisions" ;;
     rev2 <- getitem revs2 (VInt 0) ;;
     parentid <- getkey rev2 "parentid" ;;
     setattr "_parent_id" parentid
   else ret tt) ;;
  getattr "_content".

(** The property [WikiPage.revision_id] *)
Definition WikiPage_revision_id : M value :=
  guard <- getattr_default "_revid" (VBool false) ;;
  (if negb (truthy guard) then run_coroutine_threadsafe ContentTask else ret tt) ;;
  getattr "_revision_id".

(** The property [WikiPage.parent_id] *)
Definition WikiPage_parent_id : M value :=
  guard <- getattr_default "_parentid" (VBool false) ;;
  (if negb (truthy guard) then run_coroutine_threadsafe ContentTask else ret tt) ;;
  getattr "_parent_id".

(** The property [WikiPage.summary] *)
Definition WikiPage_summary : M value :=
  cached <- getattr_default "_summary" (VBool false) ;;
  (if negb (truthy cached) then
     params <- add_selector [("prop", VStr "extracts"); ("explaintext", VStr EmptyString);
                             ("exintro", VStr EmptyString)] ;;
     session <- getattr "session" ;;
     endpoint <- getattr "endpoint" ;;
     request <- session_get session (format [Fmt endpoint]) (Some params) ;;
     p <- own_page request ;;
     extract <- getkey p "extract" ;;
     setattr "_summary" extract
   else ret tt) ;;
  getattr "_summary".

(** [c.index(sub, start)]: strings and lists have the method; not finding
    the item is a [ValueError]. *)
Fixpoint list_index (x : value) (start : nat) (l : list value) : option nat :=
  match l, start with
  | [], _ => None
  | y :: r, O => if py_eq y x then Some O else S <$> list_index x O r
  | _ :: r, S n => S <$> list_index x n r
  end.

Definition py_index (c : value) (sub : string) (start : nat) : result nat :=
  match c with
  | VStr s =>
      match String.index start sub s with
      | Some i => Ret i
      | None => Raise (ValueError "substring not found")
      end
  | VList l | VTuple l =>
      match list_index (VStr sub) start l with
      | Some i => Ret i
      | None => Raise (ValueError "not in list")
      end
  | _ => Raise (AttributeError "index")
  end.

Definition py_len (c : value) : result nat :=
  match c with
  | VStr s => Ret (String.length s)
  | VList l | VTuple l => Ret (length l)
  | VDict d => Ret (length d)
  | _ => Raise TypeError
  end.

(** [c[i:j]] *)
Definition py_slice (c : value) (i j : nat) : result value :=
  match c with
  | VStr s => Ret (VStr (str_slice s i j))
  | VList l => Ret (VList (take (j - i) (drop i l)))
  | VTuple l => Ret (VTuple (take (j - i) (drop i l)))
  | _ => Raise TypeError
  end.

Definition py_lstrip_eq (c : value) : result value :=
  match c with
  | VStr s => Ret (VStr (lstrip_eq s))
  | _ => Raise (AttributeError "lstrip")
  end.

Definition py_strip (c : value) : result value :=
  match c with
  | VStr s => Ret (VStr (strip s))
  | _ => Raise (AttributeError "strip")
  end.

(** [try: body except ValueError: handler] *)
Definition try_except_ValueError {A : Type} (body handler : M A) : M A :=
  fun w =>
    match body w with
    | (Raise (ValueError _), w') => handler w'
    | r => r
    end.

(** [WikiPage.section] *)
Definition WikiPage_section (section_title : string) : M value :=
  let section := "== " +:+ section_title +:+ " ==" in
  found <- try_except_ValueError
             (c <- WikiPage_content ;;
              i <- lift (py_index c section 0) ;;
              ret (Some (i + String.length section)%nat))
             (ret None) ;;
  match found with
  | None => ret VNone
  | Some index =>
      next_index <- try_except_ValueError
                      (c <- WikiPage_content ;; lift (py_index c "==" index))
                      (c <- WikiPage_content ;; lift (py_len c)) ;;
      c <- WikiPage_content ;;
      piece <- lift (py_slice c index next_index) ;;
      stripped <- lift (py_lstrip_eq piece) ;;
      lift (py_strip stripped)
  end.

(** *** The continued query *)

(** Why the generator stopped.  [OutsideModel]: the continuation held a pair
    whose key is no string. *)
Inductive stop : Type :=
| Finished
| Raised (e : exn)
| OutOfFuel
| OutsideModel.

Definition decimal (n : nat) : string := NilEmpty.string_of_uint (Nat.to_uint n).

(** The pair that the element [item], the [i]-th of an iterable given to
    [dict.update], stands for: the element is turned into a sequence, which
    must have two items, the key and the value.  [None] when the key is
    hashable and no string. *)
Definition pair_of (i : nat) (item : value) : option (result (string * value)) :=
  match py_iter item with
  | Raise _ => Some (Raise TypeError)
  | Ret [k; v] =>
      match k with
      | VStr s => Some (Ret (s, v))
      | VList _ | VDict _ => Some (Raise TypeError)
      | _ => None
      end
  | Ret l =>
      Some (Raise (ValueError ("dictionary update sequence element #" +:+ decimal i +:+
                               " has length " +:+ decimal (length l) +:+ "; 2 is required")))
  end.

Fixpoint update_pairs (i : nat) (params : dict) (items : list value) : option (result dict) :=
  match items with
  | [] => Some (Ret params)
  | item :: rest =>
      match pair_of i item with
      | Some (Ret (k, v)) => update_pairs (S i) (dict_set k v params) rest
      | Some (Raise e) => Some (Raise e)
      | None => None
      end
  end.

(** [params.update(last_continue)]: a JSON object is merged key by key; a
    list or a text is taken as an iterable of pairs (an empty one changes
    nothing); anything else is not iterable. *)
Definition update_with (params : dict) (last_continue : value) : option (result dict) :=
  match last_continue with
  | VDict c => Some (Ret (dict_update params c))
  | VList l | VTuple l => update_pairs 0 params l
  | VStr s => update_pairs 0 params (chars s)
  | _ => Some (Raise TypeError)
  end.

(** The items one response makes the generator yield. *)
Definition page_items (query_params : dict) (prop result : value) : M (list value) :=
  q <- getkey result "query" ;;
  pages <- getkey q "pages" ;;
  if dict_has "generator" query_params then lift (py_values pages)
  else
    pid <- getattr "page_id" ;;
    p <- getitem pages pid ;;
    l <- getitem p prop ;;
    lift (py_iter l).

(** One turn of the [while True] loop, from the request on: the items
    yielded and, unless the loop breaks, the next [last_continue]. *)
Definition continued_turn (query_params : dict) (prop : value) (params : dict)
    : M (list value * option value) :=
  session <- getattr "session" ;;
  endpoint <- getattr "endpoint" ;;
  result <- session_get_unawaited session (format [Fmt endpoint]) (Some params) ;;
  has_query <- contains "query" result ;;
  if negb has_query then ret ([], None)
  else
    items <- page_items query_params prop result ;;
    has_continue <- contains "continue" result ;;
    if negb has_continue then ret (items, None)
    else c <- getkey result "continue" ;; ret (items, Some c).

Fixpoint continued_loop (fuel : nat) (query_params : dict) (prop last_continue : value)
    (w : world) : (list value * stop) * world :=
  match fuel with
  | O => (([], OutOfFuel), w)
  | S fuel' =>
      match update_with query_params last_continue with
      | None => (([], OutsideModel), w)
      | Some (Raise e) => (([], Raised e), w)
      | Some (Ret params) =>
          match continued_turn query_params prop params w with
          | (Raise e, w') => (([], Raised e), w')
          | (Ret (items, None), w') => ((items, Finished), w')
          | (Ret (items, Some c), w') =>
              let '((rest, s), w'') := continued_loop fuel' query_params prop c w' in
              ((items ++ rest, s), w'')
          end
      end
  end.

(** [WikiPage.continued_query], drained: the caller's dictionary as the call
    leaves it, everything yielded, and why the generator stopped.  [fuel]
    bounds the number of turns of the loop. *)
Definition WikiPage_continued_query (fuel : nat) (query_params : dict) (w : world)
    : (dict * list value * stop) * world :=
  match WikiPage_title_query_param w with
  | (Raise e, w') => ((query_params, [], Raised e), w')
  | (Ret tq, w') =>
      let query_params' := dict_update query_params tq in
      let last_continue := VDict [] in
      let prop := default VNone (dict_get "prop" query_params') in
      let '((items, s), w'') := continued_loop fuel query_params' prop last_continue w' in
      ((query_params', items, s), w'')
  end.

(** ** The event loop *)

Definition run_task (t : task) : M value :=
  match t with
  | LoadTask redirect preload => WikiPage_load redirect preload ;; ret VNone
  | ContentTask => WikiPage_content
  end.

(** Run the first waiting task to its end and file its outcome. *)
Definition loop_step (l : run) : option run :=
  match pending (state l) with
  | [] => None
  | t :: rest =>
      let '(r, w') := run_task t (set_pending rest (state l)) in
      Some (Run w' (done l ++ [(t, r)]))
  end.

Fixpoint run_loop (fuel : nat) (l : run) : run :=
  match fuel with
  | O => l
  | S fuel' =>
      match loop_step l with
      | None => l
      | Some l' => run_loop fuel' l'
      end
  end.

(** A world in which nothing has happened yet. *)
Definition empty_world : world := World ∅ [] [].

(** Resolution as the source performs it: construct the page, then let the
    event loop run what the constructor scheduled, for at most [fuel]
    tasks.  The result of the constructor is what the caller gets; the
    outcomes of the loads are in [done]. *)
Definition resolve (fuel : nat) (title page_id : value) (redirect preload : bool)
    (locale : string) (session : value) : result unit * run :=
  let '(r, w) :=
    WikiPage_init title page_id redirect preload (VStr EmptyString) locale session empty_world in
  (r, run_loop fuel (Run w [])).

(** ** class AIOPedia *)

Record AIOPedia : Type := MkAIOPedia {
  ap_max_results : value;
  ap_title : value;
  ap_user_agent : string;
  ap_endpoint : value;
  ap_locale : string;
  ap_loop : value;
  ap_session : value
}.

(** [AIOPedia.__init__]; [session] is the [aiohttp.ClientSession()] the
    constructor creates. *)
Definition AIOPedia_init (title : string) (locale : string) (results : Z) (session : value)
    : AIOPedia :=
  MkAIOPedia (VInt results) (VStr (replace_spaces title))
    "AIOPedia (https://github.com/NCPlayz/AIOPedia/)"
    (endpoint_of locale) locale event_loop session.

Fixpoint map_m {A B : Type} (f : A -> M B) (l : list A) : M (list B) :=
  match l with
  | [] => ret []
  | x :: r => y <- f x ;; ys <- map_m f r ;; ret (y :: ys)
  end.

Definition timeout_signatures : list string :=
  ["HTTP request timed out."; "Pool queue is full"].

(** The last lines of [search]: the titles found, with the suggestion when
    one is asked for. *)
Definition search_found (raw_results : value) (suggestion : bool) : M value :=
  q <- getkey raw_results "query" ;;
  found <- getkey q "search" ;;
  search_results <- lift (py_iter found) ;;
  let titles := map_m (fun d => getkey d "title") search_results in
  if suggestion then
    q1 <- getkey raw_results "query" ;;
    searchinfo <- lift (py_get q1 "searchinfo") ;;
    if truthy searchinfo then
      l <- titles ;;
      q2 <- getkey raw_results "query" ;;
      si <- getkey q2 "searchinfo" ;;
      sg <- getkey si "suggestion" ;;
      ret (VTuple [VList l; sg])
    else
      l <- titles ;;
      ret (VTuple [VList l; VNone])
  else
    l <- titles ;;
    ret (VList l).

(** [AIOPedia.search] *)
Definition AIOPedia_search (self : AIOPedia) (results : value) (suggestion : bool) : M value :=
  let params := [("list", VStr "search"); ("srprop", VStr EmptyString); ("srlimit", results);
                 ("limit", results); ("srsearch", ap_title self)] in
  let params := if suggestion then dict_set "srinfo" (VStr "suggestion") params else params in
  raw_results <- session_get (ap_session self) (format [Fmt (ap_endpoint self)]) (Some params) ;;
  has_error <- contains "error" raw_results ;;
  if has_error then
    err <- getkey raw_results "error" ;;
    info <- getkey err "info" ;;
    if existsb (fun sig => py_eq info (VStr sig)) timeout_signatures then
      raise (HTTPTimeoutError (ap_title self))
    else
      err' <- getkey raw_results "error" ;;
      info' <- getkey err' "info" ;;
      raise (WikipediaException info')
  else search_found raw_results suggestion.

End Program.

(** * Reading the API's answers *)

(** The request [__load] sends first, for the selector [key] ([&titles=] or
    [&pageids=]) and the value formatted after it. *)
Definition load_request (session endpoint : value) (key : string) (v : value) : request :=
  Request session (format [Fmt endpoint; Lit load_query; Lit key; Fmt v]) None.

(** The response [resp] names a page that exists and reports a redirect. *)
Inductive reports_redirect (resp query page_id page : value) : Prop :=
| ReportsRedirect pages keys :
    py_getitem resp (VStr "query") = Ret query ->
    py_getitem query (VStr "pages") = Ret pages ->
    py_keys pages = Ret (page_id :: keys) ->
    py_getitem pages page_id = Ret page ->
    py_in "missing" page = Ret false ->
    py_in "redirects" query = Ret true ->
    reports_redirect resp query page_id page.

(** The title the redirect entry must come from, for the title asked. *)
Inductive normalized_source (title query : value) : value -> Prop :=
| NotNormalized :
    py_in "normalized" query = Ret false ->
    normalized_source title query title
| Normalized ns normalized nfrom nto :
    py_in "normalized" query = Ret true ->
    py_getitem query (VStr "normalized") = Ret ns ->
    py_getitem ns (VInt 0) = Ret normalized ->
    py_getitem normalized (VStr "from") = Ret nfrom ->
    py_eq nfrom title = true ->
    py_getitem normalized (VStr "to") = Ret nto ->
    normalized_source title query nto.

(** The response [resp] to the query for [title] says that [title] redirects
    to [rto], and its redirect entry passes the source check of [__load]. *)
Inductive redirects_to (title resp rto : value) : Prop :=
| RedirectsTo query page_id page rs redirects from_title rfrom :
    reports_redirect resp query page_id page ->
    py_getitem query (VStr "redirects") = Ret rs ->
    py_getitem rs (VInt 0) = Ret redirects ->
    normalized_source title query from_title ->
    py_getitem redirects (VStr "from") = Ret rfrom ->
    py_eq rfrom from_title = true ->
    py_getitem redirects (VStr "to") = Ret rto ->
    redirects_to title resp rto.

(** The errors with which a resolution fails: missing page, unfollowed
    redirect, disambiguation page, unexpected redirect source. *)
Inductive resolution_error : exn -> Prop :=
| ResMissing v : resolution_error (PageError v)
| ResRedirect v : resolution_error (RedirectError v)
| ResDisambiguation t l : resolution_error (DisambiguationError t l)
| ResSource : resolution_error AssertionError.

(** * Specifications *)

(** The first request of [__load] on the page of [w]: by page id when the
    page has a truthy [page_id], by title otherwise. *)
Definition first_request (w : world) : option request :=
  endpoint ← obj w !! "endpoint";
  session ← obj w !! "session";
  if truthy (default VNone (obj w !! "page_id"))
  then load_request session endpoint "&pageids=" <$> obj w !! "page_id"
  else load_request session endpoint "&titles=" <$> obj w !! "title".

(** ** Frame conditions on computations *)

(** [m] never changes the page object or the event loop's queue. *)
Definition quiet {A : Type} (m : M A) : Prop :=
  forall w, obj (snd (m w)) = obj w /\ pending (snd (m w)) = pending w.

(** [m] never raises a resolution error. *)
Definition spares {A : Type} (m : M A) : Prop :=
  forall w e w', m w = (Raise e, w') -> ~ resolution_error e.

(** When [m] raises a resolution error, it has changed neither the page
    object nor the queue. *)
Definition frames {A : Type} (m : M A) : Prop :=
  forall w e w', m w = (Raise e, w') -> resolution_error e ->
    obj w' = obj w /\ pending w' = pending w.

(** A plain result is no resolution error. *)
Definition benign {A : Type} (r : result A) : Prop :=
  forall e, r = Raise e -> ~ resolution_error e.

(** From a page without [url]: afterwards either nothing new waits on the
    loop, or one more load waits and there is still no [url]. *)
Definition settles {A : Type} (m : M A) : Prop :=
  forall w r w', obj w !! "url" = None -> m w = (r, w') ->
    pending w' = pending w \/
    (obj w' !! "url" = None /\
     exists redirect preload, pending w' = pending w ++ [LoadTask redirect preload]).

(** The invariant of a resolution on the event loop: a resolution error is
    the last outcome, with nothing left to run and no [url] written; and at
    most one load waits, and while one waits there is no [url]. *)
Definition resolving (l : run) : Prop :=
  (forall t e, In (t, Raise e) (done l) -> resolution_error e ->
     last (done l) = Some (t, Raise e) /\
     pending (state l) = [] /\
     obj (state l) !! "url" = None) /\
  (pending (state l) = [] \/
   (obj (state l) !! "url" = None /\
    exists redirect preload, pending (state l) = [LoadTask redirect preload])).

(** [m] never assigns the attribute [n]. *)
Definition untouched {A : Type} (n : string) (m : M A) : Prop :=
  forall w, obj (snd (m w)) !! n = obj w !! n.

(** [m] removes no attribute. *)
Definition keeps_attributes {A : Type} (m : M A) : Prop :=
  forall w n, is_Some (obj w !! n) -> is_Some (obj (snd (m w)) !! n).

(** ** The operations of the program on a page *)

Inductive operation : Type :=
| OpInit (title page_id : value) (redirect preload : bool) (original_title : value)
    (locale : string) (session : value)
| OpLoad (redirect preload : bool)
| OpContinuedQuery (fuel : nat) (query_params : dict)
| OpHtml
| OpContent
| OpRevisionId
| OpParentId
| OpSummary
| OpSection (section_title : string)
| OpSearch (self : AIOPedia) (results : value) (suggestion : bool)
| OpRunNext.

(** The world after an operation, whatever it returned or raised.
    [OpRunNext] is the event loop running the first waiting task. *)
Definition perform (http json_call : request -> result value)
    (find_all_li : value -> list li_tag) (op : operation) (w : world) : world :=
  match op with
  | OpInit title page_id redirect preload original_title locale session =>
      snd (WikiPage_init title page_id redirect preload original_title locale session w)
  | OpLoad redirect preload => snd (WikiPage_load json_call find_all_li redirect preload w)
  | OpContinuedQuery fuel query_params => snd (WikiPage_continued_query json_call fuel query_params w)
  | OpHtml => snd (WikiPage_html http w)
  | OpContent => snd (WikiPage_content http w)
  | OpRevisionId => snd (WikiPage_revision_id w)
  | OpParentId => snd (WikiPage_parent_id w)
  | OpSummary => snd (WikiPage_summary http w)
  | OpSection section_title => snd (WikiPage_section http section_title w)
  | OpSearch self results suggestion => snd (AIOPedia_search http self results suggestion w)
  | OpRunNext =>
      match pending w with
      | [] => w
      | t :: rest => snd (run_task http json_call find_all_li t (set_pending rest w))
      end
  end.

Definition perform_all (http json_call : request -> result value)
    (find_all_li : value -> list li_tag) (ops : list operation) (w : world) : world :=
  fold_left (fun w op => perform http json_call find_all_li op w) ops w.

(** ** The lazy accessors *)

Inductive accessor : Type :=
| Html
| Content
| Summary.

Definition access (http : request -> result value) (a : accessor) : M value :=
  match a with
  | Html => WikiPage_html http
  | Content => WikiPage_content http
  | Summary => WikiPage_summary http
  end.

(** The attribute in which an accessor keeps its value. *)
Definition slot (a : accessor) : string :=
  match a with
  | Html => "_html"
  | Content => "_content"
  | Summary => "_summary"
  end.

(** The [prop] parameter of the accessor's query. *)
Definition prop_of (a : accessor) : string :=
  match a with
  | Html => "revisions"
  | Content => "extracts|revisions"
  | Summary => "extracts"
  end.

Definition and_then {A B : Type} (r : result A) (k : A -> result B) : result B :=
  match r with
  | Ret a => k a
  | Raise e => Raise e
  end.

(** The part of the response an accessor consumes:
    [query.pages[id].revisions[0]['*']] for the HTML,
    [query.pages[id].extract] for content and summary. *)
Definition field_of (a : accessor) (page_id response : value) : result value :=
  and_then (py_getitem response (VStr "query")) (fun q =>
  and_then (py_getitem q (VStr "pages")) (fun ps =>
  and_then (py_getitem ps page_id) (fun p =>
  match a with
  | Html =>
      and_then (py_getitem p (VStr "revisions")) (fun revs =>
      and_then (py_getitem revs (VInt 0)) (fun rev =>
      py_getitem rev (VStr "*")))
  | _ => py_getitem p (VStr "extract")
  end))).

(** [query.pages[id].revisions[0][key]] *)
Definition revision_field (key : string) (page_id response : value) : result value :=
  and_then (py_getitem response (VStr "query")) (fun q =>
  and_then (py_getitem q (VStr "pages")) (fun ps =>
  and_then (py_getitem ps page_id) (fun p =>
  and_then (py_getitem p (VStr "revisions")) (fun revs =>
  and_then (py_getitem revs (VInt 0)) (fun rev =>
  py_getitem rev (VStr key)))))).

(** The slot holds nothing the accessor would return as it is. *)
Definition slot_empty (a : accessor) (w : world) : Prop :=
  truthy (default (VBool false) (obj w !! slot a)) = false.

(** The server answers every query for the accessor's [prop] with a response
    in which the page [page_id] has the field [v] and both revision ids. *)
Definition serves (http : request -> result value) (a : accessor) (page_id v : value) : Prop :=
  forall rq, (rq_params rq ≫= dict_get "prop") = Some (VStr (prop_of a)) ->
    exists resp revid parentid,
      http rq = Ret resp /\
      field_of a page_id resp = Ret v /\
      revision_field "revid" page_id resp = Ret revid /\
      revision_field "parentid" page_id resp = Ret parentid.

(** ** What [section] is asked to return *)

(** [sub] occurs in [s] at offset [i]. *)
Definition occurs_at (sub s : string) (i : nat) : Prop :=
  exists pre post, s = pre +:+ sub +:+ post /\ String.length pre = i.

(** [i] is the offset of the first occurrence of [sub] in [s]. *)
Definition first_at (sub s : string) (i : nat) : Prop :=
  occurs_at sub s i /\ forall j, occurs_at sub s j -> (i <= j)%nat.

Definition absent (sub s : string) : Prop := forall i, ~ occurs_at sub s i.

(** The heading line searched for. *)
Definition marker (section_title : string) : string :=
  "== " +:+ section_title +:+ " ==".

(** The text that follows the first heading line of that title, up to the
    next [==] or to the end; none when there is no such heading line. *)
Inductive text_after (content section_title : string) : option string -> Prop :=
| HeadingAbsent :
    absent (marker section_title) content ->
    text_after content section_title None
| UpToNext pre rest body tail :
    content = pre +:+ marker section_title +:+ rest ->
    first_at (marker section_title) content (String.length pre) ->
    rest = body +:+ "==" +:+ tail ->
    first_at "==" rest (String.length body) ->
    text_after content section_title (Some body)
| ToEnd pre rest :
    content = pre +:+ marker section_title +:+ rest ->
    first_at (marker section_title) content (String.length pre) ->
    absent "==" rest ->
    text_after content section_title (Some rest).

(** A text of white space only. *)
Fixpoint blank (s : string) : bool :=
  match s with
  | String c r => is_space c && blank r
  | EmptyString => true
  end.

(** A text of [=] signs only. *)
Fixpoint signs (s : string) : bool :=
  match s with
  | String c r => Ascii.eqb c "="%char && signs r
  | EmptyString => true
  end.

(** [t] neither begins nor ends with white space. *)
Definition bare (t : string) : Prop :=
  (forall c r, t = String c r -> is_space c = false) /\
  (forall r c, t = r +:+ String c EmptyString -> is_space c = false).

(** [t] is the text [s] trimmed: [s] without the white space at its two
    ends. *)
Definition trim_of (s t : string) : Prop :=
  exists pre post, s = pre +:+ t +:+ post /\ blank pre = true /\ blank post = true /\ bare t.

(** [t] is the text [s] without the [=] signs it begins with. *)
Definition unsigned (s t : string) : Prop :=
  exists eqs, s = eqs +:+ t /\ signs eqs = true /\ forall r, t <> String "="%char r.

(** The section as the claim words it: the trimmed text up to the next
    [==], and [None] when the heading line is absent. *)
Inductive section_as_claimed (content section_title : string) : value -> Prop :=
| ClaimedAbsent :
    text_after content section_title None ->
    section_as_claimed content section_title VNone
| ClaimedText body t :
    text_after content section_title (Some body) ->
    trim_of body t ->
    section_as_claimed content section_title (VStr t).

(** The section as the source cuts it: the [=] signs that a heading of a
    deeper level leaves at the start of the text go first, then the text is
    trimmed. *)
Inductive section_text (content section_title : string) : value -> Prop :=
| SectionAbsent :
    text_after content section_title None ->
    section_text content section_title VNone
| SectionText body mid t :
    text_after content section_title (Some body) ->
    unsigned body mid ->
    trim_of mid t ->
    section_text content section_title (VStr t).

Definition history_content : string :=
  "intro == History == body text == Legacy == more".

(** A content whose heading [H] is of the third level. *)
Definition deeper_content : string :=
  "=== H === body === S === x".

(** The steps of [section] on the text of the content, as a function of
    that text and the title. *)
Definition section_value (content section_title : string) : value :=
  match String.index 0 (marker section_title) content with
  | None => VNone
  | Some i =>
      let index := (i + String.length (marker section_title))%nat in
      let next_index :=
        match String.index index "==" content with
        | Some j => j
        | None => String.length content
        end in
      VStr (strip (lstrip_eq (str_slice content index next_index)))
  end.

(** ** Paged responses *)

(** The request of one turn of the continued query. *)
Definition query_request (session endpoint : value) (params : dict) : request :=
  Request session (format [Fmt endpoint]) (Some params).

(** The items a response carries for the query: every page of a generator
    query, else the [prop] list of the page the query is bound to. *)
Definition response_items (query_params : dict) (prop : value) (page_id : option value)
    (response : value) : result (list value) :=
  and_then (py_getitem response (VStr "query")) (fun q =>
  and_then (py_getitem q (VStr "pages")) (fun pages =>
  if dict_has "generator" query_params then py_values pages
  else
    match page_id with
    | Some pid =>
        and_then (py_getitem pages pid) (fun p =>
        and_then (py_getitem p prop) py_iter)
    | None => Raise (AttributeError "page_id")
    end)).

(** The items a response carries for the query, in the words of the
    interface: for a query with a [generator], every page of the mapping
    [query.pages], in its order; otherwise every item of the list that the
    page the query is bound to has under [prop]. *)
Inductive carries (query_params : dict) (prop : value) (page_id : option value)
    (response : value) : list value -> Prop :=
| CarriesPages q pages :
    dict_get "generator" query_params <> None ->
    py_getitem response (VStr "query") = Ret q ->
    py_getitem q (VStr "pages") = Ret (VDict pages) ->
    carries query_params prop page_id response (map snd pages)
| CarriesList q pages pid p items :
    dict_get "generator" query_params = None ->
    py_getitem response (VStr "query") = Ret q ->
    py_getitem q (VStr "pages") = Ret pages ->
    page_id = Some pid ->
    py_getitem pages pid = Ret p ->
    py_getitem p prop = Ret (VList items) ->
    carries query_params prop page_id response items.

(** A response that carries [items] and the continuation [next], or
    none. *)
Definition paged (query_params : dict) (prop : value) (page_id : option value)
    (response : value) (items : list value) (next : option value) : Prop :=
  carries query_params prop page_id response items /\
  match next with
  | Some c =>
      py_in "continue" response = Ret true /\
      py_getitem response (VStr "continue") = Ret c
  | None => py_in "continue" response = Ret false
  end.

(** ** Search responses *)

Definition search_request (self : AIOPedia) (results : value) (suggestion : bool) : request :=
  let params := [("list", VStr "search"); ("srprop", VStr EmptyString); ("srlimit", results);
                 ("limit", results); ("srsearch", ap_title self)] in
  Request (ap_session self) (format [Fmt (ap_endpoint self)])
    (Some (if suggestion then dict_set "srinfo" (VStr "suggestion") params else params)).

(** The response reports an error with the message [info]. *)
Definition reports_error (raw info : value) : Prop :=
  py_in "error" raw = Ret true /\
  exists err, py_getitem raw (VStr "error") = Ret err /\
              py_getitem err (VStr "info") = Ret info.

(** The message is one of the two known signatures: that of a request that
    timed out, or that of an exhausted pool. *)
Definition is_timeout (info : value) : Prop :=
  info = VStr "HTTP request timed out." \/ info = VStr "Pool queue is full".

(** The response reports no error and lists results with the titles
    [titles]. *)
Definition lists_titles (raw query : value) (titles : list value) : Prop :=
  py_in "error" raw = Ret false /\
  py_getitem raw (VStr "query") = Ret query /\
  exists found items,
    py_getitem query (VStr "search") = Ret found /\
    py_iter found = Ret items /\
    Forall2 (fun d t => py_getitem d (VStr "title") = Ret t) items titles.

(** The suggestion of a response: that of a truthy [searchinfo], else
    [None]. *)
Definition suggestion_of (query : value) : result value :=
  and_then (py_get query "searchinfo") (fun searchinfo =>
  if truthy searchinfo then py_getitem searchinfo (VStr "suggestion") else Ret VNone).

(** The suggestion a response comes with: the [suggestion] of its
    [searchinfo] when it has one that is not empty, and none otherwise. *)
Inductive suggests (query : value) : value -> Prop :=
| Suggests searchinfo sg :
    py_getitem query (VStr "searchinfo") = Ret searchinfo ->
    truthy searchinfo = true ->
    py_getitem searchinfo (VStr "suggestion") = Ret sg ->
    suggests query sg
| SuggestsNothing :
    py_in "searchinfo" query = Ret false ->
    suggests query VNone
| SuggestsEmpty searchinfo :
    py_getitem query (VStr "searchinfo") = Ret searchinfo ->
    truthy searchinfo = false ->
    suggests query VNone.

(** The errors that reading a container raises. *)
Inductive plain_error : exn -> Prop :=
| PlainKey k : plain_error (KeyError k)
| PlainIndex : plain_error IndexError
| PlainType : plain_error TypeError
| PlainAttribute n : plain_error (AttributeError n).

(** [m] raises errors in [P] only. *)
Definition raises_only {A : Type} (P : exn -> Prop) (m : M A) : Prop :=
  forall w e w', m w = (Raise e, w') -> P e.

(** The value of [__title_query_param] on a page with the attributes [o]. *)
Definition title_query_param_of (o : gmap string value) : result dict :=
  match default VNone (o !! "title") with
  | VNone =>
      match o !! "page_id" with
      | Some p => Ret [("pageids", p)]
      | None => Raise (AttributeError "page_id")
      end
  | _ =>
      match o !! "title" with
      | Some t => Ret [("titles", t)]
      | None => Raise (AttributeError "title")
      end
  end.

(** ** Concrete servers and pages *)

(** A parser that finds no list item. *)
Definition no_items (html : value) : list li_tag := [].

Definition url_is (rq : request) (u : string) : bool :=
  match rq_url rq with
  | [Lit s] => String.eqb s u
  | _ => false
  end.

(** The URL [__load] asks first, for a title on a locale. *)
Definition load_url (locale title : string) : string :=
  "https://" +:+ locale +:+ ".wikipedia.org/w/api.php?action=query&format=json"
  +:+ load_query +:+ "&titles=" +:+ title.

(** The answer for a page that exists and is no redirect. *)
Definition page_response (page_id title fullurl : string) : value :=
  VDict [("query", VDict [("pages", VDict [(page_id,
    VDict [("pageid", VStr page_id); ("title", VStr title); ("fullurl", VStr fullurl)])])])].

(** The answer for a title that redirects to a page. *)
Definition redirect_response (source page_id title fullurl : string) : value :=
  VDict [("query", VDict [
    ("redirects", VList [VDict [("from", VStr source); ("to", VStr title)]]);
    ("pages", VDict [(page_id,
       VDict [("pageid", VStr page_id); ("title", VStr title); ("fullurl", VStr fullurl)])])])].

(** A server on which no page exists. *)
Definition http_missing (rq : request) : result value :=
  Ret (VDict [("query", VDict [("pages", VDict [("-1",
    VDict [("title", VStr "Nope"); ("missing", VStr EmptyString)])])])]).

(** A server with two wikis: on the French one [A] redirects to [B]; both
    wikis have a page [B], under different ids. *)
Definition http_two_wikis (rq : request) : result value :=
  if url_is rq (load_url "fr" "A") then Ret (redirect_response "A" "2" "B" "https://fr.wikipedia.org/wiki/B")
  else if url_is rq (load_url "fr" "B") then Ret (page_response "2" "B" "https://fr.wikipedia.org/wiki/B")
  else if url_is rq (load_url "en" "B") then Ret (page_response "7" "B" "https://en.wikipedia.org/wiki/B")
  else Raise TransportError.

(** The identity of the page of a run: title, page id and URL. *)
Definition identity_of (l : run) : option value * option value * option value :=
  (obj (state l) !! "title", obj (state l) !! "page_id", obj (state l) !! "url").

(** A resolved page with nothing cached. *)
Definition resolved_page (title page_id : string) : world :=
  World (<["url" := VStr ("https://en.wikipedia.org/wiki/" +:+ title)]>
           (<["page_id" := VStr page_id]>
              (<["endpoint" := endpoint_of "en"]> (<["session" := default_session]>
                 (<["loop" := event_loop]> (<["original_title" := VStr EmptyString]>
                    (<["title" := VStr title]> ∅)))))))
        [] [].

(** A server whose page [1] has the plain text [extract] and the revision
    ids 5 and 4. *)
Definition http_extract (extract : string) (rq : request) : result value :=
  Ret (VDict [("query", VDict [("pages", VDict [("1",
    VDict [("extract", VStr extract);
           ("revisions", VList [VDict [("revid", VInt 5); ("parentid", VInt 4);
                                       ("*", VStr extract)]])])])])]).

(** A server that lists the links of page [1] on three pages of results. *)
Definition links_response (links : list string) (next : option string) : value :=
  VDict ((("query", VDict [("pages", VDict [("1",
            VDict [("links", VList (map VStr links))])])]) : string * value)
         :: match next with
            | Some c => [("continue", VDict [("plcontinue", VStr c)])]
            | None => []
            end).

Definition http_links (rq : request) : result value :=
  match rq_params rq with
  | Some params =>
      match dict_get "plcontinue" params with
      | None => Ret (links_response ["L1"; "L2"] (Some "p2"))
      | Some (VStr "p2") => Ret (links_response ["L3"] (Some "p3"))
      | Some (VStr "p3") => Ret (links_response ["L4"; "L5"] None)
      | Some _ => Raise TransportError
      end
  | None => Raise TransportError
  end.

(** A server that answers a search with two titles and a suggestion. *)
Definition http_search (rq : request) : result value :=
  Ret (VDict [("query", VDict [
    ("searchinfo", VDict [("suggestion", VStr "python")]);
    ("search", VList [VDict [("title", VStr "Python")]; VDict [("title", VStr "Pythons")]])])]).

Definition pedia : AIOPedia := AIOPedia_init "pyhton" "en" 1 (VObj 2).

(** * The rest of the module *)

(** ** [WikiPage.__eq__] *)

(** [self == other], on the attributes of the two objects.  Reading an
    attribute that is not there raises inside the [try], and the bare
    [except] turns every error into [False]. *)
Definition WikiPage_eq (self other : gmap string value) : bool :=
  match self !! "page_id", other !! "page_id" with
  | Some a, Some b =>
      if py_eq a b then
        match self !! "title", other !! "title" with
        | Some t, Some u => py_eq t u
        | _, _ => false
        end
      else false
  | _, _ => false
  end.

(** ** [AIOPedia.get_summary] and [AIOPedia.page] *)

(** [a, b = v] *)
Definition unpack2 (v : value) : result (value * value) :=
  match py_iter v with
  | Ret [a; b] => Ret (a, b)
  | Ret _ => Raise (ValueError "wrong number of values to unpack")
  | Raise e => Raise e
  end.

(** [try: body except IndexError: handler] *)
Definition try_except_IndexError {A : Type} (body handler : M A) : M A :=
  fun w =>
    match body w with
    | (Raise IndexError, w') => handler w'
    | r => r
    end.

(** [self.title = t] *)
Definition set_title (t : value) (self : AIOPedia) : AIOPedia :=
  MkAIOPedia (ap_max_results self) t (ap_user_agent self) (ap_endpoint self)
    (ap_locale self) (ap_loop self) (ap_session self).

(** A new object takes the place of the page of the world: the world holds
    one page, the one constructed last. *)
Definition new_object : M unit :=
  fun w => (Ret tt, set_obj ∅ w).

Section Callers.

Variable http : request -> result value.

(** [BeautifulSoup(snippet, "lxml").text]: the text of a snippet, or the
    error the parser raises. *)
Variable soup_text : value -> result string.

(** The text that formatting gives for a value that is no string. *)
Variable other_text : value -> string.

(** [f"{v}"] *)
Definition str_of (v : value) : string :=
  match v with
  | VStr s => s
  | _ => other_text v
  end.

(** [AIOPedia.get_summary] *)
Definition AIOPedia_get_summary (self : AIOPedia) : M value :=
  let request :=
    format [Fmt (ap_endpoint self); Lit "&srsearch="; Fmt (ap_title self);
            Lit "&list=search&srlimit="; Fmt (ap_max_results self)] in
  result <- session_get http (ap_session self) request None ;;
  q <- getkey result "query" ;;
  found <- getkey q "search" ;;
  first <- getitem found (VInt 0) ;;
  snippet <- getkey first "snippet" ;;
  cleantext <- lift (soup_text snippet) ;;
  ret (VStr (cleantext +:+ "...")).

(** The title [page] settles on when it is asked to suggest: the suggestion
    of a search for the title, else the first result. *)
Definition suggested_title (self : AIOPedia) : M value :=
  found <- AIOPedia_search http self (VInt 10) true ;;
  pair <- lift (unpack2 found) ;;
  let '(results, suggestion) := pair in
  try_except_IndexError
    (if truthy suggestion then ret suggestion else getitem results (VInt 0))
    (raise (PageError (VStr (str_of (ap_title self) +:+ " does not exist.")))).

(** [AIOPedia.page]: the outcome, and the [AIOPedia] object as the call
    leaves it; the page constructed is the page of the world. *)
Definition AIOPedia_page (self : AIOPedia) (page_id : value)
    (auto_suggest redirect preload : bool) (w : world) : (result unit * AIOPedia) * world :=
  if truthy (ap_title self) then
    if auto_suggest then
      match suggested_title self w with
      | (Ret t, w1) =>
          let self' := set_title t self in
          let '(r, w2) :=
            (new_object ;;
             WikiPage_init (ap_title self') VNone redirect preload (VStr EmptyString)
               (ap_locale self') (ap_session self')) w1 in
          ((r, self'), w2)
      | (Raise e, w1) => ((Raise e, self), w1)
      end
    else
      let '(r, w1) :=
        (new_object ;;
         WikiPage_init (ap_title self) VNone redirect preload (VStr EmptyString)
           (ap_locale self) (ap_session self)) w in
      ((r, self), w1)
  else if truthy page_id then
    let '(r, w1) :=
      (new_object ;;
       WikiPage_init VNone page_id redirect preload (VStr EmptyString)
         (ap_locale self) (ap_session self)) w in
    ((r, self), w1)
  else ((Raise (ValueError "Either a Title or a Page ID must be specified."), self), w).

End Callers.

(** The request of [get_summary]. *)
Definition summary_request (self : AIOPedia) : request :=
  Request (ap_session self)
    (format [Fmt (ap_endpoint self); Lit "&srsearch="; Fmt (ap_title self);
             Lit "&list=search&srlimit="; Fmt (ap_max_results self)]) None.

(** The title [page] settles on, from the titles found and the
    suggestion. *)
Definition chosen_title (titles : list value) (suggestion : value) : option value :=
  if truthy suggestion then Some suggestion else head titles.

(** The responses on which [get_summary] finds no snippet, with the error
    it raises: a response that reports an error and has no [query], and a
    response without hits. *)
Inductive no_snippet (raw : value) : exn -> Prop :=
| ErrorReported info :
    reports_error raw info ->
    py_in "query" raw = Ret false ->
    no_snippet raw (KeyError (VStr "query"))
| NoHits q :
    py_getitem raw (VStr "query") = Ret q ->
    py_getitem q (VStr "search") = Ret (VList []) ->
    no_snippet raw IndexError.

(** ** More answers of the API *)

(** The response names the page [page], under the key [page_key]. *)
Inductive names_page (resp query page_key page : value) : Prop :=
| NamesPage pages keys :
    py_getitem resp (VStr "query") = Ret query ->
    py_getitem query (VStr "pages") = Ret pages ->
    py_keys pages = Ret (page_key :: keys) ->
    py_getitem pages page_key = Ret page ->
    names_page resp query page_key page.

(** The response is about a page that exists, is no redirect and no
    disambiguation page, with the title [title] and the URL [fullurl]. *)
Definition reports_plain (resp page_key title fullurl : value) : Prop :=
  exists query page,
    names_page resp query page_key page /\
    py_in "missing" page = Ret false /\
    py_in "redirects" query = Ret false /\
    py_in "pageprops" page = Ret false /\
    py_getitem page (VStr "title") = Ret title /\
    py_getitem page (VStr "fullurl") = Ret fullurl.

(** The response marks the page missing. *)
Definition reports_missing (resp : value) : Prop :=
  exists query page_key page,
    names_page resp query page_key page /\
    py_in "missing" page = Ret true.

(** The response is about a disambiguation page with the title
    [page_title]. *)
Definition reports_disambiguation (resp page_key page_title : value) : Prop :=
  exists query page,
    names_page resp query page_key page /\
    py_in "missing" page = Ret false /\
    py_in "redirects" query = Ret false /\
    py_in "pageprops" page = Ret true /\
    py_getitem page (VStr "title") = Ret page_title.

(** The rendered page the second request of the disambiguation branch
    asks for: [query.pages[key].revisions[0]['*']]. *)
Definition rendered (page_key resp : value) : result value :=
  field_of Html page_key resp.

(** The second request of the disambiguation branch. *)
Definition html_request (session endpoint : value) (key : string) (v : value) : request :=
  Request session (format [Fmt endpoint; Lit html_query; Lit key; Fmt v]) None.

(** The response reports a redirect whose first entry comes from [rfrom],
    while [__load] expects it to come from [expected]. *)
Inductive redirect_from (title resp rfrom expected : value) : Prop :=
| RedirectFrom query page_key page rs redirects :
    reports_redirect resp query page_key page ->
    py_getitem query (VStr "redirects") = Ret rs ->
    py_getitem rs (VInt 0) = Ret redirects ->
    normalized_source title query expected ->
    py_getitem redirects (VStr "from") = Ret rfrom ->
    redirect_from title resp rfrom expected.

(** The page a constructor call by title leaves in a world without page. *)
Definition constructed (title original_title : value) (locale : string) (session : value)
    : gmap string value :=
  <["endpoint" := endpoint_of locale]> (<["session" := session]>
    (<["loop" := event_loop]> (<["original_title" := original_title]>
       (<["title" := title]> ∅)))).

(** The request the disambiguation branch of [__load] sends on the page of
    [w]: by page id when the page has a [page_id] at all, by title
    otherwise. *)
Definition second_request (w : world) : option request :=
  endpoint ← obj w !! "endpoint";
  session ← obj w !! "session";
  match obj w !! "page_id" with
  | Some p => Some (html_request session endpoint "&pageids=" p)
  | None => html_request session endpoint "&titles=" <$> obj w !! "title"
  end.

(** Whom [__load] names in its [PageError]: the title when the page has
    one, else the page id. *)
Definition asked_for (w : world) : value :=
  match obj w !! "title" with
  | Some t => t
  | None => default VNone (obj w !! "page_id")
  end.

(** The request that resolves the title [t] on the English wiki with the
    module's session. *)
Definition default_request (t : value) : request :=
  load_request default_session (endpoint_of "en") "&titles=" t.

(** The error of a step that takes the value of [json()] on the module's
    session: that of the request when it fails, and otherwise the
    [TypeError] of the first read of the coroutine. *)
Definition unawaited_error (json_call : request -> result value) (rq : request) : exn :=
  match json_call rq with
  | Ret _ => TypeError
  | Raise e => e
  end.

(** The attributes the preload loop reads from the instance. *)
Definition preloaded : list string := ["images"; "references"; "links"; "sections"].

(** The first of them that the object lacks. *)
Definition first_lacking (o : gmap string value) : option string :=
  List.find (fun p => negb (bool_decide (is_Some (o !! p)))) preloaded.

(** What [__load] can read of the [normalized] block of a response before
    it looks at the title of the page. *)
Inductive source_read (query : value) : Prop :=
| SourceAsGiven :
    py_in "normalized" query = Ret false ->
    source_read query
| SourceNormalized ns normalized nfrom :
    py_in "normalized" query = Ret true ->
    py_getitem query (VStr "normalized") = Ret ns ->
    py_getitem ns (VInt 0) = Ret normalized ->
    py_getitem normalized (VStr "from") = Ret nfrom ->
    source_read query.

(** ** The attributes an operation assigns *)

Definition init_names : list string :=
  ["title"; "original_title"; "page_id"; "loop"; "session"; "endpoint"].

Definition load_names : list string :=
  ["page_id"; "title"; "url"; "original_title"; "loop"; "session"; "endpoint"].

Definition content_names : list string :=
  ["_content"; "_revision_id"; "_parent_id"].

Definition writes (op : operation) : list string :=
  match op with
  | OpInit _ _ _ _ _ _ _ => init_names
  | OpLoad _ _ => load_names
  | OpHtml => ["_html"]
  | OpContent | OpSection _ => content_names
  | OpSummary => ["_summary"]
  | OpRunNext => load_names ++ content_names
  | OpContinuedQuery _ _ | OpRevisionId | OpParentId | OpSearch _ _ _ => []
  end.

(** ** Requests *)

(** [m] sends no request. *)
Definition silent {A : Type} (m : M A) : Prop :=
  forall w, log (snd (m w)) = log w.

(** The [titles] or [pageids] entry [content] and [summary] add to their
    parameters on a page with the attributes [o]. *)
Definition selector_of (o : gmap string value) (params : dict) : option dict :=
  match default VNone (o !! "title") with
  | VNone => (fun p => dict_set "pageids" p params) <$> o !! "page_id"
  | _ => (fun t => dict_set "titles" t params) <$> o !! "title"
  end.

Definition content_params : dict :=
  [("prop", VStr "extracts|revisions"); ("explaintext", VStr EmptyString); ("rvprop", VStr "ids")].

Definition summary_params : dict :=
  [("prop", VStr "extracts"); ("explaintext", VStr EmptyString); ("exintro", VStr EmptyString)].

(** The parameters of the request of an accessor, for a title. *)
Definition html_params (title : value) : dict :=
  [("prop", VStr "revisions"); ("rvprop", VStr "content"); ("rvlimit", VInt 1);
   ("rvparse", VStr EmptyString); ("titles", title)].

(** The request an accessor sends on the page of [w] when it has to
    fetch. *)
Definition access_request (a : accessor) (w : world) : option request :=
  session ← obj w !! "session";
  endpoint ← obj w !! "endpoint";
  params ← match a with
           | Html => html_params <$> obj w !! "title"
           | Content => selector_of (obj w) content_params
           | Summary => selector_of (obj w) summary_params
           end;
  Some (query_request session endpoint params).

(** ** Conversations of the continued query *)

(** Starting from the value [c] of [last_continue], the requests [rqs] are
    answered one after the other, [answer] giving the value the loop takes
    for each response; every request carries the parameters updated with
    the continuation of the answer before.  The answers carry [items] in
    all, and the conversation ends for the reason [s]: a response without
    continuation, a response without [query], a failed request, or a
    continuation the parameters cannot be updated with. *)
Inductive pages_from (answer : request -> result value) (session endpoint : value)
    (params : dict) (prop : value) (page_id : option value)
    : value -> list request -> list value -> stop -> Prop :=
| BadContinuation c e :
    update_with params c = Some (Raise e) ->
    pages_from answer session endpoint params prop page_id c [] [] (Raised e)
| LastPage c p resp items :
    update_with params c = Some (Ret p) ->
    answer (query_request session endpoint p) = Ret resp ->
    paged params prop page_id resp items None ->
    pages_from answer session endpoint params prop page_id c
      [query_request session endpoint p] items Finished
| NoQuery c p resp :
    update_with params c = Some (Ret p) ->
    answer (query_request session endpoint p) = Ret resp ->
    py_in "query" resp = Ret false ->
    pages_from answer session endpoint params prop page_id c
      [query_request session endpoint p] [] Finished
| FailedPage c p e :
    update_with params c = Some (Ret p) ->
    answer (query_request session endpoint p) = Raise e ->
    pages_from answer session endpoint params prop page_id c
      [query_request session endpoint p] [] (Raised e)
| NextPage c p resp items c' rqs rest s :
    update_with params c = Some (Ret p) ->
    answer (query_request session endpoint p) = Ret resp ->
    paged params prop page_id resp items (Some c') ->
    pages_from answer session endpoint params prop page_id c' rqs rest s ->
    pages_from answer session endpoint params prop page_id c
      (query_request session endpoint p :: rqs) (items ++ rest) s.

(** ** Candidates of a disambiguation page *)

(** The list item belongs to the table of contents: its classes, written
    one after the other, mention [tocsection]. *)
Definition of_contents (li : li_tag) : Prop :=
  str_contains "tocsection" (String.concat EmptyString (li_class li)) = true.

(** The candidates taken from the list items of a page, in the order of the
    items: the anchor text of every item that has an anchor and does not
    belong to the table of contents. *)
Inductive picked : list li_tag -> list value -> Prop :=
| PickedNone : picked [] []
| PickedContents li lis cs :
    of_contents li -> picked lis cs -> picked (li :: lis) cs
| PickedBare li lis cs :
    li_a li = None -> picked lis cs -> picked (li :: lis) cs
| PickedAnchor li text lis cs :
    ~ of_contents li -> li_a li = Some text -> picked lis cs ->
    picked (li :: lis) (VStr text :: cs).

(** The responses that have the extract of a page but lack a revision id:
    the ids [content] stores before it fails, and the error it raises. *)
Inductive partial_ids (pid resp : value) : list (string * value) -> exn -> Prop :=
| NoRevisionId e :
    revision_field "revid" pid resp = Raise e ->
    partial_ids pid resp [] e
| NoParentId revid e :
    revision_field "revid" pid resp = Ret revid ->
    revision_field "parentid" pid resp = Raise e ->
    partial_ids pid resp [("_revision_id", revid)] e.

(** The attributes [o] after the assignments [ids], the last one first. *)
Definition stored (ids : list (string * value)) (o : gmap string value) : gmap string value :=
  foldr (fun kv o => <[fst kv := snd kv]> o) o ids.

(** ** More concrete servers and pages *)

(** A page as the constructor leaves it when it is given an id only. *)
Definition constructed_by_id (page_id : value) (locale : string) (session : value)
    : gmap string value :=
  <["endpoint" := endpoint_of locale]> (<["session" := session]>
    (<["loop" := event_loop]> (<["page_id" := page_id]> ∅))).

(** A server whose every page is the disambiguation page [Mercury]. *)
Definition http_disambiguation (rq : request) : result value :=
  Ret (VDict [("query", VDict [("pages", VDict [("19",
    VDict [("title", VStr "Mercury"); ("pageprops", VDict [("disambiguation", VStr EmptyString)]);
           ("revisions", VList [VDict [("*", VStr "<ul>...</ul>")]])])])])]).

(** The list items of that page: an entry of the table of contents, two
    candidates and an item without anchor. *)
Definition mercury_items (html : value) : list li_tag :=
  [LiTag ["toclevel-1"; "tocsection-1"] (Some "Science");
   LiTag [] (Some "Mercury (planet)");
   LiTag [] None;
   LiTag ["mw-item"] (Some "Mercury (element)")].

(** A server that answers every title with a redirect from [Z] to [B]. *)
Definition http_odd_redirect (rq : request) : result value :=
  Ret (redirect_response "Z" "2" "B" "https://en.wikipedia.org/wiki/B").

(** A server on which [A] redirects to [B] and [B] to [A]. *)
Definition http_cycle (rq : request) : result value :=
  if url_is rq (load_url "en" "A")
  then Ret (redirect_response "A" "2" "B" "https://en.wikipedia.org/wiki/B")
  else Ret (redirect_response "B" "1" "A" "https://en.wikipedia.org/wiki/A").

Definition cycle (n : nat) : value :=
  if Nat.even n then VStr "A" else VStr "B".

Definition cycle_response (n : nat) : value :=
  if Nat.even n then redirect_response "A" "2" "B" "https://en.wikipedia.org/wiki/B"
  else redirect_response "B" "1" "A" "https://en.wikipedia.org/wiki/A".

(** A server whose page [1] has an extract and a revision without parent. *)
Definition http_no_parent (rq : request) : result value :=
  Ret (VDict [("query", VDict [("pages", VDict [("1",
    VDict [("extract", VStr "text");
           ("revisions", VList [VDict [("revid", VInt 5)]])])])])]).

(** A server whose answer cannot be decoded. *)
Definition http_bad_json (rq : request) : result value :=
  Raise (ValueError "Expecting value").

(** The server of [http_links] with a third page that fails. *)
Definition http_links_failing (rq : request) : result value :=
  match rq_params rq with
  | Some params =>
      match dict_get "plcontinue" params with
      | None => Ret (links_response ["L1"; "L2"] (Some "p2"))
      | Some (VStr "p2") => Ret (links_response ["L3"] (Some "p3"))
      | Some _ => Raise TransportError
      end
  | None => Raise TransportError
  end.

(** A server that finds nothing and suggests nothing. *)
Definition http_nothing (rq : request) : result value :=
  Ret (VDict [("query", VDict [("search", VList [])])]).

(** A server whose search hits carry snippets. *)
Definition http_snippets (rq : request) : result value :=
  Ret (VDict [("query", VDict [("search", VList [
    VDict [("title", VStr "Python"); ("snippet", VStr "<span>Python</span> is a language")];
    VDict [("title", VStr "Pythons"); ("snippet", VStr "snakes")]])])]).

(** A server that is overloaded. *)
Definition http_overloaded (rq : request) : result value :=
  Ret (VDict [("error", VDict [("info", VStr "Pool queue is full")])]).

(** A server on which the search is switched off. *)
Definition http_refused (rq : request) : result value :=
  Ret (VDict [("error", VDict [("info", VStr "Search is disabled")])]).

(** A parser that gives a snippet back as it is. *)
Definition text_as_is (snippet : value) : result string :=
  match snippet with
  | VStr s => Ret s
  | _ => Raise TypeError
  end.

(** A formatter that prints every value that is no text as [?]. *)
Definition question_mark (v : value) : string := "?".

(** A server on which [A] redirects to a page that does not exist. *)
Definition http_broken_redirect (rq : request) : result value :=
  Ret (VDict [("query", VDict [
    ("redirects", VList [VDict [("from", VStr "A"); ("to", VStr "Gone")]]);
    ("pages", VDict [("-1", VDict [("title", VStr "Gone"); ("missing", VStr EmptyString)])])])]).

(** A session of the caller's whose responses give the parsed answer when
    [json()] is called, without being awaited. *)
Definition plain_session : value := VObj 9.

(** A page as the constructor leaves it, in a world where nothing has
    happened. *)
Definition fresh_page (title locale : string) (session : value) : world :=
  World (constructed (VStr title) (VStr EmptyString) locale session) [] [].

(** The resolved page [resolved_page] on a session of the caller's. *)
Definition resolved_page_on (session : value) (title page_id : string) : world :=
  set_obj (<["session" := session]> (obj (resolved_page title page_id)))
    (resolved_page title page_id).

(** The pages a generator query lists. *)
Definition linked_page (page_id title : string) : string * value :=
  (page_id, VDict [("pageid", VStr page_id); ("title", VStr title)]).

(** A server that answers a generator query on two pages of results; the
    first continuation comes as a list of pairs. *)
Definition http_generator (rq : request) : result value :=
  match rq_params rq with
  | Some params =>
      match dict_get "gplcontinue" params with
      | None =>
          Ret (VDict [("query", VDict [("pages",
                 VDict [linked_page "12" "Beta"; linked_page "11" "Alpha"])]);
                      ("continue", VList [VList [VStr "gplcontinue"; VStr "g2"]])])
      | Some (VStr "g2") =>
          Ret (VDict [("query", VDict [("pages", VDict [linked_page "13" "Gamma"])])])
      | Some _ => Raise TransportError
      end
  | None => Raise TransportError
  end.

(** * Proofs *)

(** * Running the monad *)

Section Run.

Variable http : request -> result value.
Variable json_call : request -> result value.
Variable find_all_li : value -> list li_tag.

Lemma run_bind {A B C : Type} (m : M A) (f : A -> M B) (g : B -> M C) w :
  bind (bind m f) g w = bind m (fun a => bind (f a) g) w.
Proof. unfold bind. destruct (m w) as [[a|e] w']; reflexivity. Qed.

Lemma run_Ret {A B : Type} (m : M A) (k : A -> M B) w a w' :
  m w = (Ret a, w') -> bind m k w = k a w'.
Proof. intros H. unfold bind. now rewrite H. Qed.

Lemma run_Raise {A B : Type} (m : M A) (k : A -> M B) w e w' :
  m w = (Raise e, w') -> bind m k w = (Raise e, w').
Proof. intros H. unfold bind. now rewrite H. Qed.

Lemma run_ret {A B : Type} (a : A) (k : A -> M B) w : bind (ret a) k w = k a w.
Proof. reflexivity. Qed.

Lemma run_lift {A B : Type} (r : result A) (k : A -> M B) w a :
  r = Ret a -> bind (lift r) k w = k a w.
Proof. now intros ->. Qed.

Lemma run_lift_Ret {A B : Type} (a : A) (k : A -> M B) w : bind (lift (Ret a)) k w = k a w.
Proof. reflexivity. Qed.

Lemma run_lift_Raise {A B : Type} e (k : A -> M B) w :
  bind (lift (Raise e)) k w = (Raise e, w).
Proof. reflexivity. Qed.

Lemma run_getattr {B : Type} n (k : value -> M B) w v :
  obj w !! n = Some v -> bind (getattr n) k w = k v w.
Proof. intros H. unfold bind, getattr. now rewrite H. Qed.

Lemma run_getattr_missing {B : Type} n (k : value -> M B) w :
  obj w !! n = None -> bind (getattr n) k w = (Raise (AttributeError n), w).
Proof. intros H. unfold bind, getattr. now rewrite H. Qed.

Lemma run_getattr_default {B : Type} n d (k : value -> M B) w :
  bind (getattr_default n d) k w = k (default d (obj w !! n)) w.
Proof. reflexivity. Qed.

Lemma run_hasattr {B : Type} n (k : bool -> M B) w :
  bind (hasattr n) k w = k (bool_decide (is_Some (obj w !! n))) w.
Proof. reflexivity. Qed.

Lemma run_setattr {B : Type} n v (k : unit -> M B) w :
  bind (setattr n v) k w = k tt (set_obj (<[n := v]> (obj w)) w).
Proof. reflexivity. Qed.

Lemma run_getkey {B : Type} c s (k : value -> M B) w a :
  py_getitem c (VStr s) = Ret a -> bind (getkey c s) k w = k a w.
Proof. intros H. unfold getkey. now apply run_lift. Qed.

Lemma run_getitem {B : Type} c i (k : value -> M B) w a :
  py_getitem c i = Ret a -> bind (getitem c i) k w = k a w.
Proof. intros H. unfold getitem. now apply run_lift. Qed.

Lemma run_contains {B : Type} c s (k : bool -> M B) w a :
  py_in s c = Ret a -> bind (contains s c) k w = k a w.
Proof. intros H. unfold contains. now apply run_lift. Qed.

Lemma run_assert {B : Type} b (k : unit -> M B) w :
  b = true -> bind (py_assert b) k w = k tt w.
Proof. now intros ->. Qed.

Lemma run_session_get {B : Type} s u p (k : value -> M B) w v :
  http (Request s u p) = Ret v ->
  bind (session_get http s u p) k w = k v (set_log (log w ++ [Request s u p]) w).
Proof. intros H. unfold bind, session_get. now rewrite H. Qed.

Lemma run_session_get_unawaited {B : Type} s u p (k : value -> M B) w v :
  unawaited_json json_call (Request s u p) = Ret v ->
  bind (session_get_unawaited json_call s u p) k w =
  k v (set_log (log w ++ [Request s u p]) w).
Proof. intros H. unfold bind, session_get_unawaited. now rewrite H. Qed.

Lemma run_session_get_failed {B : Type} s u p (k : value -> M B) w e :
  unawaited_json json_call (Request s u p) = Raise e ->
  bind (session_get_unawaited json_call s u p) k w =
  (Raise e, set_log (log w ++ [Request s u p]) w).
Proof. intros H. unfold bind, session_get_unawaited. now rewrite H. Qed.

(** On the module's session the value is a coroutine object. *)
Lemma unawaited_default rq v :
  rq_session rq = default_session ->
  json_call rq = Ret v ->
  unawaited_json json_call rq = Ret coroutine.
Proof. intros Hs Hj. unfold unawaited_json. now rewrite Hj, Hs. Qed.

(** A value of items never comes from the module's session. *)
Lemma unawaited_items rq v :
  unawaited_json json_call rq = Ret v ->
  v <> coroutine ->
  py_eq (rq_session rq) default_session = false /\ json_call rq = Ret v.
Proof.
  unfold unawaited_json. destruct (json_call rq) as [v'|e]; [|discriminate].
  destruct (py_eq (rq_session rq) default_session); intros [= <-] Hv; [congruence | auto].
Qed.

Lemma run_schedule {B : Type} t (k : unit -> M B) w v :
  obj w !! "loop" = Some v ->
  bind (run_coroutine_threadsafe t) k w = k tt (set_pending (pending w ++ [t]) w).
Proof.
  intros H. unfold run_coroutine_threadsafe.
  now rewrite run_bind, (run_getattr _ _ _ _ H).
Qed.

Lemma getattr_Some n w v : obj w !! n = Some v -> getattr n w = (Ret v, w).
Proof. intros H. unfold getattr. now rewrite H. Qed.

Lemma getattr_None n w : obj w !! n = None -> getattr n w = (Raise (AttributeError n), w).
Proof. intros H. unfold getattr. now rewrite H. Qed.

End Run.

Ltac wsimpl :=
  cbn [obj pending log set_obj set_pending set_log state done].

Ltac lookup_tac :=
  wsimpl; repeat (rewrite lookup_insert_ne by done);
  first [eassumption | apply lookup_insert_eq].

(** One step of a run, justified by a hypothesis of the context. *)
Ltac mstep :=
  first
    [ rewrite run_bind
    | rewrite run_ret
    | rewrite run_getattr_default
    | rewrite run_hasattr
    | rewrite run_setattr
    | erewrite run_getkey by eassumption
    | erewrite run_getitem by eassumption
    | erewrite run_contains by eassumption
    | erewrite run_assert by eassumption
    | erewrite run_session_get by eassumption
    | erewrite run_session_get_unawaited by eassumption
    | erewrite run_getattr by lookup_tac
    | erewrite run_schedule by lookup_tac
    | erewrite run_lift by eassumption ].

Ltac mrun := repeat first [mstep | progress cbv beta iota | progress cbn [negb andb orb]]; wsimpl.

Section Resolution.

Variable http : request -> result value.
Variable json_call : request -> result value.
Variable find_all_li : value -> list li_tag.

Lemma expected_source_run {B : Type} title query from_title (k : value -> M B) w :
  normalized_source title query from_title ->
  obj w !! "title" = Some title ->
  bind (expected_source query) k w = k from_title w.
Proof.
  intros Hn Ht. unfold expected_source. destruct Hn; mrun; reflexivity.
Qed.

(** The preload loop only reads. *)
Lemma for_each_touch_state l w : snd (for_each touch l w) = w.
Proof.
  induction l as [|p l IH]; [reflexivity|].
  cbn [for_each]. unfold touch at 1.
  destruct (String.eqb p "content" || String.eqb p "summary").
  - rewrite run_ret. apply IH.
  - rewrite run_bind. unfold bind at 1, getattr.
    destruct (obj w !! p); [|reflexivity]. rewrite run_ret. apply IH.
Qed.

(** What the constructor does to a page when a title is given. *)
Lemma WikiPage_init_title_state title page_id redirect preload original_title locale session w :
  truthy title = true ->
  snd (WikiPage_init title page_id redirect preload original_title locale session w) =
  set_pending (pending w ++ [LoadTask redirect preload])
    (set_obj (<["endpoint" := endpoint_of locale]> (<["session" := session]>
       (<["loop" := event_loop]> (<["original_title" := original_title]>
          (<["title" := title]> (obj w)))))) w).
Proof.
  intros Ht. unfold WikiPage_init. rewrite Ht. mrun.
  destruct preload; [|reflexivity]. apply for_each_touch_state.
Qed.

Lemma WikiPage_init_title title page_id redirect original_title locale session w :
  truthy title = true ->
  WikiPage_init title page_id redirect false original_title locale session w =
  (Ret tt,
   set_pending (pending w ++ [LoadTask redirect false])
     (set_obj (<["endpoint" := endpoint_of locale]> (<["session" := session]>
        (<["loop" := event_loop]> (<["original_title" := original_title]>
           (<["title" := title]> (obj w)))))) w)).
Proof.
  intros Ht. unfold WikiPage_init. rewrite Ht. mrun. reflexivity.
Qed.

(** The head of [__load], up to the value it takes for the response. *)
Lemma load_fetch_run {B : Type} w rq resp (k : value -> M B) :
  first_request w = Some rq ->
  unawaited_json json_call rq = Ret resp ->
  bind (load_fetch json_call) k w = k resp (set_log (log w ++ [rq]) w).
Proof.
  unfold first_request, load_fetch. intros Hrq Hh.
  destruct (obj w !! "endpoint") as [endpoint|] eqn:He; [|discriminate].
  destruct (obj w !! "session") as [session|] eqn:Hs; [|discriminate].
  cbn [mbind option_bind] in Hrq.
  rewrite run_bind, (run_getattr _ _ _ _ He), run_bind, run_getattr_default.
  destruct (truthy (default VNone (obj w !! "page_id"))) eqn:Hp; cbn [negb].
  - destruct (obj w !! "page_id") as [p|] eqn:Hpid; [|discriminate].
    injection Hrq as <-. unfold load_request in Hh. cbn [format] in Hh |- *.
    mrun. reflexivity.
  - destruct (obj w !! "title") as [t|] eqn:Ht; [|discriminate].
    injection Hrq as <-. unfold load_request in Hh. cbn [format] in Hh |- *.
    mrun. reflexivity.
Qed.

(** [__load] on a page whose title redirects, following the redirect. *)
Lemma load_follows_redirect w preload rq resp title rto :
  first_request w = Some rq ->
  unawaited_json json_call rq = Ret resp ->
  obj w !! "title" = Some title ->
  redirects_to title resp rto ->
  truthy rto = true ->
  snd (WikiPage_load json_call find_all_li true preload w) =
  World (<["endpoint" := endpoint_of "en"]> (<["session" := default_session]>
           (<["loop" := event_loop]> (<["original_title" := VStr EmptyString]>
              (<["title" := rto]> (obj w))))))
        (pending w ++ [LoadTask true preload])
        (log w ++ [rq]).
Proof.
  intros Hrq Hh Ht Hr Hto.
  destruct Hr as [query page_id page rs redirects from_title rfrom Hrep Hrs Hr0 Hn Hf Hfe Hrto].
  destruct Hrep as [pages keys Hq Hps Hk Hpg Hm Hred].
  unfold WikiPage_load.
  rewrite (load_fetch_run _ _ _ _ Hrq Hh).
  mrun. rewrite run_lift with (a := page_id) by reflexivity. mrun.
  rewrite (expected_source_run _ _ _ _ _ Hn) by lookup_tac.
  mrun. rewrite WikiPage_init_title_state by assumption. reflexivity.
Qed.

(** Claim C9.  Whenever [__load] follows a redirect, it constructs the page
    again from the redirect target, the redirect flag and the preload flag
    alone: the title becomes the target, a load with the same two flags is
    scheduled, and the endpoint and the session are those of the defaults
    ([en] and the module's session), whatever the page was constructed
    with.  The hypotheses say when a redirect is followed: the value the
    load takes for the response to its first request, [json()] not being
    awaited, reports a redirect from the title of the page to the truthy
    target [rto]. *)
Theorem redirect_reverts_locale_and_session w preload rq resp title rto :
  first_request w = Some rq ->
  unawaited_json json_call rq = Ret resp ->
  obj w !! "title" = Some title ->
  redirects_to title resp rto ->
  truthy rto = true ->
  let w' := snd (WikiPage_load json_call find_all_li true preload w) in
  obj w' = <["endpoint" := endpoint_of "en"]> (<["session" := default_session]>
             (<["loop" := event_loop]> (<["original_title" := VStr EmptyString]>
                (<["title" := rto]> (obj w))))) /\
  obj w' !! "endpoint" = Some (endpoint_of "en") /\
  obj w' !! "session" = Some default_session /\
  pending w' = pending w ++ [LoadTask true preload] /\
  log w' = log w ++ [rq].
Proof.
  intros Hrq Hh Ht Hr Hto w'. unfold w'.
  rewrite (load_follows_redirect _ _ _ _ _ _ Hrq Hh Ht Hr Hto). wsimpl.
  repeat split; reflexivity || lookup_tac.
Qed.

Lemma run_loop_idle fuel l :
  pending (state l) = [] -> run_loop http json_call find_all_li fuel l = l.
Proof.
  intros H. destruct fuel; [reflexivity|].
  cbn [run_loop]. unfold loop_step. now rewrite H.
Qed.

(** The outcome the event loop files for a load. *)
Lemma loop_step_load l redirect preload rest r w' :
  pending (state l) = LoadTask redirect preload :: rest ->
  WikiPage_load json_call find_all_li redirect preload (set_pending rest (state l)) = (r, w') ->
  loop_step http json_call find_all_li l =
  Some (Run w' (done l ++ [(LoadTask redirect preload,
                            match r with Ret _ => Ret VNone | Raise e => Raise e end)])).
Proof.
  intros Hp Hl. unfold loop_step. rewrite Hp. cbn [run_task].
  unfold bind. rewrite Hl. destruct r; reflexivity.
Qed.

(** [__load] on a redirecting page that must not follow redirects. *)
Lemma load_unfollowed w preload rq resp query page_key page page_title title :
  first_request w = Some rq ->
  unawaited_json json_call rq = Ret resp ->
  reports_redirect resp query page_key page ->
  py_getitem page (VStr "title") = Ret page_title ->
  obj w !! "title" = Some title ->
  WikiPage_load json_call find_all_li false preload w =
  (Raise (RedirectError title), set_log (log w ++ [rq]) w).
Proof.
  intros Hrq Hh [pages keys Hq Hps Hk Hpg Hm Hred] Hpt Ht.
  unfold WikiPage_load.
  rewrite (load_fetch_run _ _ _ _ Hrq Hh).
  mrun. rewrite run_lift with (a := page_key) by reflexivity. mrun.
  rewrite Ht. reflexivity.
Qed.

Lemma first_request_fresh title original_title locale session p l :
  truthy title = true ->
  first_request
    (World (<["endpoint" := endpoint_of locale]> (<["session" := session]>
       (<["loop" := event_loop]> (<["original_title" := original_title]>
          (<["title" := title]> ∅))))) p l) =
  Some (load_request session (endpoint_of locale) "&titles=" title).
Proof.
  intros Ht. unfold first_request. wsimpl.
  simplify_map_eq. reflexivity.
Qed.

(** Claim C3, as amended.  Resolving a redirecting title without following
    redirects, when the load gets the response and the response does not
    mark the page missing, fails with [RedirectError] carrying the title as
    given, and the request for page information is the only request made:
    the load that the constructor scheduled raises the error, nothing else
    is left to run, and the log holds that one request, however long the
    loop is allowed to run.  The page entry of the response carries a
    [title], as every page entry of the API does: the source reads it before
    it raises. *)
Theorem unfollowed_redirect_fails_without_follow_up
    title page_id locale session fuel resp query page_key page page_title :
  truthy title = true ->
  unawaited_json json_call (load_request session (endpoint_of locale) "&titles=" title) = Ret resp ->
  reports_redirect resp query page_key page ->
  py_getitem page (VStr "title") = Ret page_title ->
  exists l,
    resolve http json_call find_all_li (S fuel) title page_id false false locale session =
      (Ret tt, l) /\
    done l = [(LoadTask false false, Raise (RedirectError title))] /\
    log (state l) = [load_request session (endpoint_of locale) "&titles=" title] /\
    pending (state l) = [] /\
    obj (state l) !! "title" = Some title.
Proof.
  intros Htitle Hh Hrep Hpt.
  unfold resolve. rewrite WikiPage_init_title by assumption.
  unfold empty_world. wsimpl. cbn [app run_loop].
  erewrite loop_step_load; cycle 1.
  { reflexivity. }
  { unfold set_pending, set_obj. wsimpl.
    eapply load_unfollowed;
      [apply first_request_fresh; assumption | eassumption..| lookup_tac]. }
  rewrite run_loop_idle by reflexivity.
  eexists. split; [reflexivity|]. wsimpl.
  repeat split; reflexivity || lookup_tac.
Qed.

(** [__load] when the request fails. *)
Lemma load_failed w redirect preload rq e :
  first_request w = Some rq ->
  unawaited_json json_call rq = Raise e ->
  WikiPage_load json_call find_all_li redirect preload w =
  (Raise e, set_log (log w ++ [rq]) w).
Proof.
  unfold first_request, WikiPage_load, load_fetch. intros Hrq Hh.
  destruct (obj w !! "endpoint") as [endpoint|] eqn:He; [|discriminate].
  destruct (obj w !! "session") as [session|] eqn:Hs; [|discriminate].
  cbn [mbind option_bind] in Hrq.
  rewrite !run_bind, (run_getattr _ _ _ _ He), run_bind, run_getattr_default.
  destruct (truthy (default VNone (obj w !! "page_id"))) eqn:Hp; cbn [negb].
  - destruct (obj w !! "page_id") as [p|] eqn:Hpid; [|discriminate].
    injection Hrq as <-. unfold load_request in Hh. cbn [format] in Hh |- *.
    mrun. now rewrite (run_session_get_failed _ _ _ _ _ _ _ Hh).
  - destruct (obj w !! "title") as [t|] eqn:Ht; [|discriminate].
    injection Hrq as <-. unfold load_request in Hh. cbn [format] in Hh |- *.
    mrun. now rewrite (run_session_get_failed _ _ _ _ _ _ _ Hh).
Qed.

(** [__load] when [json()] returns an object without items: the first
    subscript raises. *)
Lemma load_on_coroutine w redirect preload rq id :
  first_request w = Some rq ->
  unawaited_json json_call rq = Ret (VObj id) ->
  WikiPage_load json_call find_all_li redirect preload w =
  (Raise TypeError, set_log (log w ++ [rq]) w).
Proof.
  intros Hrq Hh. unfold WikiPage_load.
  rewrite (load_fetch_run _ _ _ _ Hrq Hh). reflexivity.
Qed.

(** The preload loop on an object without [images]. *)
Lemma preload_without_images w :
  obj w !! "images" = None ->
  for_each touch preload_props w = (Raise (AttributeError "images"), w).
Proof.
  intros H. unfold preload_props. cbn [for_each].
  unfold touch. cbn [String.eqb Ascii.eqb Bool.eqb orb andb].
  rewrite !run_ret, run_bind, run_getattr_missing by assumption. reflexivity.
Qed.

(** What the constructor does to a page when only a page id is given. *)
Lemma WikiPage_init_page_id_state title page_id redirect preload original_title locale session w :
  truthy title = false ->
  truthy page_id = true ->
  snd (WikiPage_init title page_id redirect preload original_title locale session w) =
  set_pending (pending w ++ [LoadTask redirect preload])
    (set_obj (<["endpoint" := endpoint_of locale]> (<["session" := session]>
       (<["loop" := event_loop]> (<["page_id" := page_id]> (obj w))))) w).
Proof.
  intros Ht Hp. unfold WikiPage_init. rewrite Ht, Hp. mrun.
  destruct preload; [|reflexivity]. apply for_each_touch_state.
Qed.

(** The constructor raises before it schedules anything only when it is
    given neither a title nor a page id. *)
Lemma WikiPage_init_nothing title page_id redirect preload original_title locale session w :
  truthy title = false ->
  truthy page_id = false ->
  WikiPage_init title page_id redirect preload original_title locale session w =
  (Raise (ValueError "Either a Title or a Page ID myst be specified."), w).
Proof. intros Ht Hp. unfold WikiPage_init. now rewrite Ht, Hp. Qed.

End Resolution.

(** * Frame rules *)

Section Frames.

Variable http : request -> result value.
Variable json_call : request -> result value.
Variable find_all_li : value -> list li_tag.

Lemma quiet_ret {A : Type} (a : A) : quiet (ret a).
Proof. intros w. split; reflexivity. Qed.

Lemma quiet_raise {A : Type} e : quiet (raise e : M A).
Proof. intros w. split; reflexivity. Qed.

Lemma quiet_lift {A : Type} (r : result A) : quiet (lift r).
Proof. intros w. split; reflexivity. Qed.

Lemma quiet_getattr n : quiet (getattr n).
Proof. intros w. unfold getattr. destruct (obj w !! n); split; reflexivity. Qed.

Lemma quiet_getattr_default n d : quiet (getattr_default n d).
Proof. intros w. split; reflexivity. Qed.

Lemma quiet_hasattr n : quiet (hasattr n).
Proof. intros w. split; reflexivity. Qed.

Lemma quiet_getkey c s : quiet (getkey c s).
Proof. apply quiet_lift. Qed.

Lemma quiet_getitem c k : quiet (getitem c k).
Proof. apply quiet_lift. Qed.

Lemma quiet_contains s c : quiet (contains s c).
Proof. apply quiet_lift. Qed.

Lemma quiet_assert b : quiet (py_assert b).
Proof. destruct b; [apply quiet_ret | apply quiet_raise]. Qed.

Lemma quiet_session_get s u p : quiet (session_get http s u p).
Proof. intros w. split; reflexivity. Qed.

Lemma quiet_session_get_unawaited s u p : quiet (session_get_unawaited json_call s u p).
Proof. intros w. split; reflexivity. Qed.

Lemma quiet_bind {A B : Type} (m : M A) (k : A -> M B) :
  quiet m -> (forall a, quiet (k a)) -> quiet (bind m k).
Proof.
  intros Hm Hk w. unfold bind. specialize (Hm w).
  destruct (m w) as [[a|e] w1]; cbn [snd] in *; [|exact Hm].
  destruct (Hk a w1) as [Ho Hp]. destruct Hm as [Ho' Hp']. split; congruence.
Qed.

Lemma benign_getitem c k : benign (py_getitem c k).
Proof.
  intros e H Hres. unfold py_getitem in H.
  repeat case_match; simplify_eq; inversion Hres.
Qed.

Lemma benign_in s c : benign (py_in s c).
Proof. intros e H Hres. destruct c; simplify_eq/=; inversion Hres. Qed.

Lemma benign_keys c : benign (py_keys c).
Proof. intros e H Hres. destruct c; simplify_eq/=; inversion Hres. Qed.

Lemma benign_first_item l : benign (first_item l).
Proof. intros e H Hres. destruct l; simplify_eq/=; inversion Hres. Qed.

Lemma spares_ret {A : Type} (a : A) : spares (ret a).
Proof. intros w e w' H. discriminate. Qed.

Lemma spares_lift {A : Type} (r : result A) : benign r -> spares (lift r).
Proof. intros Hr w e w' H. injection H as -> _. now apply Hr. Qed.

Lemma spares_raise {A : Type} e : ~ resolution_error e -> spares (raise e : M A).
Proof. intros He w e' w' H. injection H as <- _. exact He. Qed.

Lemma spares_getattr n : spares (getattr n).
Proof.
  intros w e w' H Hres. unfold getattr in H.
  destruct (obj w !! n); simplify_eq. inversion Hres.
Qed.

Lemma spares_setattr n v : spares (setattr n v).
Proof. intros w e w' H. discriminate. Qed.

Lemma spares_bind {A B : Type} (m : M A) (k : A -> M B) :
  spares m -> (forall a, spares (k a)) -> spares (bind m k).
Proof.
  intros Hm Hk w e w' H. unfold bind in H.
  destruct (m w) as [[a|e1] w1] eqn:E.
  - now apply (Hk a w1 e w').
  - injection H as <- <-. now apply (Hm w e1 w1).
Qed.

Lemma spares_schedule t : spares (run_coroutine_threadsafe t).
Proof.
  apply spares_bind; [apply spares_getattr|]. intros _ w e w' H. discriminate.
Qed.

Lemma spares_for_each_touch l : spares (for_each touch l).
Proof.
  induction l as [|p l IH]; [apply spares_ret|].
  cbn [for_each]. apply spares_bind; [|intros _; exact IH].
  unfold touch. case_match; [apply spares_ret|].
  apply spares_bind; [apply spares_getattr | intros; apply spares_ret].
Qed.

(** The constructor raises [ValueError] or [AttributeError] only. *)
Lemma spares_init title page_id redirect preload original_title locale session :
  spares (WikiPage_init title page_id redirect preload original_title locale session).
Proof.
  unfold WikiPage_init.
  apply spares_bind.
  { repeat case_match.
    - apply spares_bind; intros; apply spares_setattr.
    - apply spares_setattr.
    - apply spares_raise. inversion 1. }
  intros _. repeat (apply spares_bind; [apply spares_setattr | intros _]).
  apply spares_bind; [apply spares_schedule | intros _].
  destruct preload; [apply spares_for_each_touch | apply spares_ret].
Qed.

Lemma frames_quiet {A : Type} (m : M A) : quiet m -> frames m.
Proof. intros Hm w e w' H _. specialize (Hm w). now rewrite H in Hm. Qed.

Lemma frames_spares {A : Type} (m : M A) : spares m -> frames m.
Proof. intros Hm w e w' H Hres. now destruct (Hm w e w' H). Qed.

Lemma frames_bind {A B : Type} (m : M A) (k : A -> M B) :
  quiet m -> (forall a, frames (k a)) -> frames (bind m k).
Proof.
  intros Hm Hk w e w' H Hres. unfold bind in H. specialize (Hm w).
  destruct (m w) as [[a|e1] w1]; cbn [snd] in Hm.
  - destruct (Hk a w1 e w' H Hres) as [Ho Hp]. destruct Hm. split; congruence.
  - injection H as <- <-. exact Hm.
Qed.

End Frames.

Create HintDb quiet.
#[export] Hint Resolve quiet_ret quiet_raise quiet_lift quiet_getattr quiet_getattr_default
  quiet_hasattr quiet_getkey quiet_getitem quiet_contains quiet_assert
  quiet_session_get quiet_session_get_unawaited : quiet.

Ltac quiet_tac :=
  repeat first
    [ solve [auto with quiet]
    | apply quiet_bind; [|intros]
    | match goal with |- quiet (if ?b then _ else _) => destruct b end ].

Section FramesOfLoad.

Variable http : request -> result value.
Variable json_call : request -> result value.
Variable find_all_li : value -> list li_tag.

Lemma quiet_load_fetch : quiet (load_fetch json_call).
Proof. unfold load_fetch. quiet_tac. Qed.

Lemma quiet_expected_source query : quiet (expected_source query).
Proof. unfold expected_source. quiet_tac. Qed.

Lemma quiet_raise_disambiguation page page_id :
  quiet (raise_disambiguation json_call find_all_li page page_id).
Proof. unfold raise_disambiguation. quiet_tac. Qed.

End FramesOfLoad.

#[export] Hint Resolve quiet_load_fetch quiet_expected_source quiet_raise_disambiguation : quiet.

Create HintDb spares.
#[export] Hint Resolve spares_ret spares_getattr spares_setattr spares_schedule spares_init
  benign_getitem benign_in benign_keys benign_first_item : spares.

Ltac spares_tac :=
  repeat first
    [ solve [auto with spares]
    | apply spares_bind; [|intros]
    | apply spares_lift
    | match goal with |- spares (if ?b then _ else _) => destruct b end ].

Ltac frames_tac :=
  repeat first
    [ apply frames_bind; [solve [quiet_tac] | intros ?]
    | match goal with |- frames (if ?b then _ else _) => destruct b end
    | apply frames_quiet; solve [quiet_tac]
    | apply frames_spares; solve [spares_tac] ].

(** A resolution error leaves [__load] before anything was written. *)
Lemma frames_load json_call find_all_li redirect preload :
  frames (WikiPage_load json_call find_all_li redirect preload).
Proof. unfold WikiPage_load. frames_tac. Qed.

(** * Resolution on the event loop *)

Section Settling.

Variable http : request -> result value.
Variable json_call : request -> result value.
Variable find_all_li : value -> list li_tag.

Lemma settles_quiet {A : Type} (m : M A) : quiet m -> settles m.
Proof.
  intros Hm w r w' Hu H. destruct (Hm w) as [_ Hp]. rewrite H in Hp. now left.
Qed.

Lemma settles_bind {A B : Type} (m : M A) (k : A -> M B) :
  quiet m -> (forall a, settles (k a)) -> settles (bind m k).
Proof.
  intros Hm Hk w r w' Hu H. unfold bind in H.
  destruct (Hm w) as [Ho Hp].
  destruct (m w) as [[a|e] w1]; cbn [snd] in Ho, Hp.
  - rewrite <- Ho in Hu. specialize (Hk a w1 r w' Hu H). now rewrite Hp in Hk.
  - injection H as <- <-. now left.
Qed.

(** The constructor, as [__load] calls it: it writes no [url], and it
    schedules one load unless the target is empty. *)
Lemma settles_init title redirect preload :
  settles (WikiPage_init title VNone redirect preload (VStr EmptyString) "en" default_session).
Proof.
  intros w r w' Hu H.
  assert (Hw : w' = snd (WikiPage_init title VNone redirect preload (VStr EmptyString) "en"
                           default_session w)) by now rewrite H.
  destruct (truthy title) eqn:Ht.
  - rewrite WikiPage_init_title_state in Hw by assumption. subst w'.
    right. wsimpl. split; [now simplify_map_eq | eauto].
  - rewrite WikiPage_init_nothing in Hw by (assumption || reflexivity).
    subst w'. now left.
Qed.

(** The last lines of [__load] schedule nothing. *)
Lemma settles_store page_id page :
  settles (setattr "page_id" page_id ;;
           t <- getkey page "title" ;;
           setattr "title" t ;;
           u <- getkey page "fullurl" ;;
           setattr "url" u).
Proof.
  intros w r w' Hu H. rewrite run_setattr in H.
  unfold getkey at 1 in H. unfold bind at 1, lift at 1 in H.
  destruct (py_getitem page (VStr "title")) as [t|e].
  - rewrite run_setattr in H.
    unfold getkey at 1 in H. unfold bind at 1, lift at 1 in H.
    destruct (py_getitem page (VStr "fullurl")) as [u|e];
      injection H as <- <-; now left.
  - injection H as <- <-. now left.
Qed.

Lemma settles_load redirect preload :
  settles (WikiPage_load json_call find_all_li redirect preload).
Proof.
  unfold WikiPage_load.
  repeat first
    [ apply settles_bind; [solve [quiet_tac] | intros ?]
    | match goal with |- settles (if ?b then _ else _) => destruct b end
    | apply settles_init
    | apply settles_store
    | apply settles_quiet; solve [quiet_tac] ].
Qed.

(** One step of the loop keeps the invariant, and a step that ends in a
    resolution error leaves the page object as it found it. *)
Lemma resolving_step l l' :
  resolving l -> loop_step http json_call find_all_li l = Some l' ->
  resolving l' /\
  (forall t e, In (t, Raise e) (done l') -> resolution_error e ->
     obj (state l) = obj (state l')).
Proof.
  intros [Hd Hp] Hs.
  destruct Hp as [Hp | [Hu (redirect & preload & Hp)]].
  { unfold loop_step in Hs. rewrite Hp in Hs. discriminate. }
  destruct (WikiPage_load json_call find_all_li redirect preload (set_pending [] (state l)))
    as [r w1] eqn:Hl.
  rewrite (loop_step_load _ _ _ _ _ _ _ _ _ Hp Hl) in Hs. injection Hs as <-.
  pose proof (settles_load redirect preload (set_pending [] (state l)) _ _ Hu Hl) as Hpost.
  cbn [pending set_pending app] in Hpost.
  assert (Hnone : forall t e, In (t, Raise e) (done l) -> ~ resolution_error e).
  { intros t e Hin Hres. destruct (Hd t e Hin Hres) as (_ & Hnil & _). congruence. }
  assert (Hnew : forall t e,
            In (t, Raise e) (done l ++ [(LoadTask redirect preload,
                                         match r with Ret _ => Ret VNone | Raise e0 => Raise e0 end)]) ->
            resolution_error e ->
            r = Raise e /\ t = LoadTask redirect preload /\
            obj w1 = obj (state l) /\ pending w1 = []).
  { intros t e Hin Hres. apply in_app_or in Hin as [Hin | [Hin | []]].
    - now destruct (Hnone t e Hin).
    - destruct r as [[]|e0]; [discriminate|]. injection Hin as <- <-.
      destruct (frames_load _ _ _ _ _ _ _ Hl Hres) as [Ho Hq].
      repeat split; assumption. }
  unfold resolving. wsimpl. split; [split|].
  - intros t e Hin Hres. destruct (Hnew t e Hin Hres) as (-> & -> & Ho & Hq).
    rewrite last_snoc, Ho. repeat split; assumption.
  - destruct Hpost as [Hq | [Hu' Hq]]; [now left | right; split; assumption].
  - intros t e Hin Hres. destruct (Hnew t e Hin Hres) as (_ & _ & Ho & _). now rewrite Ho.
Qed.

(** The loop, one task later. *)
Lemma run_loop_next fuel : forall l,
  run_loop http json_call find_all_li (S fuel) l =
  match loop_step http json_call find_all_li (run_loop http json_call find_all_li fuel l) with
  | Some l' => l'
  | None => run_loop http json_call find_all_li fuel l
  end.
Proof.
  induction fuel as [|fuel IH]; intros l.
  - cbn [run_loop]. now destruct (loop_step http json_call find_all_li l).
  - change (run_loop http json_call find_all_li (S (S fuel)) l)
      with (match loop_step http json_call find_all_li l with
            | None => l
            | Some l' => run_loop http json_call find_all_li (S fuel) l'
            end).
    change (run_loop http json_call find_all_li (S fuel) l)
      with (match loop_step http json_call find_all_li l with
            | None => l
            | Some l' => run_loop http json_call find_all_li fuel l'
            end).
    destruct (loop_step http json_call find_all_li l) as [l1|] eqn:Hs.
    + apply IH.
    + now rewrite Hs.
Qed.

(** Along a run the invariant holds, and a resolution error in the
    outcomes comes from the step that ended the run. *)
Lemma resolving_run l0 fuel :
  resolving l0 ->
  (forall t e, In (t, Raise e) (done l0) -> ~ resolution_error e) ->
  resolving (run_loop http json_call find_all_li fuel l0) /\
  (forall t e,
     In (t, Raise e) (done (run_loop http json_call find_all_li fuel l0)) ->
     resolution_error e ->
     exists k, (k < fuel)%nat /\
       loop_step http json_call find_all_li (run_loop http json_call find_all_li k l0) =
         Some (run_loop http json_call find_all_li fuel l0) /\
       obj (state (run_loop http json_call find_all_li k l0)) =
         obj (state (run_loop http json_call find_all_li fuel l0))).
Proof.
  intros Hinv Hclean. induction fuel as [|fuel [IHinv IHerr]].
  - split; [exact Hinv|]. intros t e Hin Hres. now destruct (Hclean t e Hin).
  - rewrite run_loop_next.
    destruct (loop_step http json_call find_all_li (run_loop http json_call find_all_li fuel l0))
      as [l'|] eqn:Hs.
    + destruct (resolving_step _ _ IHinv Hs) as [Hinv' Hobj]. split; [exact Hinv'|].
      intros t e Hin Hres. exists fuel. split; [lia|]. split; [exact Hs|].
      exact (Hobj t e Hin Hres).
    + split; [exact IHinv|]. intros t e Hin Hres.
      destruct (IHerr t e Hin Hres) as (k & Hk & Hstep & Ho).
      exists k. split; [lia|]. split; assumption.
Qed.

(** Claim C1, as amended.  When a resolution fails with a missing page, an
    unfollowed redirect, a disambiguation page or an unexpected redirect
    source, the error is the outcome of a load on the event loop, not of the
    call that constructed the page: that call has returned the page before
    any load ran (or, with [preload], has raised the [AttributeError] of its
    preload loop).  The failing load is the step that ends the run: its
    error is the last outcome, nothing is left waiting, it has left the page
    object exactly as the run had it before that step, and no [url] was ever
    written to the page. *)
Theorem failed_resolution_leaves_unresolved_page
    fuel title page_id redirect preload locale session r l t e :
  resolve http json_call find_all_li fuel title page_id redirect preload locale session =
    (r, l) ->
  In (t, Raise e) (done l) ->
  resolution_error e ->
  let w := snd (WikiPage_init title page_id redirect preload (VStr EmptyString) locale session
                  empty_world) in
  r = (if preload then Raise (AttributeError "images") else Ret tt) /\
  last (done l) = Some (t, Raise e) /\
  pending (state l) = [] /\
  obj (state l) !! "url" = None /\
  exists k, (k < fuel)%nat /\
    loop_step http json_call find_all_li (run_loop http json_call find_all_li k (Run w [])) =
      Some l /\
    obj (state (run_loop http json_call find_all_li k (Run w []))) = obj (state l).
Proof.
  intros Hres Hin He w. unfold resolve in Hres.
  destruct (WikiPage_init title page_id redirect preload (VStr EmptyString) locale session empty_world)
    as [r0 w0] eqn:Hinit.
  injection Hres as <- <-. subst w. cbn [snd].
  assert (Hcases :
    (r0 = (if preload then Raise (AttributeError "images") else Ret tt) /\
     resolving (Run w0 [])) \/ pending w0 = []).
  { destruct (truthy title) eqn:Ht; [|destruct (truthy page_id) eqn:Hp].
    - left. split.
      + unfold WikiPage_init in Hinit. rewrite Ht in Hinit. revert Hinit. mrun.
        destruct preload; [|now intros [= <- _]].
        rewrite preload_without_images by (wsimpl; now simplify_map_eq).
        now intros [= <- _].
      + assert (Hw : w0 = snd (WikiPage_init title page_id redirect preload (VStr EmptyString) locale
                                 session empty_world)) by now rewrite Hinit.
        rewrite WikiPage_init_title_state in Hw by assumption. subst w0.
        split; wsimpl; [intros ? ? []|]. right. split; [now simplify_map_eq | eauto].
    - left. split.
      + unfold WikiPage_init in Hinit. rewrite Ht, Hp in Hinit. revert Hinit. mrun.
        destruct preload; [|now intros [= <- _]].
        rewrite preload_without_images by (wsimpl; now simplify_map_eq).
        now intros [= <- _].
      + assert (Hw : w0 = snd (WikiPage_init title page_id redirect preload (VStr EmptyString) locale
                                 session empty_world)) by now rewrite Hinit.
        rewrite WikiPage_init_page_id_state in Hw by assumption. subst w0.
        split; wsimpl; [intros ? ? []|]. right. split; [now simplify_map_eq | eauto].
    - right. rewrite WikiPage_init_nothing in Hinit by assumption.
      now injection Hinit as _ <-. }
  destruct Hcases as [[-> Hinv] | Hidle].
  - destruct (resolving_run (Run w0 []) fuel Hinv) as [[Hd _] Herr]; [intros ? ? []|].
    destruct (Hd t e Hin He) as (Hl & Hp & Hu).
    destruct (Herr t e Hin He) as (k & Hk & Hstep & Ho).
    repeat split; try assumption. exists k. repeat split; assumption.
  - rewrite run_loop_idle in Hin by exact Hidle. destruct Hin.
Qed.

End Settling.

(** * Attributes that are never written *)

Section Untouched.

Variable http : request -> result value.
Variable json_call : request -> result value.
Variable find_all_li : value -> list li_tag.

Lemma untouched_quiet {A : Type} n (m : M A) : quiet m -> untouched n m.
Proof. intros Hm w. destruct (Hm w) as [-> _]. reflexivity. Qed.

Lemma untouched_bind {A B : Type} n (m : M A) (k : A -> M B) :
  untouched n m -> (forall a, untouched n (k a)) -> untouched n (bind m k).
Proof.
  intros Hm Hk w. unfold bind. specialize (Hm w).
  destruct (m w) as [[a|e] w1]; cbn [snd] in *; [|exact Hm].
  now rewrite Hk.
Qed.

Lemma untouched_setattr n n' v : n' <> n -> untouched n (setattr n' v).
Proof. intros Hne w. cbn. now rewrite lookup_insert_ne. Qed.

Lemma untouched_schedule n t : untouched n (run_coroutine_threadsafe t).
Proof.
  intros w. unfold run_coroutine_threadsafe, bind, getattr.
  destruct (obj w !! "loop"); reflexivity.
Qed.

Lemma untouched_try {A : Type} n (body handler : M A) :
  untouched n body -> untouched n handler ->
  untouched n (try_except_ValueError body handler).
Proof.
  intros Hb Hh w. unfold try_except_ValueError. specialize (Hb w).
  destruct (body w) as [[a|e] w1]; cbn [snd] in *; [exact Hb|].
  destruct e; try exact Hb. now rewrite Hh.
Qed.

Lemma untouched_for_each {A : Type} n (f : A -> M unit) l :
  (forall a, untouched n (f a)) -> untouched n (for_each f l).
Proof.
  intros Hf. induction l as [|a l IH]; [intros w; reflexivity|].
  cbn [for_each]. apply untouched_bind; auto.
Qed.

Lemma untouched_map_m {A B : Type} n (f : A -> M B) l :
  (forall a, untouched n (f a)) -> untouched n (map_m f l).
Proof.
  intros Hf. induction l as [|a l IH]; [intros w; reflexivity|].
  cbn [map_m]. apply untouched_bind; [auto|]. intros b.
  apply untouched_bind; [auto|]. intros bs w. reflexivity.
Qed.

End Untouched.

Create HintDb untouched.
#[export] Hint Resolve untouched_schedule : untouched.

Ltac untouched_tac :=
  repeat first
    [ solve [auto with untouched]
    | apply untouched_quiet; solve [quiet_tac]
    | apply untouched_setattr; done
    | apply untouched_bind; [|intros]
    | apply untouched_try
    | apply untouched_for_each; intros
    | apply untouched_map_m; intros
    | match goal with
      | |- untouched _ (if ?b then _ else _) => destruct b
      | |- untouched _ (match ?x with _ => _ end) => destruct x
      end ].

Section QuietOperations.

Variable http : request -> result value.
Variable json_call : request -> result value.

Lemma quiet_map_m {A B : Type} (f : A -> M B) l :
  (forall a, quiet (f a)) -> quiet (map_m f l).
Proof.
  intros Hf. induction l as [|a l IH]; [apply quiet_ret|].
  cbn [map_m]. apply quiet_bind; [auto|]. intros b.
  apply quiet_bind; [auto|]. intros bs. apply quiet_ret.
Qed.

Lemma quiet_title_query_param : quiet WikiPage_title_query_param.
Proof.
  unfold WikiPage_title_query_param.
  apply quiet_bind; [quiet_tac|]. intros t. destruct t; quiet_tac.
Qed.

Lemma quiet_page_items query_params prop result : quiet (page_items query_params prop result).
Proof. unfold page_items. quiet_tac. Qed.

Lemma quiet_continued_turn query_params prop params :
  quiet (continued_turn json_call query_params prop params).
Proof.
  unfold continued_turn.
  repeat (apply quiet_bind; [solve [quiet_tac] | intros ?]).
  match goal with |- quiet (if ?b then _ else _) => destruct b end; [quiet_tac|].
  apply quiet_bind; [apply quiet_page_items | intros ?]. quiet_tac.
Qed.

Lemma continued_loop_quiet fuel query_params prop last_continue w :
  obj (snd (continued_loop json_call fuel query_params prop last_continue w)) = obj w /\
  pending (snd (continued_loop json_call fuel query_params prop last_continue w)) = pending w.
Proof.
  revert last_continue w. induction fuel as [|fuel IH]; intros last_continue w; [now split|].
  cbn [continued_loop].
  destruct (update_with query_params last_continue) as [[params|e]|]; try (now split).
  destruct (quiet_continued_turn query_params prop params w) as [Ho Hp].
  destruct (continued_turn json_call query_params prop params w) as [[[items [c|]]|e] w1];
    cbn [snd] in *; try (split; assumption).
  specialize (IH c w1).
  destruct (continued_loop json_call fuel query_params prop c w1) as [[rest s] w2].
  cbn [snd] in *. destruct IH. split; congruence.
Qed.

Lemma continued_query_quiet fuel query_params w :
  obj (snd (WikiPage_continued_query json_call fuel query_params w)) = obj w /\
  pending (snd (WikiPage_continued_query json_call fuel query_params w)) = pending w.
Proof.
  unfold WikiPage_continued_query.
  destruct (quiet_title_query_param w) as [Ho Hp].
  destruct (WikiPage_title_query_param w) as [[tq|e] w1]; cbn [snd] in *; [|now split].
  match goal with |- context [continued_loop json_call fuel ?q ?p ?c w1] =>
    pose proof (continued_loop_quiet fuel q p c w1) as [Ho' Hp'];
    destruct (continued_loop json_call fuel q p c w1) as [[items s] w2]
  end.
  cbn [snd] in *. split; congruence.
Qed.

Lemma quiet_search self results suggestion :
  quiet (AIOPedia_search http self results suggestion).
Proof.
  unfold AIOPedia_search, search_found.
  repeat first
    [ solve [auto with quiet]
    | apply quiet_map_m; intros
    | apply quiet_bind; [|intros]
    | match goal with |- quiet (if ?b then _ else _) => destruct b end ].
Qed.

End QuietOperations.

(** * Attributes are never removed *)

Section Keeping.

Variable http : request -> result value.
Variable json_call : request -> result value.
Variable find_all_li : value -> list li_tag.

Lemma keeps_quiet {A : Type} (m : M A) : quiet m -> keeps_attributes m.
Proof. intros Hm w n H. destruct (Hm w) as [-> _]. exact H. Qed.

Lemma keeps_bind {A B : Type} (m : M A) (k : A -> M B) :
  keeps_attributes m -> (forall a, keeps_attributes (k a)) -> keeps_attributes (bind m k).
Proof.
  intros Hm Hk w n H. unfold bind. specialize (Hm w n H).
  destruct (m w) as [[a|e] w1]; cbn [snd] in *; [|exact Hm].
  now apply Hk.
Qed.

Lemma keeps_setattr n' v : keeps_attributes (setattr n' v).
Proof.
  intros w n H. cbn. destruct (decide (n' = n)) as [->|Hne].
  - rewrite lookup_insert_eq. eauto.
  - now rewrite lookup_insert_ne.
Qed.

Lemma keeps_schedule t : keeps_attributes (run_coroutine_threadsafe t).
Proof.
  intros w n H. unfold run_coroutine_threadsafe, bind, getattr.
  destruct (obj w !! "loop"); exact H.
Qed.

Lemma keeps_try {A : Type} (body handler : M A) :
  keeps_attributes body -> keeps_attributes handler ->
  keeps_attributes (try_except_ValueError body handler).
Proof.
  intros Hb Hh w n H. unfold try_except_ValueError. specialize (Hb w n H).
  destruct (body w) as [[a|e] w1]; cbn [snd] in *; [exact Hb|].
  destruct e; try exact Hb. now apply Hh.
Qed.

Lemma keeps_for_each {A : Type} (f : A -> M unit) l :
  (forall a, keeps_attributes (f a)) -> keeps_attributes (for_each f l).
Proof.
  intros Hf. induction l as [|a l IH]; [intros w n H; exact H|].
  cbn [for_each]. apply keeps_bind; auto.
Qed.

End Keeping.

Create HintDb keeps.
#[export] Hint Resolve keeps_setattr keeps_schedule : keeps.

Ltac keeps_tac :=
  repeat first
    [ solve [auto with keeps]
    | apply keeps_quiet; solve [quiet_tac]
    | apply keeps_bind; [|intros]
    | apply keeps_try
    | apply keeps_for_each; intros
    | match goal with
      | |- keeps_attributes (if ?b then _ else _) => destruct b
      | |- keeps_attributes (match ?x with _ => _ end) => destruct x
      end ].

Section KeepingOperations.

Variable http : request -> result value.
Variable json_call : request -> result value.
Variable find_all_li : value -> list li_tag.

Lemma keeps_init title page_id redirect preload original_title locale session :
  keeps_attributes (WikiPage_init title page_id redirect preload original_title locale session).
Proof. unfold WikiPage_init, touch. keeps_tac. Qed.

Lemma keeps_load redirect preload :
  keeps_attributes (WikiPage_load json_call find_all_li redirect preload).
Proof.
  unfold WikiPage_load.
  repeat first
    [ apply keeps_init
    | apply keeps_quiet; solve [quiet_tac]
    | solve [auto with keeps]
    | apply keeps_bind; [|intros]
    | match goal with |- keeps_attributes (if ?b then _ else _) => destruct b end ].
Qed.

Lemma quiet_own_page request : quiet (own_page request).
Proof. unfold own_page. quiet_tac. Qed.

Lemma quiet_add_selector params : quiet (add_selector params).
Proof.
  unfold add_selector.
  apply quiet_bind; [quiet_tac|]. intros t. destruct t; quiet_tac.
Qed.

Lemma keeps_html : keeps_attributes (WikiPage_html http).
Proof. unfold WikiPage_html. keeps_tac. Qed.

Lemma keeps_content : keeps_attributes (WikiPage_content http).
Proof.
  unfold WikiPage_content.
  repeat first
    [ apply keeps_quiet; first [apply quiet_own_page | apply quiet_add_selector | solve [quiet_tac]]
    | solve [auto with keeps]
    | apply keeps_bind; [|intros]
    | match goal with |- keeps_attributes (if ?b then _ else _) => destruct b end ].
Qed.

Lemma keeps_summary : keeps_attributes (WikiPage_summary http).
Proof.
  unfold WikiPage_summary.
  repeat first
    [ apply keeps_quiet; first [apply quiet_own_page | apply quiet_add_selector | solve [quiet_tac]]
    | solve [auto with keeps]
    | apply keeps_bind; [|intros]
    | match goal with |- keeps_attributes (if ?b then _ else _) => destruct b end ].
Qed.

Lemma keeps_revision_id : keeps_attributes WikiPage_revision_id.
Proof. unfold WikiPage_revision_id. keeps_tac. Qed.

Lemma keeps_parent_id : keeps_attributes WikiPage_parent_id.
Proof. unfold WikiPage_parent_id. keeps_tac. Qed.

Lemma keeps_section section_title : keeps_attributes (WikiPage_section http section_title).
Proof.
  unfold WikiPage_section.
  repeat first
    [ apply keeps_content
    | apply keeps_quiet; solve [quiet_tac]
    | apply keeps_bind; [|intros]
    | apply keeps_try
    | match goal with
      | |- keeps_attributes (match ?x with _ => _ end) => destruct x
      end ].
Qed.

Lemma keeps_run_task t : keeps_attributes (run_task http json_call find_all_li t).
Proof.
  destruct t; cbn [run_task]; [|apply keeps_content].
  apply keeps_bind; [apply keeps_load | intros; apply keeps_quiet, quiet_ret].
Qed.

(** No operation of the program removes an attribute of the page. *)
Lemma perform_keeps op w n :
  is_Some (obj w !! n) -> is_Some (obj (perform http json_call find_all_li op w) !! n).
Proof.
  intros H. destruct op; cbn [perform].
  - now apply keeps_init.
  - now apply keeps_load.
  - now destruct (continued_query_quiet json_call fuel query_params w) as [-> _].
  - now apply keeps_html.
  - now apply keeps_content.
  - now apply keeps_revision_id.
  - now apply keeps_parent_id.
  - now apply keeps_summary.
  - now apply keeps_section.
  - now destruct (quiet_search http self results suggestion w) as [-> _].
  - destruct (pending w) as [|t rest]; [exact H|].
    now apply keeps_run_task.
Qed.

Lemma perform_all_keeps ops w n :
  is_Some (obj w !! n) -> is_Some (obj (perform_all http json_call find_all_li ops w) !! n).
Proof.
  revert w. induction ops as [|op ops IH]; intros w H; [exact H|].
  change (perform_all http json_call find_all_li (op :: ops) w)
    with (perform_all http json_call find_all_li ops (perform http json_call find_all_li op w)).
  apply IH. now apply perform_keeps.
Qed.

End KeepingOperations.

Section GuardNames.

Variable http : request -> result value.
Variable json_call : request -> result value.
Variable find_all_li : value -> list li_tag.
Variable n : string.
Hypothesis guard_name : n = "_revid" \/ n = "_parentid".

Lemma untouched_init title page_id redirect preload original_title locale session :
  untouched n (WikiPage_init title page_id redirect preload original_title locale session).
Proof.
  unfold WikiPage_init, touch. destruct guard_name as [-> | ->]; untouched_tac.
Qed.

Lemma untouched_load redirect preload :
  untouched n (WikiPage_load json_call find_all_li redirect preload).
Proof.
  unfold WikiPage_load.
  repeat first
    [ apply untouched_init
    | apply untouched_quiet; solve [quiet_tac]
    | apply untouched_bind; [apply untouched_quiet; solve [quiet_tac] | intros ?]
    | match goal with |- untouched _ (if ?b then _ else _) => destruct b end ].
  all: destruct guard_name as [-> | ->]; untouched_tac.
Qed.

Lemma untouched_own_page request : untouched n (own_page request).
Proof. apply untouched_quiet. unfold own_page. quiet_tac. Qed.

Lemma untouched_add_selector params : untouched n (add_selector params).
Proof.
  apply untouched_quiet. unfold add_selector.
  apply quiet_bind; [quiet_tac|]. intros t. destruct t; quiet_tac.
Qed.

Lemma untouched_html : untouched n (WikiPage_html http).
Proof. unfold WikiPage_html. destruct guard_name as [-> | ->]; untouched_tac. Qed.

Lemma untouched_content : untouched n (WikiPage_content http).
Proof.
  unfold WikiPage_content.
  repeat first
    [ apply untouched_own_page
    | apply untouched_add_selector
    | apply untouched_quiet; solve [quiet_tac]
    | apply untouched_setattr; solve [destruct guard_name as [-> | ->]; done]
    | apply untouched_bind; [|intros]
    | match goal with |- untouched _ (if ?b then _ else _) => destruct b end ].
Qed.

Lemma untouched_summary : untouched n (WikiPage_summary http).
Proof.
  unfold WikiPage_summary.
  repeat first
    [ apply untouched_own_page
    | apply untouched_add_selector
    | apply untouched_quiet; solve [quiet_tac]
    | apply untouched_setattr; solve [destruct guard_name as [-> | ->]; done]
    | apply untouched_bind; [|intros]
    | match goal with |- untouched _ (if ?b then _ else _) => destruct b end ].
Qed.

Lemma untouched_revision_id : untouched n WikiPage_revision_id.
Proof. unfold WikiPage_revision_id. untouched_tac. Qed.

Lemma untouched_parent_id : untouched n WikiPage_parent_id.
Proof. unfold WikiPage_parent_id. untouched_tac. Qed.

Lemma untouched_section section_title : untouched n (WikiPage_section http section_title).
Proof.
  unfold WikiPage_section.
  repeat first
    [ apply untouched_content
    | apply untouched_quiet; solve [quiet_tac]
    | apply untouched_bind; [|intros]
    | apply untouched_try
    | match goal with
      | |- untouched _ (match ?x with _ => _ end) => destruct x
      end ].
Qed.

Lemma untouched_run_task t : untouched n (run_task http json_call find_all_li t).
Proof.
  destruct t; cbn [run_task]; [|apply untouched_content].
  apply untouched_bind; [apply untouched_load | intros; apply untouched_quiet, quiet_ret].
Qed.

(** No operation of the program assigns [_revid] or [_parentid]. *)
Lemma perform_untouched op w : obj (perform http json_call find_all_li op w) !! n = obj w !! n.
Proof.
  destruct op; cbn [perform].
  - apply untouched_init.
  - apply untouched_load.
  - now destruct (continued_query_quiet json_call fuel query_params w) as [-> _].
  - apply untouched_html.
  - apply untouched_content.
  - apply untouched_revision_id.
  - apply untouched_parent_id.
  - apply untouched_summary.
  - apply untouched_section.
  - now destruct (quiet_search http self results suggestion w) as [-> _].
  - destruct (pending w) as [|t rest]; [reflexivity|].
    now rewrite untouched_run_task.
Qed.

Lemma perform_all_untouched ops w : obj (perform_all http json_call find_all_li ops w) !! n = obj w !! n.
Proof.
  revert w. induction ops as [|op ops IH]; intros w; [reflexivity|].
  change (perform_all http json_call find_all_li (op :: ops) w)
    with (perform_all http json_call find_all_li ops (perform http json_call find_all_li op w)).
  now rewrite IH, perform_untouched.
Qed.

End GuardNames.

(** * Reading a run backwards *)

(** From [H : bind m k w = (Ret v, w')]: the first step returned. *)
Ltac minv_step H :=
  lazymatch type of H with
  | bind (bind _ _) _ _ = _ => rewrite run_bind in H
  | bind (ret _) _ _ = _ => rewrite run_ret in H
  | bind (getattr_default _ _) _ _ = _ => rewrite run_getattr_default in H
  | bind (hasattr _) _ _ = _ => rewrite run_hasattr in H
  | bind (setattr _ _) _ _ = _ => rewrite run_setattr in H
  | bind (getattr ?n) _ ?w = _ =>
      let E := fresh "Hattr" in
      destruct (obj w !! n) eqn:E;
      [ rewrite (run_getattr _ _ _ _ E) in H
      | rewrite (run_getattr_missing _ _ _ E) in H; discriminate H ]
  | bind (lift ?r) _ _ = _ =>
      let E := fresh "Hval" in
      destruct r eqn:E;
      [ rewrite run_lift_Ret in H
      | rewrite run_lift_Raise in H; discriminate H ]
  | bind (getkey _ _) _ _ = _ => unfold getkey at 1 in H
  | bind (getitem _ _) _ _ = _ => unfold getitem at 1 in H
  | bind (contains _ _) _ _ = _ => unfold contains at 1 in H
  | bind (session_get ?http ?s ?u ?p) _ _ = _ =>
      let E := fresh "Hhttp" in
      destruct (http (Request s u p)) eqn:E;
      [ rewrite (run_session_get _ _ _ _ _ _ _ E) in H
      | unfold bind at 1, session_get at 1 in H; rewrite E in H; discriminate H ]
  | bind (if ?b then _ else _) _ _ = _ => destruct b
  | bind (match ?x with _ => _ end) _ _ = _ => destruct x
  end.

Ltac minv H := repeat minv_step H.

(** Bring the lookups met on the way back to the attributes of the first
    world. *)
Ltac lookups_back :=
  cbn [obj pending log set_obj set_pending set_log state done] in *;
  repeat match goal with
         | E : context [<[_ := _]> _ !! _] |- _ =>
             first [ rewrite lookup_insert_ne in E by done
                   | rewrite lookup_insert_eq in E ]
         end;
  simplify_eq;
  repeat match goal with
         | E1 : ?x = Ret _, E2 : ?x = Ret _ |- _ => rewrite E1 in E2; simplify_eq
         end.

Ltac use_items :=
  unfold field_of, revision_field, and_then;
  repeat match goal with
         | E : py_getitem _ _ = _ |- _ => rewrite E
         end.

Section Accessors.

Variable http : request -> result value.
Variable json_call : request -> result value.
Variable find_all_li : value -> list li_tag.

Lemma getattr_run n w r w' :
  getattr n w = (r, w') -> w' = w /\ r = match obj w !! n with
                                         | Some v => Ret v
                                         | None => Raise (AttributeError n)
                                         end.
Proof. unfold getattr. destruct (obj w !! n); intros [= <- <-]; auto. Qed.

(** What a fetch by [content] does. *)
Lemma content_fetch w v w' :
  slot_empty Content w ->
  WikiPage_content http w = (Ret v, w') ->
  exists rq resp pid revid parentid,
    log w' = log w ++ [rq] /\
    pending w' = pending w /\
    http rq = Ret resp /\
    (rq_params rq ≫= dict_get "prop") = Some (VStr (prop_of Content)) /\
    obj w !! "page_id" = Some pid /\
    field_of Content pid resp = Ret v /\
    revision_field "revid" pid resp = Ret revid /\
    revision_field "parentid" pid resp = Ret parentid /\
    obj w' = <["_parent_id" := parentid]> (<["_revision_id" := revid]>
               (<["_content" := v]> (obj w))).
Proof.
  unfold slot_empty, slot. intros Hc H.
  unfold WikiPage_content in H.
  rewrite run_getattr_default, Hc in H. cbn [negb] in H.
  unfold add_selector, own_page in H.
  minv H.
  all: apply getattr_run in H as [-> Hv]; lookups_back.
  all: eexists _, _, _, _, _; repeat split; try eassumption; try reflexivity.
  all: use_items; reflexivity.
Qed.

(** What a fetch by any of the accessors does. *)
Lemma access_fetch a w v w' :
  slot_empty a w ->
  access http a w = (Ret v, w') ->
  exists rq resp pid,
    log w' = log w ++ [rq] /\
    pending w' = pending w /\
    http rq = Ret resp /\
    (rq_params rq ≫= dict_get "prop") = Some (VStr (prop_of a)) /\
    obj w !! "page_id" = Some pid /\
    field_of a pid resp = Ret v /\
    obj w' !! slot a = Some v.
Proof.
  intros Hc H. destruct a; cbn [access] in H.
  - unfold slot_empty, slot in Hc. unfold WikiPage_html in H.
    rewrite run_getattr_default, Hc in H. cbn [negb] in H.
    minv H.
    apply getattr_run in H as [-> Hv]; lookups_back.
    eexists _, _, _; repeat split; try eassumption; try reflexivity.
    + use_items; reflexivity.
    + cbn [slot]. lookup_tac.
  - destruct (content_fetch _ _ _ Hc H)
      as (rq & resp & pid & revid & parentid & Hl & Hp & Hh & Hpr & Hpid & Hf & _ & _ & Ho).
    exists rq, resp, pid. repeat split; try assumption.
    rewrite Ho. cbn [slot]. lookup_tac.
  - unfold slot_empty, slot in Hc. unfold WikiPage_summary in H.
    rewrite run_getattr_default, Hc in H. cbn [negb] in H.
    unfold add_selector, own_page in H.
    minv H.
    all: apply getattr_run in H as [-> Hv]; lookups_back.
    all: eexists _, _, _; repeat split; try eassumption; try reflexivity.
    all: first [use_items; reflexivity | cbn [slot]; lookup_tac].
Qed.

(** On a resolved page with an empty slot, an access returns the field the
    server gives. *)
Lemma access_returns a w title pid session endpoint v :
  slot_empty a w ->
  obj w !! "title" = Some (VStr title) ->
  obj w !! "page_id" = Some pid ->
  obj w !! "session" = Some session ->
  obj w !! "endpoint" = Some endpoint ->
  serves http a pid v ->
  exists w', access http a w = (Ret v, w').
Proof.
  unfold slot_empty. intros Hc Ht Hp Hs He Hserve.
  destruct a; cbn [access slot] in *;
    [unfold WikiPage_html | unfold WikiPage_content | unfold WikiPage_summary];
    unfold add_selector, own_page;
    rewrite run_getattr_default, Hc; cbn [negb];
    mrun; rewrite ?Ht; cbn [from_option id]; mrun;
    match goal with
    | |- context [session_get http ?s ?u ?p] =>
        destruct (Hserve (Request s u p) eq_refl) as (resp & revid & parentid & Hh & Hf & Hr & Hpa)
    end;
    unfold field_of, revision_field, and_then in Hf, Hr, Hpa;
    repeat case_match; simplify_eq;
    mrun; eexists; apply getattr_Some; lookup_tac.
Qed.

(** A truthy value in the slot is returned as it is. *)
Lemma access_cached a w c :
  obj w !! slot a = Some c -> truthy c = true -> access http a w = (Ret c, w).
Proof.
  intros Hs Ht.
  assert (Hc : truthy (default (VBool false) (obj w !! slot a)) = true)
    by (rewrite Hs; exact Ht).
  destruct a; cbn [access slot] in *;
    [unfold WikiPage_html | unfold WikiPage_content | unfold WikiPage_summary];
    rewrite run_getattr_default, Hc; cbn [negb];
    rewrite run_ret; now apply getattr_Some.
Qed.

(** After an access that returned, the slot holds what was returned. *)
Lemma access_slot a w v w' :
  access http a w = (Ret v, w') -> obj w' !! slot a = Some v.
Proof.
  intros H.
  destruct (truthy (default (VBool false) (obj w !! slot a))) eqn:Hc.
  - destruct (obj w !! slot a) as [c|] eqn:Hs; [|discriminate].
    simpl in Hc. rewrite (access_cached _ _ _ Hs Hc) in H.
    now injection H as <- <-.
  - destruct (access_fetch _ _ _ _ Hc H) as (rq & resp & pid & _ & _ & _ & _ & _ & _ & Hs).
    exact Hs.
Qed.

(** Claim C4, as amended.  For each of the accessors [html], [content] and
    [summary], an access that returns [v] leaves [v] in the accessor's slot.
    If the slot held a truthy value, that value is returned and the world is
    unchanged, so no request is made.  If the slot was unset or held a falsy
    value (an empty text), exactly one request is made, with the accessor's
    [prop], and [v] is the field of the response the accessor consumes.  When
    [v] is truthy, the next access returns it again without any request, so
    the two accesses make at most one request. *)
Theorem lazy_accessor_caches_truthy_values a w v w' :
  access http a w = (Ret v, w') ->
  obj w' !! slot a = Some v /\
  (forall c, obj w !! slot a = Some c -> truthy c = true ->
     v = c /\ w' = w) /\
  (slot_empty a w ->
     exists rq resp pid,
       log w' = log w ++ [rq] /\
       http rq = Ret resp /\
       (rq_params rq ≫= dict_get "prop") = Some (VStr (prop_of a)) /\
       obj w !! "page_id" = Some pid /\
       field_of a pid resp = Ret v) /\
  (truthy v = true ->
     access http a w' = (Ret v, w') /\
     (length (log w') <= length (log w) + 1)%nat).
Proof.
  intros H. pose proof (access_slot _ _ _ _ H) as Hslot.
  split; [assumption|].
  destruct (truthy (default (VBool false) (obj w !! slot a))) eqn:Hc.
  - destruct (obj w !! slot a) as [c|] eqn:Hs; [|discriminate].
    simpl in Hc. rewrite (access_cached _ _ _ Hs Hc) in H.
    injection H as <- <-.
    split; [|split].
    + intros c' [= <-] _. split; reflexivity.
    + unfold slot_empty. rewrite Hs. simpl. congruence.
    + intros _. split; [now apply access_cached | lia].
  - destruct (access_fetch _ _ _ _ Hc H)
      as (rq & resp & pid & Hl & Hp & Hh & Hpr & Hpid & Hf & Hs).
    split; [|split].
    + intros c Hs' Ht. rewrite Hs' in Hc. simpl in Hc. congruence.
    + intros _. exists rq, resp, pid. auto.
    + intros Ht. split; [now apply access_cached|].
      rewrite Hl, length_app. cbn. lia.
Qed.

End Accessors.

(** * The revision accessors *)

Section Revisions.

Variable http : request -> result value.
Variable json_call : request -> result value.
Variable find_all_li : value -> list li_tag.

(** With its guard attribute absent, a revision accessor schedules the
    content coroutine and then reads the attribute the fetch would set. *)
Lemma revision_id_run w :
  obj w !! "_revid" = None ->
  WikiPage_revision_id w =
  match obj w !! "loop" with
  | Some _ => getattr "_revision_id" (set_pending (pending w ++ [ContentTask]) w)
  | None => (Raise (AttributeError "loop"), w)
  end.
Proof.
  intros Hg. unfold WikiPage_revision_id.
  rewrite run_getattr_default, Hg. cbn [from_option id truthy negb].
  destruct (obj w !! "loop") as [l|] eqn:Hl.
  - now rewrite (run_schedule _ _ _ _ Hl).
  - unfold run_coroutine_threadsafe. rewrite !run_bind.
    now rewrite (run_getattr_missing _ _ _ Hl).
Qed.

Lemma parent_id_run w :
  obj w !! "_parentid" = None ->
  WikiPage_parent_id w =
  match obj w !! "loop" with
  | Some _ => getattr "_parent_id" (set_pending (pending w ++ [ContentTask]) w)
  | None => (Raise (AttributeError "loop"), w)
  end.
Proof.
  intros Hg. unfold WikiPage_parent_id.
  rewrite run_getattr_default, Hg. cbn [from_option id truthy negb].
  destruct (obj w !! "loop") as [l|] eqn:Hl.
  - now rewrite (run_schedule _ _ _ _ Hl).
  - unfold run_coroutine_threadsafe. rewrite !run_bind.
    now rewrite (run_getattr_missing _ _ _ Hl).
Qed.

(** With a truthy content the misspelled guard costs no request: after a
    fetch by [content], [revision_id] returns the stored id, and the content
    coroutine it schedules all the same is served from the slot. *)
Lemma revision_id_after_content w v w1 loop :
  slot_empty Content w ->
  WikiPage_content http w = (Ret v, w1) ->
  truthy v = true ->
  obj w !! "_revid" = None ->
  obj w !! "loop" = Some loop ->
  exists revid,
    length (log w1) = S (length (log w)) /\
    WikiPage_revision_id w1 = (Ret revid, set_pending (pending w1 ++ [ContentTask]) w1) /\
    forall w2, obj w2 = obj w1 -> WikiPage_content http w2 = (Ret v, w2).
Proof.
  intros Hc H Ht Hg Hl.
  destruct (content_fetch http _ _ _ Hc H)
    as (rq & resp & pid & revid & parentid & Hlog & _ & _ & _ & _ & _ & _ & _ & Ho).
  exists revid. split; [|split].
  - rewrite Hlog, length_app. cbn. lia.
  - rewrite revision_id_run by (rewrite Ho; now simplify_map_eq).
    replace (obj w1 !! "loop") with (Some loop) by (rewrite Ho; now simplify_map_eq).
    apply getattr_Some. wsimpl. rewrite Ho. now simplify_map_eq.
  - intros w2 Hw2. apply (access_cached http Content); [|exact Ht].
    cbn [slot]. rewrite Hw2, Ho. now simplify_map_eq.
Qed.

(** Claim C10.  The guards of [revision_id] and [parent_id] read the
    attributes [_revid] and [_parentid].  From a constructed page without
    them, no sequence of operations of the program ever makes them appear,
    while a fetch by [content] stores [_revision_id] and [_parent_id].  So
    on every page reached, an access to [revision_id] or [parent_id]
    schedules the content coroutine, and it raises [AttributeError] as long
    as no content fetch has stored the attribute it reads. *)
Theorem revision_guards_test_unwritten_attributes ops w :
  obj w !! "_revid" = None ->
  obj w !! "_parentid" = None ->
  is_Some (obj w !! "loop") ->
  let w' := perform_all http json_call find_all_li ops w in
  obj w' !! "_revid" = None /\
  obj w' !! "_parentid" = None /\
  pending (snd (WikiPage_revision_id w')) = pending w' ++ [ContentTask] /\
  pending (snd (WikiPage_parent_id w')) = pending w' ++ [ContentTask] /\
  (obj w' !! "_revision_id" = None ->
     fst (WikiPage_revision_id w') = Raise (AttributeError "_revision_id")) /\
  (obj w' !! "_parent_id" = None ->
     fst (WikiPage_parent_id w') = Raise (AttributeError "_parent_id")) /\
  (forall v w'', slot_empty Content w' -> WikiPage_content http w' = (Ret v, w'') ->
     is_Some (obj w'' !! "_revision_id") /\ is_Some (obj w'' !! "_parent_id") /\
     obj w'' !! "_revid" = None /\ obj w'' !! "_parentid" = None).
Proof.
  intros Hr Hp Hloop w'.
  assert (Hr' : obj w' !! "_revid" = None).
  { unfold w'. rewrite perform_all_untouched; auto. }
  assert (Hp' : obj w' !! "_parentid" = None).
  { unfold w'. rewrite perform_all_untouched; auto. }
  assert (Hloop' : is_Some (obj w' !! "loop")) by now apply perform_all_keeps.
  destruct Hloop' as [l Hl].
  split; [assumption|]. split; [assumption|].
  rewrite (revision_id_run _ Hr'), (parent_id_run _ Hp'), Hl.
  split; [|split; [|split; [|split]]].
  - unfold getattr. wsimpl. destruct (obj w' !! "_revision_id"); reflexivity.
  - unfold getattr. wsimpl. destruct (obj w' !! "_parent_id"); reflexivity.
  - intros Hn. now rewrite getattr_None.
  - intros Hn. now rewrite getattr_None.
  - intros v w'' Hc H.
    destruct (content_fetch http _ _ _ Hc H)
      as (rq & resp & pid & revid & parentid & _ & _ & _ & _ & _ & _ & _ & _ & Ho).
    rewrite Ho. repeat split; simplify_map_eq; eauto.
Qed.

End Revisions.

(** * Searching strings *)

Section Strings.

Lemma append_nil b : EmptyString +:+ b = b.
Proof. reflexivity. Qed.

Lemma append_cons c a b : String c a +:+ b = String c (a +:+ b).
Proof. reflexivity. Qed.

Lemma length_append a b :
  String.length (a +:+ b) = (String.length a + String.length b)%nat.
Proof.
  induction a as [|c a IH]; [reflexivity|].
  rewrite append_cons. cbn. now rewrite IH.
Qed.

Lemma append_assoc a b c : (a +:+ b) +:+ c = a +:+ (b +:+ c).
Proof.
  induction a as [|x a IH]; [reflexivity|].
  rewrite !append_cons. now rewrite IH.
Qed.

Lemma substring_empty n m : String.substring n m EmptyString = EmptyString.
Proof. destruct n, m; reflexivity. Qed.

Lemma substring_all s : String.substring 0 (String.length s) s = s.
Proof. induction s as [|c s IH]; cbn; [reflexivity | now rewrite IH]. Qed.

Lemma substring_prefix a b : String.substring 0 (String.length a) (a +:+ b) = a.
Proof.
  induction a as [|c a IH].
  - rewrite append_nil. destruct b; reflexivity.
  - rewrite append_cons. cbn. now rewrite IH.
Qed.

Lemma substring_skip a b p k :
  String.substring (String.length a + p) k (a +:+ b) = String.substring p k b.
Proof.
  induction a as [|c a IH]; [reflexivity|].
  rewrite append_cons. cbn. exact IH.
Qed.

Lemma substring_at pre sub post :
  String.substring (String.length pre) (String.length sub) (pre +:+ sub +:+ post) = sub.
Proof.
  rewrite <- (Nat.add_0_r (String.length pre)), substring_skip.
  apply substring_prefix.
Qed.

Lemma prefix_split sub : forall s,
  String.substring 0 (String.length sub) s = sub -> exists post, s = sub +:+ post.
Proof.
  induction sub as [|c sub IH]; intros s H.
  - exists s. reflexivity.
  - destruct s as [|c' s]; cbn in H; [discriminate|].
    injection H as -> H. destruct (IH s H) as [post ->]. now exists post.
Qed.

Lemma substring_split sub : sub <> EmptyString -> forall s p,
  String.substring p (String.length sub) s = sub -> occurs_at sub s p.
Proof.
  intros Hne s. induction s as [|c s IH]; intros p H.
  - rewrite substring_empty in H. congruence.
  - destruct p as [|p].
    + destruct (prefix_split _ _ H) as [post ->]. exists EmptyString, post. now split.
    + cbn in H. destruct (IH p H) as (pre & post & -> & Hl).
      exists (String c pre), post. cbn. now rewrite Hl.
Qed.

Lemma occurs_at_substring sub s i :
  occurs_at sub s i -> String.substring i (String.length sub) s = sub.
Proof. intros (pre & post & -> & <-). apply substring_at. Qed.

Lemma index_ge sub : forall s n m, String.index n sub s = Some m -> (n <= m)%nat.
Proof.
  intros s. induction s as [|c s IH]; intros n m H.
  - destruct n; cbn in H; [lia | discriminate].
  - destruct n as [|n]; [lia|]. cbn in H.
    destruct (String.index n sub s) as [k|] eqn:E; [|discriminate].
    injection H as <-. apply IH in E. lia.
Qed.

(** What a successful search from the start says. *)
Lemma index_first sub s i :
  sub <> EmptyString -> String.index 0 sub s = Some i -> first_at sub s i.
Proof.
  intros Hne H. split.
  - apply substring_split; [assumption|]. eapply String.index_correct1; eauto.
  - intros j Hj. destruct (Nat.le_gt_cases i j) as [|Hlt]; [assumption|].
    exfalso. apply (String.index_correct2 _ _ _ _ H j); [lia | assumption |].
    now apply occurs_at_substring.
Qed.

Lemma index_absent sub s :
  sub <> EmptyString -> String.index 0 sub s = None -> absent sub s.
Proof.
  intros Hne H i Hi.
  apply (String.index_correct3 _ i _ _ H Hne); [lia|].
  now apply occurs_at_substring.
Qed.

(** Searching from the end of a prefix is searching the rest. *)
Lemma index_from_first sub a rest j :
  sub <> EmptyString ->
  String.index (String.length a) sub (a +:+ rest) = Some j ->
  (String.length a <= j)%nat /\ first_at sub rest (j - String.length a).
Proof.
  intros Hne H. pose proof (index_ge _ _ _ _ H) as Hge. split; [assumption|].
  split.
  - apply substring_split; [assumption|].
    rewrite <- (substring_skip a rest).
    replace (String.length a + (j - String.length a))%nat with j by lia.
    eapply String.index_correct1; eauto.
  - intros k Hk. destruct (Nat.le_gt_cases (j - String.length a) k) as [|Hlt]; [assumption|].
    exfalso.
    apply (String.index_correct2 _ _ _ _ H (String.length a + k)%nat); [lia | lia |].
    rewrite substring_skip. now apply occurs_at_substring.
Qed.

Lemma index_from_absent sub a rest :
  sub <> EmptyString ->
  String.index (String.length a) sub (a +:+ rest) = None ->
  absent sub rest.
Proof.
  intros Hne H k Hk.
  apply (String.index_correct3 _ (String.length a + k)%nat _ _ H Hne); [lia|].
  rewrite substring_skip. now apply occurs_at_substring.
Qed.

Lemma slice_body a body tail :
  str_slice (a +:+ body +:+ tail) (String.length a) (String.length a + String.length body) = body.
Proof.
  unfold str_slice.
  replace (String.length a + String.length body - String.length a)%nat
    with (String.length body) by lia.
  apply substring_at.
Qed.

Lemma slice_rest a rest :
  str_slice (a +:+ rest) (String.length a) (String.length (a +:+ rest)) = rest.
Proof.
  unfold str_slice. rewrite length_append.
  replace (String.length a + String.length rest - String.length a)%nat
    with (String.length rest) by lia.
  rewrite <- (Nat.add_0_r (String.length a)), substring_skip.
  apply substring_all.
Qed.

End Strings.

(** * Sections *)

Section Sections.

Variable http : request -> result value.
Variable json_call : request -> result value.
Variable find_all_li : value -> list li_tag.

Lemma run_try_Ret {A B : Type} (body handler : M A) (k : A -> M B) w a w' :
  body w = (Ret a, w') ->
  bind (try_except_ValueError body handler) k w = k a w'.
Proof. intros H. unfold bind, try_except_ValueError. now rewrite H. Qed.

Lemma run_try_ValueError {A B : Type} (body handler : M A) (k : A -> M B) w msg w' :
  body w = (Raise (ValueError msg), w') ->
  bind (try_except_ValueError body handler) k w = bind handler k w'.
Proof. intros H. unfold bind at 1, try_except_ValueError. now rewrite H. Qed.

Lemma marker_not_empty t : marker t <> EmptyString.
Proof. discriminate. Qed.

Lemma index_in_empty sub n : sub <> EmptyString -> String.index n sub EmptyString = None.
Proof. intros H. destruct n, sub; cbn; congruence. Qed.

(** Once [content] has returned a text in which something was found, it
    returns that text again and changes nothing. *)
Lemma content_again w c w1 :
  WikiPage_content http w = (Ret (VStr c), w1) ->
  c <> EmptyString ->
  WikiPage_content http w1 = (Ret (VStr c), w1).
Proof.
  intros H Hne.
  apply (access_cached http Content).
  - exact (access_slot http Content _ _ _ H).
  - cbn. now destruct c.
Qed.

(** [section] computes [section_value] from the text [content] returns, and
    leaves the world as that access to [content] left it. *)
Lemma section_run t w c w1 :
  WikiPage_content http w = (Ret (VStr c), w1) ->
  WikiPage_section http t w = (Ret (section_value c t), w1).
Proof.
  intros H. unfold WikiPage_section, section_value.
  change ("== " +:+ t +:+ " ==") with (marker t).
  destruct (String.index 0 (marker t) c) as [i|] eqn:Hi.
  - assert (Hne : c <> EmptyString).
    { intros ->. rewrite index_in_empty in Hi by apply marker_not_empty. discriminate. }
    pose proof (content_again _ _ _ H Hne) as H1.
    erewrite run_try_Ret; cycle 1.
    { rewrite (run_Ret _ _ _ _ _ H). cbn [py_index]. rewrite Hi.
      rewrite run_lift_Ret. reflexivity. }
    destruct (String.index (i + String.length (marker t)) "==" c) as [j|] eqn:Hj.
    + erewrite run_try_Ret; cycle 1.
      { rewrite (run_Ret _ _ _ _ _ H1). cbn [py_index]. rewrite Hj. reflexivity. }
      rewrite (run_Ret _ _ _ _ _ H1). reflexivity.
    + erewrite run_try_ValueError; cycle 1.
      { rewrite (run_Ret _ _ _ _ _ H1). cbn [py_index]. rewrite Hj. reflexivity. }
      rewrite run_bind, (run_Ret _ _ _ _ _ H1). cbn [py_len]. rewrite run_lift_Ret.
      rewrite (run_Ret _ _ _ _ _ H1). reflexivity.
  - erewrite run_try_ValueError; cycle 1.
    { rewrite (run_Ret _ _ _ _ _ H). cbn [py_index]. rewrite Hi. reflexivity. }
    reflexivity.
Qed.

(** The text that [section] cuts out of its content. *)
Definition cut (c t : string) : option string :=
  match String.index 0 (marker t) c with
  | None => None
  | Some i =>
      let index := (i + String.length (marker t))%nat in
      Some (str_slice c index
              match String.index index "==" c with
              | Some j => j
              | None => String.length c
              end)
  end.

Lemma text_after_cut c t : text_after c t (cut c t).
Proof.
  unfold cut.
  destruct (String.index 0 (marker t) c) as [i|] eqn:Hi.
  - pose proof (index_first _ _ _ (marker_not_empty t) Hi) as Hfirst.
    destruct Hfirst as [(pre & rest & Hc & Hlen) Hmin].
    assert (Hidx : (i + String.length (marker t))%nat = String.length (pre +:+ marker t))
      by (rewrite length_append; lia).
    assert (Hc' : c = (pre +:+ marker t) +:+ rest) by (now rewrite append_assoc).
    cbv zeta. rewrite Hidx.
    destruct (String.index (String.length (pre +:+ marker t)) "==" c) as [j|] eqn:Hj.
    + rewrite Hc' in Hj.
      apply index_from_first in Hj as [Hge [(body & tail & Hrest & Hbl) Hmin2]]; [|discriminate].
      replace (str_slice c (String.length (pre +:+ marker t)) j) with body.
      * eapply UpToNext with (pre := pre) (rest := rest) (tail := tail); eauto.
        -- split; [exists pre, rest; now rewrite Hlen | now rewrite Hlen].
        -- split; [exists body, tail; now split | now rewrite Hbl].
      * rewrite Hc', Hrest.
        replace j with (String.length (pre +:+ marker t) + String.length body)%nat by lia.
        symmetry. apply slice_body.
    + rewrite Hc' in Hj.
      apply index_from_absent in Hj; [|discriminate].
      replace (str_slice c (String.length (pre +:+ marker t)) (String.length c)) with rest.
      * eapply ToEnd with (pre := pre); eauto.
        split; [exists pre, rest; now rewrite Hlen | now rewrite Hlen].
      * rewrite Hc'. symmetry. apply slice_rest.
  - apply HeadingAbsent. apply index_absent; [apply marker_not_empty | assumption].
Qed.

Lemma section_value_cut c t :
  section_value c t =
  match cut c t with
  | Some body => VStr (strip (lstrip_eq body))
  | None => VNone
  end.
Proof. unfold section_value, cut. now destruct (String.index 0 (marker t) c). Qed.

End Sections.

(** * Trimming *)

Section Trimming.

Lemma append_empty a : a +:+ EmptyString = a.
Proof. induction a as [|c a IH]; [reflexivity|]. now rewrite append_cons, IH. Qed.

Lemma append_inj a : forall a' b b',
  a +:+ b = a' +:+ b' -> String.length a = String.length a' -> a = a' /\ b = b'.
Proof.
  induction a as [|c a IH]; intros [|c' a'] b b' H Hl; try discriminate.
  - now split.
  - rewrite !append_cons in H. injection H as -> H. injection Hl as Hl.
    destruct (IH _ _ _ H Hl) as [-> ->]. now split.
Qed.

Lemma first_at_unique sub s i j : first_at sub s i -> first_at sub s j -> i = j.
Proof.
  intros [Hi Hmi] [Hj Hmj]. specialize (Hmi _ Hj). specialize (Hmj _ Hi). lia.
Qed.

Lemma text_after_functional c t a b : text_after c t a -> text_after c t b -> a = b.
Proof.
  assert (Hsame : forall pre rest pre' rest',
            c = pre +:+ marker t +:+ rest -> first_at (marker t) c (String.length pre) ->
            c = pre' +:+ marker t +:+ rest' -> first_at (marker t) c (String.length pre') ->
            rest = rest').
  { intros pre rest pre' rest' Hc Hf Hc' Hf'.
    pose proof (first_at_unique _ _ _ _ Hf Hf') as Hl.
    rewrite Hc in Hc'. destruct (append_inj _ _ _ _ Hc' Hl) as [_ Hr].
    now destruct (append_inj _ _ _ _ Hr eq_refl). }
  intros Ha Hb.
  destruct Ha as [Ha | pre rest body tail Hc Hf Hr Hn | pre rest Hc Hf Hn];
    destruct Hb as [Hb | pre' rest' body' tail' Hc' Hf' Hr' Hn' | pre' rest' Hc' Hf' Hn'];
    try reflexivity;
    try (exfalso; destruct Hf' as [Ho _]; exact (Ha _ Ho));
    try (exfalso; destruct Hf as [Ho _]; exact (Hb _ Ho)).
  - pose proof (Hsame _ _ _ _ Hc Hf Hc' Hf') as <-.
    pose proof (first_at_unique _ _ _ _ Hn Hn') as Hl.
    rewrite Hr in Hr'. now destruct (append_inj _ _ _ _ Hr' Hl) as [-> _].
  - pose proof (Hsame _ _ _ _ Hc Hf Hc' Hf') as <-.
    exfalso. destruct Hn as [Ho _]. exact (Hn' _ Ho).
  - pose proof (Hsame _ _ _ _ Hc Hf Hc' Hf') as <-.
    exfalso. destruct Hn' as [Ho _]. exact (Hn _ Ho).
  - now rewrite (Hsame _ _ _ _ Hc Hf Hc' Hf').
Qed.

(** [lstrip("=")] is what [unsigned] asks for. *)
Lemma lstrip_eq_unsigned s : unsigned s (lstrip_eq s).
Proof.
  induction s as [|c s (eqs & Hs & He & Hn)].
  - exists EmptyString. repeat split. discriminate.
  - cbn [lstrip_eq]. destruct (Ascii.eqb c "=") eqn:E.
    + exists (String c eqs). split; [now rewrite append_cons, <- Hs|].
      split; [cbn [signs]; now rewrite E, He | exact Hn].
    + exists EmptyString. split; [reflexivity|]. split; [reflexivity|].
      intros r [= -> _]. discriminate.
Qed.

Lemma lstrip_ws_blank s : exists pre, s = pre +:+ lstrip_ws s /\ blank pre = true.
Proof.
  induction s as [|c s (pre & Hs & Hb)]; [now exists EmptyString|].
  cbn [lstrip_ws]. destruct (is_space c) eqn:E; [|now exists EmptyString].
  exists (String c pre). split; [now rewrite append_cons, <- Hs|].
  cbn [blank]. now rewrite E, Hb.
Qed.

Lemma rstrip_ws_blank s : exists post, s = rstrip_ws s +:+ post /\ blank post = true.
Proof.
  induction s as [|c s (post & Hs & Hb)]; [now exists EmptyString|].
  cbn [rstrip_ws]. destruct (rstrip_ws s) as [|c' r'] eqn:E.
  - rewrite append_nil in Hs. subst post.
    destruct (is_space c) eqn:Ec.
    + exists (String c s). split; [reflexivity|]. cbn [blank]. now rewrite Ec, Hb.
    + exists s. now split.
  - exists post. split; [now rewrite append_cons, <- Hs | exact Hb].
Qed.

Lemma lstrip_ws_head s c r : lstrip_ws s = String c r -> is_space c = false.
Proof.
  induction s as [|x s IH]; [discriminate|].
  cbn [lstrip_ws]. destruct (is_space x) eqn:E; [exact IH|].
  now intros [= <- _].
Qed.

Lemma rstrip_ws_head s c r : rstrip_ws s = String c r -> exists r', s = String c r'.
Proof.
  destruct s as [|x s]; [discriminate|]. cbn [rstrip_ws].
  destruct (rstrip_ws s); [destruct (is_space x)|]; intros [= <- _]; eauto.
Qed.

Lemma rstrip_ws_last s : forall r c, rstrip_ws s = r +:+ String c EmptyString -> is_space c = false.
Proof.
  induction s as [|x s IH]; intros r c H.
  - destruct r; discriminate.
  - cbn [rstrip_ws] in H. destruct (rstrip_ws s) as [|c' r'] eqn:E.
    + destruct (is_space x) eqn:Ex; [destruct r; discriminate|].
      destruct r as [|y r]; [now injection H as <-|].
      rewrite append_cons in H. injection H as _ H. destruct r; discriminate.
    + destruct r as [|y r]; [discriminate|].
      rewrite append_cons in H. injection H as _ H. exact (IH _ _ H).
Qed.

(** [strip()] is what [trim_of] asks for. *)
Lemma strip_trim s : trim_of s (strip s).
Proof.
  unfold strip.
  destruct (lstrip_ws_blank s) as (pre & Hs & Hpre).
  destruct (rstrip_ws_blank (lstrip_ws s)) as (post & Hu & Hpost).
  exists pre, post. split; [now rewrite <- Hu|]. split; [assumption|]. split; [assumption|].
  split.
  - intros c r H. destruct (rstrip_ws_head _ _ _ H) as [r' Hr].
    exact (lstrip_ws_head _ _ _ Hr).
  - intros r c H. exact (rstrip_ws_last _ _ _ H).
Qed.

Lemma lstrip_ws_append_blank pre x : blank pre = true -> lstrip_ws (pre +:+ x) = lstrip_ws x.
Proof.
  induction pre as [|c pre IH]; [reflexivity|].
  cbn [blank]. intros H. apply andb_prop in H as [Hc Hb].
  rewrite append_cons. cbn [lstrip_ws]. rewrite Hc. now apply IH.
Qed.

Lemma rstrip_ws_of_blank s : blank s = true -> rstrip_ws s = EmptyString.
Proof.
  induction s as [|c s IH]; [reflexivity|].
  cbn [blank]. intros H. apply andb_prop in H as [Hc Hb].
  cbn [rstrip_ws]. now rewrite (IH Hb), Hc.
Qed.

Lemma lstrip_ws_of_blank s : blank s = true -> lstrip_ws s = EmptyString.
Proof.
  induction s as [|c s IH]; [reflexivity|].
  cbn [blank]. intros H. apply andb_prop in H as [Hc Hb].
  cbn [lstrip_ws]. rewrite Hc. now apply IH.
Qed.

Lemma rstrip_ws_append_blank t post :
  blank post = true -> rstrip_ws (t +:+ post) = rstrip_ws t.
Proof.
  intros H. induction t as [|c t IH]; [now apply rstrip_ws_of_blank|].
  rewrite append_cons. cbn [rstrip_ws]. now rewrite IH.
Qed.

Lemma rstrip_ws_bare t :
  (forall r c, t = r +:+ String c EmptyString -> is_space c = false) -> rstrip_ws t = t.
Proof.
  induction t as [|x t IH]; [reflexivity|]. intros H.
  cbn [rstrip_ws]. destruct t as [|y t].
  - cbn. now rewrite (H EmptyString x eq_refl).
  - rewrite IH; [reflexivity|].
    intros r c Hr. apply (H (String x r) c). now rewrite append_cons, <- Hr.
Qed.

(** A text has one trimmed form. *)
Lemma trim_of_functional s t : trim_of s t -> t = strip s.
Proof.
  intros (pre & post & -> & Hpre & Hpost & Hhead & Hlast). unfold strip.
  rewrite lstrip_ws_append_blank by assumption.
  destruct t as [|c t].
  - rewrite append_nil, lstrip_ws_of_blank by assumption. reflexivity.
  - rewrite append_cons. cbn [lstrip_ws]. rewrite (Hhead c t eq_refl).
    rewrite <- append_cons, rstrip_ws_append_blank by assumption.
    symmetry. now apply rstrip_ws_bare.
Qed.

Lemma section_as_claimed_functional c t a b :
  section_as_claimed c t a -> section_as_claimed c t b -> a = b.
Proof.
  intros [Ha | body x Ha Hx] [Hb | body' y Hb Hy];
    pose proof (text_after_functional _ _ _ _ Ha Hb) as E; try discriminate; [reflexivity|].
  injection E as <-.
  now rewrite (trim_of_functional _ _ Hx), (trim_of_functional _ _ Hy).
Qed.

(** The value [section] computes is the section as the source cuts it. *)
Lemma section_value_text c t : section_text c t (section_value c t).
Proof.
  rewrite section_value_cut. pose proof (text_after_cut c t) as H.
  destruct (cut c t) as [body|]; [|now apply SectionAbsent].
  eapply SectionText; [exact H | apply lstrip_eq_unsigned | apply strip_trim].
Qed.

(** Where no [=] sign follows the heading line, the source cuts the section
    as the claim words it. *)
Lemma section_text_as_claimed c t r :
  section_text c t r ->
  (forall body, text_after c t (Some body) -> forall x, body <> String "="%char x) ->
  section_as_claimed c t r.
Proof.
  intros [H | body mid x H (eqs & -> & He & _) Hx] Hplain; [now apply ClaimedAbsent|].
  destruct eqs as [|e eqs].
  - rewrite append_nil in H. now apply ClaimedText with (body := mid).
  - cbn [signs] in He. apply andb_prop in He as [He _].
    apply Ascii.eqb_eq in He. subst e.
    rewrite append_cons in H. now destruct (Hplain _ H (eqs +:+ mid)).
Qed.

End Trimming.

Section SectionClaim.

Variable http : request -> result value.

(** Claim C6, as amended.  [section] is a function of the text [content]
    returns, and leaves the world exactly as the access to [content] left
    it.  It returns [None] when the heading line [== title ==] is absent;
    otherwise it takes the text after the first such line up to the next
    [==] (or to the end), removes the [=] signs that text begins with, and
    trims the white space at both ends.  Where no [=] sign follows the
    heading line, that is the trimmed text the claim speaks of.  On the
    content of the example, [History] gives [body text] and [Nonexistent]
    gives [None]. *)
Theorem section_is_function_of_content t w c w1 :
  WikiPage_content http w = (Ret (VStr c), w1) ->
  exists r,
    WikiPage_section http t w = (Ret r, w1) /\
    r = section_value c t /\
    section_text c t r /\
    ((forall body, text_after c t (Some body) -> forall x, body <> String "="%char x) ->
     section_as_claimed c t r) /\
    (c = history_content -> t = "History" -> r = VStr "body text") /\
    (c = history_content -> t = "Nonexistent" -> r = VNone).
Proof.
  intros H. exists (section_value c t).
  split; [now apply section_run|].
  split; [reflexivity|].
  split; [apply section_value_text|].
  split; [apply section_text_as_claimed, section_value_text|].
  split; intros -> ->; vm_compute; reflexivity.
Qed.

End SectionClaim.

(** * The continued query *)

Section Continued.

Variable http : request -> result value.
Variable json_call : request -> result value.
Variable find_all_li : value -> list li_tag.

Lemma page_items_run query_params prop response w :
  page_items query_params prop response w =
  (response_items query_params prop (obj w !! "page_id") response, w).
Proof.
  unfold page_items, response_items, and_then.
  unfold getkey. destruct (py_getitem response (VStr "query")) as [q|e]; [|reflexivity].
  rewrite run_lift_Ret.
  destruct (py_getitem q (VStr "pages")) as [pages|e]; [|reflexivity].
  rewrite run_lift_Ret.
  destruct (dict_has "generator" query_params); [reflexivity|].
  destruct (obj w !! "page_id") as [pid|] eqn:Hp.
  - rewrite (run_getattr _ _ _ _ Hp). unfold getitem.
    destruct (py_getitem pages pid) as [p|e]; [|reflexivity].
    rewrite run_lift_Ret.
    destruct (py_getitem p prop) as [l|e]; [|reflexivity].
    rewrite run_lift_Ret. reflexivity.
  - now rewrite (run_getattr_missing _ _ _ Hp).
Qed.

Lemma getitem_in c k v : py_getitem c (VStr k) = Ret v -> py_in k c = Ret true.
Proof.
  destruct c; cbn; try discriminate.
  unfold dict_has. now destruct (dict_get k d).
Qed.

(** What a response carries is what the generator yields for it. *)
Lemma carries_items query_params prop page_id response items :
  carries query_params prop page_id response items ->
  response_items query_params prop page_id response = Ret items.
Proof.
  unfold response_items, dict_has.
  intros [q pages Hg Hq Hp | q pages pid p its Hg Hq Hp -> Hpid Hits].
  - rewrite Hq. cbn [and_then]. rewrite Hp. cbn [and_then].
    now destruct (dict_get "generator" query_params).
  - rewrite Hq. cbn [and_then]. rewrite Hp. cbn [and_then]. rewrite Hg.
    rewrite Hpid. cbn [and_then]. now rewrite Hits.
Qed.

Lemma continued_turn_run query_params prop params w session endpoint response items next :
  obj w !! "session" = Some session ->
  obj w !! "endpoint" = Some endpoint ->
  unawaited_json json_call (query_request session endpoint params) = Ret response ->
  paged query_params prop (obj w !! "page_id") response items next ->
  continued_turn json_call query_params prop params w =
  (Ret (items, next), set_log (log w ++ [query_request session endpoint params]) w).
Proof.
  intros Hs He Hh (Hi & Hn). unfold continued_turn, query_request in *.
  assert (Hq : py_in "query" response = Ret true).
  { destruct Hi; eapply getitem_in; eassumption. }
  apply carries_items in Hi.
  mrun.
  erewrite run_Ret; cycle 1.
  { rewrite page_items_run. wsimpl. rewrite Hi. reflexivity. }
  destruct next as [c'|].
  - destruct Hn as [Hn1 Hn2]. mrun. reflexivity.
  - mrun. reflexivity.
Qed.

(** A response without [query] ends the loop with nothing yielded. *)
Lemma continued_turn_break query_params prop params w session endpoint response :
  obj w !! "session" = Some session ->
  obj w !! "endpoint" = Some endpoint ->
  unawaited_json json_call (query_request session endpoint params) = Ret response ->
  py_in "query" response = Ret false ->
  continued_turn json_call query_params prop params w =
  (Ret ([], None), set_log (log w ++ [query_request session endpoint params]) w).
Proof.
  intros Hs He Hh Hq. unfold continued_turn, query_request in *. mrun. reflexivity.
Qed.

(** On an object without items, such as a coroutine, the test for [query]
    raises [TypeError]. *)
Lemma continued_turn_on_object query_params prop params w session endpoint id :
  obj w !! "session" = Some session ->
  obj w !! "endpoint" = Some endpoint ->
  unawaited_json json_call (query_request session endpoint params) = Ret (VObj id) ->
  continued_turn json_call query_params prop params w =
  (Raise TypeError, set_log (log w ++ [query_request session endpoint params]) w).
Proof.
  intros Hs He Hh. unfold continued_turn, query_request in *. mrun. reflexivity.
Qed.

Lemma dict_set_twice {A : Type} k (v : A) d : dict_set k v (dict_set k v d) = dict_set k v d.
Proof.
  induction d as [|[k' v'] d IH]; cbn.
  - now rewrite String.eqb_refl.
  - destruct (String.eqb k k') eqn:E; cbn; rewrite E; [reflexivity | now rewrite IH].
Qed.

Lemma title_query_param_run w :
  WikiPage_title_query_param w = (title_query_param_of (obj w), w).
Proof.
  unfold WikiPage_title_query_param, title_query_param_of.
  rewrite run_getattr_default.
  destruct (default VNone (obj w !! "title"));
    match goal with
    | |- bind (getattr ?n) _ _ = _ =>
        destruct (obj w !! n) eqn:E;
        [ rewrite (run_getattr _ _ _ _ E) | rewrite (run_getattr_missing _ _ _ E) ]
    end; reflexivity.
Qed.

Lemma title_query_param_single o tq :
  title_query_param_of o = Ret tq -> exists k v, tq = [(k, v)].
Proof.
  unfold title_query_param_of. intros H.
  repeat case_match; simplify_eq; eauto.
Qed.

End Continued.

(** * Search *)

Section Search.

Variable http : request -> result value.

Lemma py_eq_str v s : py_eq v (VStr s) = true <-> v = VStr s.
Proof.
  destruct v; cbn; try (split; [discriminate | congruence]).
  rewrite String.eqb_eq. split; congruence.
Qed.

Lemma timeout_test info :
  existsb (fun sig => py_eq info (VStr sig)) timeout_signatures = true <-> is_timeout info.
Proof.
  unfold is_timeout, timeout_signatures. cbn [existsb].
  rewrite !orb_true_iff, !py_eq_str. intuition discriminate.
Qed.

(** The suggestion a response comes with is the one [search] reads. *)
Lemma suggests_run query found sg :
  py_getitem query (VStr "search") = Ret found ->
  suggests query sg ->
  exists searchinfo,
    py_get query "searchinfo" = Ret searchinfo /\
    (if truthy searchinfo
     then py_getitem query (VStr "searchinfo") = Ret searchinfo /\
          py_getitem searchinfo (VStr "suggestion") = Ret sg
     else sg = VNone).
Proof.
  intros Hf Hs. destruct query as [| | | | | |d|]; try discriminate. clear Hf.
  destruct Hs as [si sg Hsi Ht Hsg | Hin | si Hsi Ht]; cbn in *.
  - destruct (dict_get "searchinfo" d) as [v|]; [|discriminate]. injection Hsi as ->.
    exists si. rewrite Ht. repeat split; auto.
  - unfold dict_has in Hin. destruct (dict_get "searchinfo" d); [discriminate|].
    exists VNone. split; reflexivity.
  - destruct (dict_get "searchinfo" d) as [v|]; [|discriminate]. injection Hsi as ->.
    exists si. rewrite Ht. repeat split; auto.
Qed.

Lemma plain_getitem c k e : py_getitem c k = Raise e -> plain_error e.
Proof. unfold py_getitem. intros H. repeat case_match; simplify_eq; constructor. Qed.

Lemma plain_in s c e : py_in s c = Raise e -> plain_error e.
Proof. destruct c; intros H; simplify_eq/=; constructor. Qed.

Lemma plain_get c k e : py_get c k = Raise e -> plain_error e.
Proof. destruct c; intros H; simplify_eq/=; constructor. Qed.

Lemma plain_iter c e : py_iter c = Raise e -> plain_error e.
Proof. destruct c; intros H; simplify_eq/=; constructor. Qed.

Lemma raises_only_ret {A : Type} P (a : A) : raises_only P (ret a).
Proof. intros w e w' H. discriminate. Qed.

Lemma raises_only_lift {A : Type} (P : exn -> Prop) (r : result A) :
  (forall e, r = Raise e -> P e) -> raises_only P (lift r).
Proof. intros Hr w e w' H. injection H as -> _. now apply Hr. Qed.

Lemma raises_only_bind {A B : Type} P (m : M A) (k : A -> M B) :
  raises_only P m -> (forall a, raises_only P (k a)) -> raises_only P (bind m k).
Proof.
  intros Hm Hk w e w' H. unfold bind in H.
  destruct (m w) as [[a|e1] w1] eqn:E.
  - now apply (Hk a w1 e w').
  - injection H as <- <-. now apply (Hm w e1 w1).
Qed.

Lemma raises_only_map_m {A B : Type} P (f : A -> M B) l :
  (forall a, raises_only P (f a)) -> raises_only P (map_m f l).
Proof.
  intros Hf. induction l as [|a l IH]; [apply raises_only_ret|].
  cbn [map_m]. apply raises_only_bind; [auto|]. intros b.
  apply raises_only_bind; [auto|]. intros bs. apply raises_only_ret.
Qed.

Lemma titles_run items titles w :
  Forall2 (fun d t => py_getitem d (VStr "title") = Ret t) items titles ->
  map_m (fun d => getkey d "title") items w = (Ret titles, w).
Proof.
  induction 1 as [|d t items titles Hd _ IH]; [reflexivity|].
  cbn [map_m]. rewrite (run_getkey _ _ _ _ _ Hd).
  now rewrite (run_Ret _ _ _ _ _ IH).
Qed.

(** After a response without an error entry, [search] raises plain errors
    only. *)
Lemma search_found_plain raw suggestion : raises_only plain_error (search_found raw suggestion).
Proof.
  unfold search_found.
  repeat first
    [ apply raises_only_ret
    | apply raises_only_lift; solve [eauto using plain_getitem, plain_get, plain_iter]
    | apply raises_only_map_m; intros
    | apply raises_only_bind; [|intros]
    | match goal with |- raises_only _ (if ?b then _ else _) => destruct b end ].
Qed.

(** Claim C8.  On the response [raw], [search] raises [HTTPTimeoutError]
    exactly when [raw] reports an error whose message is
    [HTTP request timed out.] or [Pool queue is full]; it raises
    [WikipediaException] with the message for every other reported
    message; and when [raw] reports no error and lists results, it returns
    their titles, paired with the suggestion the response comes with (or
    [None]) when one was asked for. *)
Theorem search_outcomes self results suggestion w raw :
  http (search_request self results suggestion) = Ret raw ->
  let outcome := fst (AIOPedia_search http self results suggestion w) in
  ((exists arg, outcome = Raise (HTTPTimeoutError arg)) <->
   (exists info, reports_error raw info /\ is_timeout info)) /\
  (forall info, reports_error raw info -> is_timeout info ->
     outcome = Raise (HTTPTimeoutError (ap_title self))) /\
  (forall info, reports_error raw info -> ~ is_timeout info ->
     outcome = Raise (WikipediaException info)) /\
  (forall query titles, lists_titles raw query titles ->
     if suggestion
     then forall sg, suggests query sg -> outcome = Ret (VTuple [VList titles; sg])
     else outcome = Ret (VList titles)).
Proof.
  intros Hh outcome.
  assert (Htimeout : forall info, reports_error raw info -> is_timeout info ->
            outcome = Raise (HTTPTimeoutError (ap_title self))).
  { intros info (Hin & err & Herr & Hinfo) Ht.
    unfold outcome, AIOPedia_search. unfold search_request in Hh.
    cbv zeta. mrun. apply timeout_test in Ht. rewrite Ht. reflexivity. }
  assert (Hother : forall info, reports_error raw info -> ~ is_timeout info ->
            outcome = Raise (WikipediaException info)).
  { intros info (Hin & err & Herr & Hinfo) Ht.
    unfold outcome, AIOPedia_search. unfold search_request in Hh.
    cbv zeta. mrun.
    destruct (existsb _ timeout_signatures) eqn:E; [now apply timeout_test in E|].
    mrun. reflexivity. }
  split; [|split; [assumption | split; [assumption|]]].
  - split.
    + intros [arg Harg].
      unfold outcome, AIOPedia_search in Harg. unfold search_request in Hh.
      cbv zeta in Harg. rewrite (run_session_get _ _ _ _ _ _ _ Hh) in Harg.
      unfold contains at 1 in Harg.
      destruct (py_in "error" raw) as [[]|e] eqn:Hin.
      * rewrite run_lift_Ret in Harg. unfold getkey at 1 in Harg.
        destruct (py_getitem raw (VStr "error")) as [err|e] eqn:Herr;
          [rewrite run_lift_Ret in Harg | rewrite run_lift_Raise in Harg;
                                         apply plain_getitem in Herr; cbn in Harg;
                                         injection Harg as ->; inversion Herr].
        unfold getkey at 1 in Harg.
        destruct (py_getitem err (VStr "info")) as [info|e] eqn:Hinfo;
          [rewrite run_lift_Ret in Harg | rewrite run_lift_Raise in Harg;
                                         apply plain_getitem in Hinfo; cbn in Harg;
                                         injection Harg as ->; inversion Hinfo].
        exists info. split; [split; eauto|].
        destruct (existsb _ timeout_signatures) eqn:E; [now apply timeout_test|].
        exfalso. revert Harg. mrun. discriminate.
      * rewrite run_lift_Ret in Harg.
        match type of Harg with
        | fst (?m ?w0) = _ =>
            destruct (m w0) as [[v|e] w1] eqn:Hm; cbn [fst] in Harg; [discriminate|];
            apply search_found_plain in Hm
        end.
        injection Harg as ->. inversion Hm.
      * rewrite run_lift_Raise in Harg. apply plain_in in Hin. cbn in Harg.
        injection Harg as ->. inversion Hin.
    + intros (info & Hrep & Ht). eauto.
  - intros query titles (Hin & Hq & found & items & Hf & Hit & Htitles).
    unfold outcome, AIOPedia_search, search_found. unfold search_request in Hh.
    cbv zeta. mrun.
    destruct suggestion.
    + intros sg Hsg. destruct (suggests_run _ _ _ Hf Hsg) as (si & Hsi & Hrest).
      mrun. destruct (truthy si).
      * destruct Hrest as [Hsi' Hsg'].
        rewrite (run_Ret _ _ _ _ _ (titles_run _ _ _ Htitles)).
        mrun. reflexivity.
      * subst sg.
        rewrite (run_Ret _ _ _ _ _ (titles_run _ _ _ Htitles)). reflexivity.
    + rewrite (run_Ret _ _ _ _ _ (titles_run _ _ _ Htitles)). reflexivity.
Qed.

End Search.
(** * The claims on concrete servers *)

(** Against claim C1 as stated: on a server without the page, with a
    session whose responses give the parsed answer, the load fails with
    [PageError], and yet the constructor has returned the page, which has a
    title but neither page id nor URL. *)
Lemma failed_resolution_still_returns_page :
  let '(r, l) := resolve http_missing http_missing no_items 5 (VStr "Nope") VNone true false
                   "en" plain_session in
  r = Ret tt /\
  done l = [(LoadTask true false, Raise (PageError (VStr "Nope")))] /\
  identity_of l = (Some (VStr "Nope"), None, None).
Proof. vm_compute. repeat split. Qed.

(** The amended claim C1 on that server. *)
Lemma failed_resolution_witness :
  let run := resolve http_missing http_missing no_items 5 (VStr "Nope") VNone true false
               "en" plain_session in
  let w := World (constructed (VStr "Nope") (VStr EmptyString) "en" plain_session)
             [LoadTask true false] [] in
  fst run = Ret tt /\
  last (done (snd run)) = Some (LoadTask true false, Raise (PageError (VStr "Nope"))) /\
  pending (state (snd run)) = [] /\
  obj (state (snd run)) !! "url" = None /\
  exists k, (k < 5)%nat /\
    loop_step http_missing http_missing no_items
      (run_loop http_missing http_missing no_items k (Run w [])) = Some (snd run) /\
    obj (state (run_loop http_missing http_missing no_items k (Run w []))) =
    obj (state (snd run)).
Proof.
  intros run w.
  apply (failed_resolution_leaves_unresolved_page http_missing http_missing no_items
           5 (VStr "Nope") VNone true false "en" plain_session (fst run) (snd run)
           (LoadTask true false) (PageError (VStr "Nope"))).
  - vm_compute. reflexivity.
  - vm_compute. left. reflexivity.
  - constructor.
Defined.

(** Claim C2 at its failing input.  On the French wiki [A] redirects to
    [B].  Resolving [A] with a session of the caller's follows the
    redirect, but the request for [B] goes to the English wiki through the
    module's session, and the load that sent it raises [TypeError], its
    response not being awaited: the page has the title [B] and neither page
    id nor URL.  Resolving [B] under the same locale and session gives the
    French page.  The two results differ, where the claim says they are the
    same. *)
Theorem redirect_chase_leaves_the_locale :
  let via_redirect :=
    snd (resolve http_two_wikis http_two_wikis no_items 5 (VStr "A") VNone true false
           "fr" plain_session) in
  let direct :=
    snd (resolve http_two_wikis http_two_wikis no_items 5 (VStr "B") VNone true false
           "fr" plain_session) in
  redirects_to (VStr "A") (redirect_response "A" "2" "B" "https://fr.wikipedia.org/wiki/B")
    (VStr "B") /\
  done via_redirect =
    [(LoadTask true false, Ret VNone); (LoadTask true false, Raise TypeError)] /\
  log (state via_redirect) =
    [load_request plain_session (endpoint_of "fr") "&titles=" (VStr "A");
     load_request default_session (endpoint_of "en") "&titles=" (VStr "B")] /\
  identity_of via_redirect = (Some (VStr "B"), None, None) /\
  done direct = [(LoadTask true false, Ret VNone)] /\
  log (state direct) = [load_request plain_session (endpoint_of "fr") "&titles=" (VStr "B")] /\
  identity_of direct =
    (Some (VStr "B"), Some (VStr "2"), Some (VStr "https://fr.wikipedia.org/wiki/B")) /\
  identity_of via_redirect <> identity_of direct.
Proof.
  intros via_redirect direct. split.
  - eapply RedirectsTo with (from_title := VStr "A").
    + eapply ReportsRedirect; reflexivity.
    + reflexivity.
    + reflexivity.
    + apply NotNormalized. reflexivity.
    + reflexivity.
    + reflexivity.
    + reflexivity.
  - vm_compute. repeat split. discriminate.
Qed.

(** Against claim C3 as stated: [A] redirects to a page that does not
    exist.  The response reports the redirect and marks the page missing;
    the load tests [missing] first and raises [PageError], not
    [RedirectError]. *)
Lemma redirect_to_missing_page_raises_page_error :
  let l := snd (resolve http_broken_redirect http_broken_redirect no_items 5 (VStr "A") VNone
                  false false "en" plain_session) in
  (exists query, py_getitem (VDict [("query", VDict [
      ("redirects", VList [VDict [("from", VStr "A"); ("to", VStr "Gone")]]);
      ("pages", VDict [("-1", VDict [("title", VStr "Gone"); ("missing", VStr EmptyString)])])])])
      (VStr "query") = Ret query /\ py_in "redirects" query = Ret true) /\
  done l = [(LoadTask false false, Raise (PageError (VStr "A")))] /\
  log (state l) = [load_request plain_session (endpoint_of "en") "&titles=" (VStr "A")].
Proof. vm_compute. split; [eexists; split; reflexivity | split; reflexivity]. Qed.

(** The amended claim C3 on the server with two wikis. *)
Lemma unfollowed_redirect_witness :
  exists l,
    resolve http_two_wikis http_two_wikis no_items 1 (VStr "A") VNone false false "fr"
      plain_session = (Ret tt, l) /\
    done l = [(LoadTask false false, Raise (RedirectError (VStr "A")))] /\
    log (state l) = [load_request plain_session (endpoint_of "fr") "&titles=" (VStr "A")] /\
    pending (state l) = [] /\
    obj (state l) !! "title" = Some (VStr "A").
Proof.
  eapply (unfollowed_redirect_fails_without_follow_up http_two_wikis http_two_wikis no_items
            (VStr "A") VNone "fr" plain_session 0).
  - reflexivity.
  - vm_compute. reflexivity.
  - eapply ReportsRedirect; reflexivity.
  - reflexivity.
Defined.

(** Against claim C4 as stated: a page whose summary is empty.  Both
    accesses return the empty text, and each of them sends a request. *)
Lemma empty_value_is_fetched_twice :
  let '(r1, w1) := access (http_extract EmptyString) Summary (resolved_page "Empty" "1") in
  let '(r2, w2) := access (http_extract EmptyString) Summary w1 in
  r1 = Ret (VStr EmptyString) /\ r2 = Ret (VStr EmptyString) /\
  length (log (resolved_page "Empty" "1")) = 0%nat /\
  length (log w1) = 1%nat /\ length (log w2) = 2%nat.
Proof. vm_compute. repeat split. Qed.

(** The amended claim C4 on a page whose summary is not empty. *)
Lemma lazy_accessor_witness :
  let w := resolved_page "Full" "1" in
  let w' := snd (access (http_extract "text") Summary w) in
  obj w' !! slot Summary = Some (VStr "text") /\
  (forall c, obj w !! slot Summary = Some c -> truthy c = true -> VStr "text" = c /\ w' = w) /\
  (slot_empty Summary w ->
     exists rq resp pid,
       log w' = log w ++ [rq] /\
       http_extract "text" rq = Ret resp /\
       (rq_params rq ≫= dict_get "prop") = Some (VStr (prop_of Summary)) /\
       obj w !! "page_id" = Some pid /\
       field_of Summary pid resp = Ret (VStr "text")) /\
  (truthy (VStr "text") = true ->
     access (http_extract "text") Summary w' = (Ret (VStr "text"), w') /\
     (length (log w') <= length (log w) + 1)%nat).
Proof.
  intros w w'.
  apply (lazy_accessor_caches_truthy_values (http_extract "text") Summary w (VStr "text") w').
  vm_compute. reflexivity.
Defined.

(** Claim C5 at its failing input: a page with an empty extract.
    [content] fetches it with one request and stores the revision ids;
    [revision_id] returns the stored id without a request of its own, but
    its guard reads [_revid], so it schedules the content coroutine although
    everything is stored, and that coroutine sends a second request for the
    content of the page. *)
Theorem revision_id_refetches_empty_content :
  let '(r1, w1) := WikiPage_content (http_extract EmptyString) (resolved_page "Empty" "1") in
  let '(r2, w2) := WikiPage_revision_id w1 in
  let l := run_loop (http_extract EmptyString) (http_extract EmptyString) no_items 5 (Run w2 []) in
  r1 = Ret (VStr EmptyString) /\ length (log w1) = 1%nat /\
  r2 = Ret (VInt 5) /\ log w2 = log w1 /\ pending w2 = [ContentTask] /\
  done l = [(ContentTask, Ret (VStr EmptyString))] /\ length (log (state l)) = 2%nat.
Proof. vm_compute. repeat split. Qed.

(** Against claim C6 as stated: a heading of the third level.  The text
    after the heading line [== H ==] up to the next [==] is [= body ],
    which trimmed is [= body]; [section] returns [body], the [=] sign
    removed. *)
Lemma deeper_heading_loses_its_sign :
  let w := set_obj (<["_content" := VStr deeper_content]> (obj (resolved_page "Full" "1")))
             (resolved_page "Full" "1") in
  WikiPage_section (http_extract EmptyString) "H" w = (Ret (VStr "body"), w) /\
  text_after deeper_content "H" (Some "= body ") /\
  section_as_claimed deeper_content "H" (VStr "= body") /\
  ~ section_as_claimed deeper_content "H" (VStr "body").
Proof.
  intros w.
  assert (Hcut : text_after deeper_content "H" (Some "= body ")).
  { exact (text_after_cut deeper_content "H"). }
  assert (Hclaimed : section_as_claimed deeper_content "H" (VStr "= body")).
  { eapply ClaimedText; [exact Hcut|]. exact (strip_trim "= body "). }
  split; [vm_compute; reflexivity|]. split; [exact Hcut|]. split; [exact Hclaimed|].
  intros H. pose proof (section_as_claimed_functional _ _ _ _ H Hclaimed). discriminate.
Qed.

(** The amended claim C6 on a page with the content of the example in its
    slot. *)
Lemma section_witness :
  let w := set_obj (<["_content" := VStr history_content]> (obj (resolved_page "Full" "1")))
             (resolved_page "Full" "1") in
  exists r,
    WikiPage_section (http_extract EmptyString) "History" w = (Ret r, w) /\
    r = section_value history_content "History" /\
    section_text history_content "History" r /\
    ((forall body, text_after history_content "History" (Some body) ->
        forall x, body <> String "="%char x) ->
     section_as_claimed history_content "History" r) /\
    (history_content = history_content -> "History" = "History" -> r = VStr "body text") /\
    (history_content = history_content -> "History" = "Nonexistent" -> r = VNone).
Proof.
  intros w.
  apply (section_is_function_of_content (http_extract EmptyString) "History" w history_content w).
  vm_compute. reflexivity.
Defined.

(** Claim C7 at its failing input: a page constructed on the module's
    session, and a server that lists five links on three pages.  The
    continued query sends its first request, takes the coroutine that
    [json()] returns for its response, and the test for [query] raises
    [TypeError]: nothing is yielded and no other request is made.  On a
    resolved page of a session whose [json()] gives the parsed answer, the
    same query yields the five links with three requests. *)
Theorem continued_query_fails_on_the_module_session :
  let params := [("prop", VStr "links"); ("titles", VStr "Full")] in
  let w := fresh_page "Full" "en" default_session in
  let w9 := resolved_page_on plain_session "Full" "1" in
  let rq session c := query_request session (endpoint_of "en") (dict_update params c) in
  snd (WikiPage_init (VStr "Full") VNone true false (VStr EmptyString) "en" default_session empty_world) =
    set_pending [LoadTask true false] w /\
  WikiPage_continued_query http_links 5 [("prop", VStr "links")] w =
    ((params, [], Raised TypeError), set_log [rq default_session []] w) /\
  WikiPage_continued_query http_links 5 [("prop", VStr "links")] w9 =
    ((params, map VStr ["L1"; "L2"; "L3"; "L4"; "L5"], Finished),
     set_log [rq plain_session []; rq plain_session [("plcontinue", VStr "p2")];
              rq plain_session [("plcontinue", VStr "p3")]] w9).
Proof. vm_compute. repeat split. Qed.

(** Claim C8 on three servers: one that is overloaded, one that reports
    another error, and one that answers with two titles and a
    suggestion. *)
Lemma search_witness :
  fst (AIOPedia_search http_overloaded pedia (VInt 10) true empty_world) =
    Raise (HTTPTimeoutError (VStr "pyhton")) /\
  fst (AIOPedia_search http_refused pedia (VInt 10) true empty_world) =
    Raise (WikipediaException (VStr "Search is disabled")) /\
  fst (AIOPedia_search http_search pedia (VInt 10) true empty_world) =
    Ret (VTuple [VList [VStr "Python"; VStr "Pythons"]; VStr "python"]) /\
  fst (AIOPedia_search http_search pedia (VInt 10) false empty_world) =
    Ret (VList [VStr "Python"; VStr "Pythons"]) /\
  fst (AIOPedia_search http_nothing pedia (VInt 10) true empty_world) =
    Ret (VTuple [VList []; VNone]).
Proof.
  split; [|split; [|split; [|split]]].
  - pose proof (search_outcomes http_overloaded pedia (VInt 10) true empty_world
                  (VDict [("error", VDict [("info", VStr "Pool queue is full")])]) eq_refl)
      as (_ & H & _).
    apply (H (VStr "Pool queue is full")).
    + split; [reflexivity|]. eexists. split; reflexivity.
    + right. reflexivity.
  - pose proof (search_outcomes http_refused pedia (VInt 10) true empty_world
                  (VDict [("error", VDict [("info", VStr "Search is disabled")])]) eq_refl)
      as (_ & _ & H & _).
    apply (H (VStr "Search is disabled")).
    + split; [reflexivity|]. eexists. split; reflexivity.
    + intros [H1 | H1]; discriminate.
  - pose proof (search_outcomes http_search pedia (VInt 10) true empty_world _ eq_refl)
      as (_ & _ & _ & H).
    eapply (H _ [VStr "Python"; VStr "Pythons"]).
    + split; [reflexivity|]. split; [reflexivity|].
      eexists _, _. split; [reflexivity|]. split; [reflexivity|].
      repeat constructor.
    + eapply Suggests; reflexivity.
  - pose proof (search_outcomes http_search pedia (VInt 10) false empty_world _ eq_refl)
      as (_ & _ & _ & H).
    eapply (H _ [VStr "Python"; VStr "Pythons"]).
    split; [reflexivity|]. split; [reflexivity|].
    eexists _, _. split; [reflexivity|]. split; [reflexivity|].
    repeat constructor.
  - pose proof (search_outcomes http_nothing pedia (VInt 10) true empty_world _ eq_refl)
      as (_ & _ & _ & H).
    eapply (H _ []).
    + split; [reflexivity|]. split; [reflexivity|].
      eexists _, _. split; [reflexivity|]. split; [reflexivity|].
      constructor.
    + apply SuggestsNothing. reflexivity.
Defined.

(** Claim C9 on a page constructed for the French wiki with a session of
    the caller's. *)
Lemma redirect_witness :
  let w := fresh_page "A" "fr" plain_session in
  let w' := snd (WikiPage_load http_two_wikis no_items true false w) in
  obj w' = <["endpoint" := endpoint_of "en"]> (<["session" := default_session]>
             (<["loop" := event_loop]> (<["original_title" := VStr EmptyString]>
                (<["title" := VStr "B"]> (obj w))))) /\
  obj w' !! "endpoint" = Some (endpoint_of "en") /\
  obj w' !! "session" = Some default_session /\
  pending w' = pending w ++ [LoadTask true false] /\
  log w' = log w ++ [load_request plain_session (endpoint_of "fr") "&titles=" (VStr "A")].
Proof.
  intros w w'.
  apply (redirect_reverts_locale_and_session http_two_wikis no_items w false
           (load_request plain_session (endpoint_of "fr") "&titles=" (VStr "A"))
           (redirect_response "A" "2" "B" "https://fr.wikipedia.org/wiki/B")
           (VStr "A") (VStr "B")).
  - vm_compute. reflexivity.
  - vm_compute. reflexivity.
  - vm_compute. reflexivity.
  - eapply RedirectsTo with (from_title := VStr "A").
    + eapply ReportsRedirect; reflexivity.
    + reflexivity.
    + reflexivity.
    + apply NotNormalized. reflexivity.
    + reflexivity.
    + reflexivity.
    + reflexivity.
  - reflexivity.
Defined.

(** Claim C10 on a resolved page, after a summary fetch and an access to
    [revision_id]. *)
Lemma revision_guards_witness :
  let w' := perform_all (http_extract "text") (http_extract "text") no_items [OpSummary; OpRevisionId]
              (resolved_page "Full" "1") in
  obj w' !! "_revid" = None /\
  obj w' !! "_parentid" = None /\
  pending (snd (WikiPage_revision_id w')) = pending w' ++ [ContentTask] /\
  pending (snd (WikiPage_parent_id w')) = pending w' ++ [ContentTask] /\
  (obj w' !! "_revision_id" = None ->
     fst (WikiPage_revision_id w') = Raise (AttributeError "_revision_id")) /\
  (obj w' !! "_parent_id" = None ->
     fst (WikiPage_parent_id w') = Raise (AttributeError "_parent_id")) /\
  (forall v w'', slot_empty Content w' -> WikiPage_content (http_extract "text") w' = (Ret v, w'') ->
     is_Some (obj w'' !! "_revision_id") /\ is_Some (obj w'' !! "_parent_id") /\
     obj w'' !! "_revid" = None /\ obj w'' !! "_parentid" = None).
Proof.
  apply (revision_guards_test_unwritten_attributes (http_extract "text") (http_extract "text") no_items
           [OpSummary; OpRevisionId] (resolved_page "Full" "1")).
  - vm_compute. reflexivity.
  - vm_compute. reflexivity.
  - vm_compute. eauto.
Defined.

(** * More on resolution *)

Section MoreResolution.

Variable http : request -> result value.
Variable json_call : request -> result value.
Variable find_all_li : value -> list li_tag.

(** [__load] on a page that exists as it is asked for. *)
Lemma load_plain w redirect preload rq resp page_key title fullurl :
  first_request w = Some rq ->
  unawaited_json json_call rq = Ret resp ->
  reports_plain resp page_key title fullurl ->
  WikiPage_load json_call find_all_li redirect preload w =
  (Ret tt,
   World (<["url" := fullurl]> (<["title" := title]> (<["page_id" := page_key]> (obj w))))
         (pending w) (log w ++ [rq])).
Proof.
  intros Hrq Hh (query & page & [pages keys Hq Hps Hk Hpg] & Hm & Hr & Hpp & Ht & Hu).
  unfold WikiPage_load. rewrite (load_fetch_run _ _ _ _ _ Hrq Hh).
  mrun. rewrite run_lift with (a := page_key) by reflexivity. mrun.
  reflexivity.
Qed.

Lemma first_request_constructed title original_title locale session p l :
  truthy title = true ->
  first_request (World (constructed title original_title locale session) p l) =
  Some (load_request session (endpoint_of locale) "&titles=" title).
Proof. intros Ht. now apply first_request_fresh. Qed.

(** Extra X1.  Resolving a title when the load reads the parsed response,
    as it does on a session whose [json()] gives it without being awaited,
    and the response is about an existing page that is neither a redirect
    nor a disambiguation page: the constructor returns, the one load
    returns, and the page has the title and the URL of the response and, as
    page id, the key of the page in the response (a text); one request was
    sent and nothing is left to run.  Endpoint and session stay those of
    the constructor. *)
Theorem resolution_takes_identity_from_response
    fuel title page_id redirect locale session resp page_key page_title fullurl :
  truthy title = true ->
  unawaited_json json_call (load_request session (endpoint_of locale) "&titles=" title) = Ret resp ->
  reports_plain resp page_key page_title fullurl ->
  exists l,
    resolve http json_call find_all_li (S fuel) title page_id redirect false locale session =
      (Ret tt, l) /\
    done l = [(LoadTask redirect false, Ret VNone)] /\
    identity_of l = (Some page_title, Some page_key, Some fullurl) /\
    (exists k, page_key = VStr k) /\
    obj (state l) !! "endpoint" = Some (endpoint_of locale) /\
    obj (state l) !! "session" = Some session /\
    log (state l) = [load_request session (endpoint_of locale) "&titles=" title] /\
    pending (state l) = [].
Proof.
  intros Ht Hh Hplain.
  unfold resolve. rewrite WikiPage_init_title by assumption.
  unfold empty_world. wsimpl. cbn [app run_loop].
  erewrite loop_step_load; cycle 1.
  { reflexivity. }
  { unfold set_pending, set_obj. wsimpl.
    eapply load_plain; [apply first_request_fresh; assumption | eassumption..]. }
  rewrite run_loop_idle by reflexivity.
  eexists. split; [reflexivity|]. unfold identity_of. wsimpl.
  repeat split; try reflexivity; try (now simplify_map_eq).
  destruct Hplain as (query & page & [pages keys Hq Hps Hk Hpg] & _).
  destruct pages; try discriminate.
  destruct d as [|[k v] d]; simplify_eq/=. eauto.
Qed.

(** Extra X2.  When the response the load reads marks the page missing,
    [__load] raises [PageError] naming the title, or the page id of a page
    that has no title, after its one request and without touching the
    page. *)
Theorem missing_page_raises_page_error w redirect preload rq resp :
  first_request w = Some rq ->
  unawaited_json json_call rq = Ret resp ->
  reports_missing resp ->
  WikiPage_load json_call find_all_li redirect preload w =
  (Raise (PageError (asked_for w)), set_log (log w ++ [rq]) w).
Proof.
  intros Hrq Hh (query & page_key & page & [pages keys Hq Hps Hk Hpg] & Hm).
  unfold WikiPage_load. rewrite (load_fetch_run _ _ _ _ _ Hrq Hh).
  mrun. rewrite run_lift with (a := page_key) by reflexivity. mrun.
  unfold asked_for.
  destruct (obj w !! "title") as [t|] eqn:Ht.
  - rewrite bool_decide_eq_true_2 by eauto. mrun. reflexivity.
  - rewrite bool_decide_eq_false_2 by (intros [? ?]; discriminate).
    unfold first_request in Hrq.
    destruct (obj w !! "endpoint"); [|discriminate].
    destruct (obj w !! "session"); [|discriminate]. cbn in Hrq.
    rewrite Ht in Hrq.
    destruct (obj w !! "page_id") as [p|] eqn:Hp; [|cbn in Hrq; discriminate].
    mrun. reflexivity.
Qed.

(** The candidates [__load] computes are the candidates picked in the
    order of the list items, and there are no others. *)
Lemma may_refer_to_picked lis : picked lis (may_refer_to_of lis).
Proof.
  unfold may_refer_to_of, of_contents. induction lis as [|li lis IH]; [constructor|].
  cbn [filter list_filter].
  destruct (decide _) as [Hf|Hf]; cbn [omap list_omap].
  - destruct (str_contains "tocsection" (String.concat EmptyString (li_class li))) eqn:E;
      [now destruct Hf|].
    destruct (li_a li) as [text|] eqn:Ha; cbn [fmap option_fmap option_map].
    + apply PickedAnchor; [unfold of_contents; congruence | assumption | exact IH].
    + apply PickedBare; assumption.
  - apply PickedContents; [|exact IH]. unfold of_contents.
    destruct (str_contains "tocsection" (String.concat EmptyString (li_class li))); [reflexivity|].
    now destruct Hf.
Qed.

Lemma picked_functional lis : forall cs cs', picked lis cs -> picked lis cs' -> cs = cs'.
Proof.
  induction lis as [|li lis IH]; intros cs cs' H H'.
  - inversion H. inversion H'. reflexivity.
  - inversion H; subst; inversion H'; subst;
      try congruence; try contradiction; try (now apply IH).
    f_equal; [congruence | now apply IH].
Qed.

(** Extra X3.  On a disambiguation page, when the load reads the parsed
    responses, [__load] sends a second request for the rendered page and
    raises [DisambiguationError] with the title of the page object (the
    title of the response for a page without one) and the candidates; the
    page is left untouched.  The candidates are, in the order of the list
    items of the rendered page, the anchor texts of the items that have an
    anchor and no [tocsection] in their classes. *)
Theorem disambiguation_lists_candidates
    w redirect preload rq resp page_key page_title rq2 resp2 html candidates :
  first_request w = Some rq ->
  unawaited_json json_call rq = Ret resp ->
  reports_disambiguation resp page_key page_title ->
  second_request w = Some rq2 ->
  unawaited_json json_call rq2 = Ret resp2 ->
  rendered page_key resp2 = Ret html ->
  picked (find_all_li html) candidates ->
  WikiPage_load json_call find_all_li redirect preload w =
    (Raise (DisambiguationError (default page_title (obj w !! "title")) candidates),
     set_log (log w ++ [rq; rq2]) w).
Proof.
  intros Hrq Hh (query & page & [pages keys Hq Hps Hk Hpg] & Hm & Hr & Hpp & Ht)
         Hrq2 Hh2 Hhtml Hpicked.
  rewrite (picked_functional _ _ _ Hpicked (may_refer_to_picked (find_all_li html))).
  unfold WikiPage_load. rewrite (load_fetch_run _ _ _ _ _ Hrq Hh).
  mrun. rewrite run_lift with (a := page_key) by reflexivity. mrun.
  unfold raise_disambiguation.
  unfold second_request in Hrq2. wsimpl.
  destruct (obj w !! "endpoint") as [endpoint|] eqn:He; [|discriminate].
  destruct (obj w !! "session") as [session|] eqn:Hs; [|discriminate].
  cbn [mbind option_bind] in Hrq2.
  unfold rendered, field_of, and_then in Hhtml.
  repeat case_match; simplify_eq.
  - unfold html_request in Hh2. cbn [format] in Hh2 |- *.
    mrun. rewrite bool_decide_eq_true_2 by eauto. mrun.
    unfold set_log. wsimpl. rewrite <- app_assoc. reflexivity.
  - match goal with H : _ <$> obj w !! "title" = Some _ |- _ =>
      destruct (obj w !! "title") as [t|] eqn:Htitle; [|discriminate];
      cbn in H; injection H as <- end.
    unfold html_request in Hh2. cbn [format] in Hh2 |- *.
    mrun. rewrite bool_decide_eq_false_2 by (intros [? ?]; congruence).
    mrun. unfold set_log. wsimpl. rewrite ?Htitle, <- app_assoc. reflexivity.
Qed.

(** Extra X4.  When the first redirect entry of the response the load
    reads does not come from the title [__load] expects (the title asked,
    or its normalized form), [__load] raises [AssertionError] after its one
    request: the page is not constructed again and nothing is scheduled. *)
Theorem unexpected_redirect_source_is_refused
    w preload rq resp title rfrom expected :
  first_request w = Some rq ->
  unawaited_json json_call rq = Ret resp ->
  obj w !! "title" = Some title ->
  redirect_from title resp rfrom expected ->
  py_eq rfrom expected = false ->
  WikiPage_load json_call find_all_li true preload w =
  (Raise AssertionError, set_log (log w ++ [rq]) w).
Proof.
  intros Hrq Hh Ht [query page_key page rs redirects Hrep Hrs Hr0 Hn Hf] Hne.
  destruct Hrep as [pages keys Hq Hps Hk Hpg Hm Hred].
  unfold WikiPage_load. rewrite (load_fetch_run _ _ _ _ _ Hrq Hh).
  mrun. rewrite run_lift with (a := page_key) by reflexivity. mrun.
  rewrite (expected_source_run _ _ _ _ _ Hn) by lookup_tac.
  mrun. rewrite Hne. reflexivity.
Qed.

End MoreResolution.

Lemma resolution_witness :
  exists l,
    resolve http_two_wikis http_two_wikis no_items 1 (VStr "B") VNone true false "fr"
      plain_session = (Ret tt, l) /\
    done l = [(LoadTask true false, Ret VNone)] /\
    identity_of l = (Some (VStr "B"), Some (VStr "2"), Some (VStr "https://fr.wikipedia.org/wiki/B")) /\
    (exists k, VStr "2" = VStr k) /\
    obj (state l) !! "endpoint" = Some (endpoint_of "fr") /\
    obj (state l) !! "session" = Some plain_session /\
    log (state l) = [load_request plain_session (endpoint_of "fr") "&titles=" (VStr "B")] /\
    pending (state l) = [].
Proof.
  eapply (resolution_takes_identity_from_response http_two_wikis http_two_wikis no_items
            0 (VStr "B") VNone true "fr" plain_session).
  - reflexivity.
  - vm_compute. reflexivity.
  - eexists _, _. split; [eapply NamesPage; reflexivity|]. repeat split; reflexivity.
Defined.

Lemma missing_page_witness :
  let w := fresh_page "Nope" "en" plain_session in
  WikiPage_load http_missing no_items true false w =
  (Raise (PageError (asked_for w)),
   set_log (log w ++ [load_request plain_session (endpoint_of "en") "&titles=" (VStr "Nope")]) w).
Proof.
  intros w.
  apply (missing_page_raises_page_error http_missing no_items w true false _
           (VDict [("query", VDict [("pages", VDict [("-1",
              VDict [("title", VStr "Nope"); ("missing", VStr EmptyString)])])])])).
  - vm_compute. reflexivity.
  - reflexivity.
  - eexists _, _, _. split; [eapply NamesPage; reflexivity|]. reflexivity.
Defined.

Lemma disambiguation_witness :
  let w := fresh_page "mercury" "en" plain_session in
  WikiPage_load http_disambiguation mercury_items true false w =
    (Raise (DisambiguationError (default (VStr "Mercury") (obj w !! "title"))
              [VStr "Mercury (planet)"; VStr "Mercury (element)"]),
     set_log (log w ++ [load_request plain_session (endpoint_of "en") "&titles=" (VStr "mercury");
                        html_request plain_session (endpoint_of "en") "&titles=" (VStr "mercury")])
       w).
Proof.
  intros w.
  eapply (disambiguation_lists_candidates http_disambiguation mercury_items w true false
            _ _ (VStr "19") (VStr "Mercury") _ _ (VStr "<ul>...</ul>")).
  - vm_compute. reflexivity.
  - reflexivity.
  - eexists _, _. split; [eapply NamesPage; reflexivity|]. repeat split; reflexivity.
  - vm_compute. reflexivity.
  - reflexivity.
  - reflexivity.
  - apply PickedContents; [reflexivity|].
    eapply PickedAnchor; [discriminate | reflexivity |].
    apply PickedBare; [reflexivity|].
    eapply PickedAnchor; [discriminate | reflexivity |].
    apply PickedNone.
Defined.

Lemma unexpected_redirect_witness :
  let w := fresh_page "A" "en" plain_session in
  WikiPage_load http_odd_redirect no_items true false w =
  (Raise AssertionError,
   set_log (log w ++ [load_request plain_session (endpoint_of "en") "&titles=" (VStr "A")]) w).
Proof.
  intros w.
  eapply (unexpected_redirect_source_is_refused http_odd_redirect no_items w false _ _
            (VStr "A") (VStr "Z") (VStr "A")).
  - vm_compute. reflexivity.
  - reflexivity.
  - reflexivity.
  - eapply RedirectFrom;
      [eapply ReportsRedirect; reflexivity | reflexivity | reflexivity
      |apply NotNormalized; reflexivity | reflexivity].
  - reflexivity.
Defined.

(** * Redirect chains, preload and pages built by id *)

Lemma constructed_again t ot locale session t0 ot0 locale0 session0 :
  <["endpoint" := endpoint_of locale]> (<["session" := session]>
    (<["loop" := event_loop]> (<["original_title" := ot]>
       (<["title" := t]> (constructed t0 ot0 locale0 session0))))) =
  constructed t ot locale session.
Proof.
  unfold constructed. apply map_eq. intros k.
  destruct (decide (k = "endpoint")) as [->|]; [now simplify_map_eq|].
  destruct (decide (k = "session")) as [->|]; [now simplify_map_eq|].
  destruct (decide (k = "loop")) as [->|]; [now simplify_map_eq|].
  destruct (decide (k = "original_title")) as [->|]; [now simplify_map_eq|].
  destruct (decide (k = "title")) as [->|]; [now simplify_map_eq|].
  now rewrite !lookup_insert_ne by done.
Qed.

Section Chains.

Variable http : request -> result value.
Variable json_call : request -> result value.
Variable find_all_li : value -> list li_tag.

(** [__load] following a redirect, without preload. *)
Lemma load_redirect_returns w rq resp title rto :
  first_request w = Some rq ->
  unawaited_json json_call rq = Ret resp ->
  obj w !! "title" = Some title ->
  redirects_to title resp rto ->
  truthy rto = true ->
  WikiPage_load json_call find_all_li true false w =
  (Ret tt,
   World (<["endpoint" := endpoint_of "en"]> (<["session" := default_session]>
            (<["loop" := event_loop]> (<["original_title" := VStr EmptyString]>
               (<["title" := rto]> (obj w))))))
         (pending w ++ [LoadTask true false])
         (log w ++ [rq])).
Proof.
  intros Hrq Hh Ht Hr Hto.
  destruct Hr as [query page_id page rs redirects from_title rfrom Hrep Hrs Hr0 Hn Hf Hfe Hrto].
  destruct Hrep as [pages keys Hq Hps Hk Hpg Hm Hred].
  unfold WikiPage_load.
  rewrite (load_fetch_run _ _ _ _ _ Hrq Hh).
  mrun. rewrite run_lift with (a := page_id) by reflexivity. mrun.
  rewrite (expected_source_run _ _ _ _ _ Hn) by lookup_tac.
  mrun. rewrite WikiPage_init_title by assumption. reflexivity.
Qed.

(** Extra X5.  A redirect that is followed is never resolved.  The load
    that follows it constructs the page again on the module's session, so
    the request for the target goes to the English wiki through that
    session, and the load that sends it fails: with the error of the
    request when the request fails, and otherwise with [TypeError], the
    value of the un-awaited [json()] being a coroutine.  The resolution
    ends there: two requests were sent, nothing waits, and the page has the
    title of the target and neither page id nor URL. *)
Theorem followed_redirect_is_never_resolved fuel title page_id locale session resp rto :
  truthy title = true ->
  unawaited_json json_call (load_request session (endpoint_of locale) "&titles=" title) =
    Ret resp ->
  redirects_to title resp rto ->
  truthy rto = true ->
  exists l,
    resolve http json_call find_all_li (S (S fuel)) title page_id true false locale session =
      (Ret tt, l) /\
    done l = [(LoadTask true false, Ret VNone);
              (LoadTask true false,
               Raise (unawaited_error json_call (default_request rto)))] /\
    log (state l) =
      [load_request session (endpoint_of locale) "&titles=" title; default_request rto] /\
    pending (state l) = [] /\
    identity_of l = (Some rto, None, None).
Proof.
  intros Ht Hh Hr Hto.
  unfold resolve. rewrite WikiPage_init_title by assumption.
  unfold empty_world. wsimpl. cbn [app].
  change (<["endpoint" := endpoint_of locale]> _) with
    (constructed title (VStr EmptyString) locale session).
  cbn [run_loop].
  erewrite loop_step_load; cycle 1.
  { reflexivity. }
  { unfold set_pending, set_obj. wsimpl. eapply load_redirect_returns.
    - apply first_request_constructed, Ht.
    - exact Hh.
    - unfold constructed. lookup_tac.
    - exact Hr.
    - exact Hto. }
  wsimpl. rewrite constructed_again. cbn [app].
  assert (Hload : WikiPage_load json_call find_all_li true false
            (World (constructed rto (VStr EmptyString) "en" default_session) []
               [load_request session (endpoint_of locale) "&titles=" title]) =
          (Raise (unawaited_error json_call (default_request rto)),
           World (constructed rto (VStr EmptyString) "en" default_session) []
             [load_request session (endpoint_of locale) "&titles=" title;
              default_request rto])).
  { unfold unawaited_error. destruct (json_call (default_request rto)) as [v|e] eqn:Hj.
    - erewrite load_on_coroutine; [reflexivity | now apply first_request_constructed |].
      eapply unawaited_default; [reflexivity | exact Hj].
    - erewrite load_failed; [reflexivity | now apply first_request_constructed |].
      unfold unawaited_json. now rewrite Hj. }
  erewrite loop_step_load; cycle 1.
  { reflexivity. }
  { unfold set_pending, set_obj. wsimpl. exact Hload. }
  rewrite run_loop_idle by reflexivity.
  eexists. split; [reflexivity|]. unfold identity_of. wsimpl.
  repeat split; unfold constructed; now simplify_map_eq.
Qed.

End Chains.

Lemma followed_redirect_witness :
  exists l,
    resolve http_cycle http_cycle no_items 7 (VStr "A") VNone true false "en" plain_session =
      (Ret tt, l) /\
    done l = [(LoadTask true false, Ret VNone);
              (LoadTask true false,
               Raise TypeError)] /\
    log (state l) =
      [load_request plain_session (endpoint_of "en") "&titles=" (VStr "A");
       default_request (VStr "B")] /\
    pending (state l) = [] /\
    identity_of l = (Some (VStr "B"), None, None).
Proof.
  eapply (followed_redirect_is_never_resolved http_cycle http_cycle no_items 5
            (VStr "A") VNone "en" plain_session _ (VStr "B")).
  - reflexivity.
  - vm_compute. reflexivity.
  - eapply RedirectsTo;
      [eapply ReportsRedirect; reflexivity | reflexivity | reflexivity
      |apply NotNormalized; reflexivity | reflexivity | reflexivity | reflexivity].
  - reflexivity.
Defined.

Ltac not_preloaded := apply (bool_decide_unpack _); vm_compute; exact I.

Section Preload.

Variable http : request -> result value.
Variable json_call : request -> result value.
Variable find_all_li : value -> list li_tag.

(** The preload loop raises for the first attribute the object lacks. *)
Lemma preload_loop_run w :
  for_each touch preload_props w =
  (match first_lacking (obj w) with
   | Some p => Raise (AttributeError p)
   | None => Ret tt
   end, w).
Proof.
  unfold first_lacking, preloaded, preload_props. cbn [for_each List.find].
  unfold touch. cbn [String.eqb Ascii.eqb Bool.eqb orb andb].
  rewrite !run_ret.
  repeat match goal with
         | |- context [bool_decide (is_Some (obj w !! ?p))] =>
             destruct (obj w !! p) eqn:?;
             [rewrite bool_decide_eq_true_2 by eauto
             |rewrite bool_decide_eq_false_2 by (intros [? ?]; discriminate)];
             cbn [negb]
         end;
    mrun; try reflexivity;
    unfold bind, getattr;
    repeat match goal with H : obj w !! _ = _ |- _ => rewrite H end; reflexivity.
Qed.

Lemma first_lacking_insert n v o :
  n ∉ preloaded -> first_lacking (<[n := v]> o) = first_lacking o.
Proof.
  intros Hn. unfold first_lacking, preloaded in *.
  assert (forall p, p ∈ ["images"; "references"; "links"; "sections"] ->
                    <[n := v]> o !! p = o !! p) as Hp.
  { intros p Hin. apply lookup_insert_ne. intros ->. contradiction. }
  cbn [List.find].
  rewrite !Hp by (repeat (first [apply list_elem_of_here | apply list_elem_of_further])).
  reflexivity.
Qed.

(** Extra X6.  A constructor called with [preload] reads [images],
    [references], [links] and [sections] from the instance, which no code of
    the module ever sets: it raises [AttributeError] for the first of them
    that the object lacks, and returns only when the object has all four.
    The load has been scheduled before that, with the preload flag. *)
Theorem preload_reads_attributes_nothing_sets
    title page_id redirect original_title locale session w :
  truthy title || truthy page_id = true ->
  exists w',
    WikiPage_init title page_id redirect true original_title locale session w =
      (match first_lacking (obj w) with
       | Some p => Raise (AttributeError p)
       | None => Ret tt
       end, w') /\
    pending w' = pending w ++ [LoadTask redirect true] /\
    log w' = log w /\
    first_lacking (obj w') = first_lacking (obj w).
Proof.
  intros Hgiven. unfold WikiPage_init.
  destruct (truthy title) eqn:Ht; [|cbn [orb] in Hgiven; rewrite Hgiven];
    mrun; rewrite preload_loop_run; wsimpl;
    rewrite !first_lacking_insert by not_preloaded;
    eexists; (split; [reflexivity|]); wsimpl;
    rewrite !first_lacking_insert by not_preloaded;
    repeat split; reflexivity.
Qed.

(** Extra X7.  A load with [preload] that reads the parsed response and
    follows a redirect constructs the page again with [preload]: the title
    is replaced and the next load is scheduled, and then the load itself
    ends with the [AttributeError] of the preload loop, unless the object
    has all four attributes. *)
Theorem preloading_load_fails_after_rescheduling w rq resp title rto :
  first_request w = Some rq ->
  unawaited_json json_call rq = Ret resp ->
  obj w !! "title" = Some title ->
  redirects_to title resp rto ->
  truthy rto = true ->
  exists w',
    WikiPage_load json_call find_all_li true true w =
      (match first_lacking (obj w) with
       | Some p => Raise (AttributeError p)
       | None => Ret tt
       end, w') /\
    pending w' = pending w ++ [LoadTask true true] /\
    obj w' !! "title" = Some rto /\
    log w' = log w ++ [rq].
Proof.
  intros Hrq Hh Ht Hr Hto.
  destruct Hr as [query page_id page rs redirects from_title rfrom Hrep Hrs Hr0 Hn Hf Hfe Hrto].
  destruct Hrep as [pages keys Hq Hps Hk Hpg Hm Hred].
  unfold WikiPage_load.
  rewrite (load_fetch_run _ _ _ _ _ Hrq Hh).
  mrun. rewrite run_lift with (a := page_id) by reflexivity. mrun.
  rewrite (expected_source_run _ _ _ _ _ Hn) by lookup_tac.
  mrun. unfold WikiPage_init. rewrite Hto. mrun.
  rewrite preload_loop_run. wsimpl.
  rewrite !first_lacking_insert by not_preloaded.
  eexists. split; [reflexivity|]. wsimpl.
  repeat split; reflexivity || lookup_tac.
Qed.

(** Extra X8.  A page built from a page id has no title.  When the
    response the load reads reports a redirect for it, a load that follows
    redirects ends with [AttributeError] for [title], raised where the
    source compares the redirect source with the title; a load that does
    not follow them raises [RedirectError] with the title of the response.
    Either way one request was sent and the page is unchanged. *)
Theorem redirect_on_page_built_by_id
    w preload rq resp query page_key page rs redirects page_title :
  first_request w = Some rq ->
  unawaited_json json_call rq = Ret resp ->
  obj w !! "title" = None ->
  reports_redirect resp query page_key page ->
  py_getitem query (VStr "redirects") = Ret rs ->
  py_getitem rs (VInt 0) = Ret redirects ->
  source_read query ->
  py_getitem page (VStr "title") = Ret page_title ->
  WikiPage_load json_call find_all_li true preload w =
    (Raise (AttributeError "title"), set_log (log w ++ [rq]) w) /\
  WikiPage_load json_call find_all_li false preload w =
    (Raise (RedirectError page_title), set_log (log w ++ [rq]) w).
Proof.
  intros Hrq Hh Ht [pages keys Hq Hps Hk Hpg Hm Hred] Hrs Hr0 Hsrc Hpt.
  unfold WikiPage_load. rewrite !(load_fetch_run _ _ _ _ _ Hrq Hh). split.
  - mrun. rewrite run_lift with (a := page_key) by reflexivity. mrun.
    unfold expected_source.
    destruct Hsrc; mrun; rewrite run_getattr_missing by assumption; reflexivity.
  - mrun. rewrite run_lift with (a := page_key) by reflexivity. mrun.
    rewrite Ht. reflexivity.
Qed.

End Preload.

Lemma preload_witness :
  exists w',
    WikiPage_init (VStr "A") VNone true true (VStr EmptyString) "en" default_session empty_world =
      (match first_lacking (obj empty_world) with
       | Some p => Raise (AttributeError p)
       | None => Ret tt
       end, w') /\
    pending w' = pending empty_world ++ [LoadTask true true] /\
    log w' = log empty_world /\
    first_lacking (obj w') = first_lacking (obj empty_world).
Proof.
  apply (preload_reads_attributes_nothing_sets
           (VStr "A") VNone true (VStr EmptyString) "en" default_session empty_world).
  reflexivity.
Defined.

Lemma preloading_load_witness :
  let w := fresh_page "A" "fr" plain_session in
  exists w',
    WikiPage_load http_two_wikis no_items true true w =
      (match first_lacking (obj w) with
       | Some p => Raise (AttributeError p)
       | None => Ret tt
       end, w') /\
    pending w' = pending w ++ [LoadTask true true] /\
    obj w' !! "title" = Some (VStr "B") /\
    log w' = log w ++ [load_request plain_session (endpoint_of "fr") "&titles=" (VStr "A")].
Proof.
  intros w.
  eapply (preloading_load_fails_after_rescheduling http_two_wikis no_items w _ _
            (VStr "A") (VStr "B")).
  - vm_compute. reflexivity.
  - vm_compute. reflexivity.
  - reflexivity.
  - eapply RedirectsTo;
      [eapply ReportsRedirect; reflexivity | reflexivity | reflexivity
      |apply NotNormalized; reflexivity | reflexivity | reflexivity | reflexivity].
  - reflexivity.
Defined.

Lemma page_by_id_witness :
  let w := World (constructed_by_id (VInt 2) "fr" plain_session) [] [] in
  let rq := load_request plain_session (endpoint_of "fr") "&pageids=" (VInt 2) in
  WikiPage_load http_odd_redirect no_items true false w =
    (Raise (AttributeError "title"), set_log (log w ++ [rq]) w) /\
  WikiPage_load http_odd_redirect no_items false false w =
    (Raise (RedirectError (VStr "B")), set_log (log w ++ [rq]) w).
Proof.
  intros w rq.
  eapply (redirect_on_page_built_by_id http_odd_redirect no_items w false rq).
  - vm_compute. reflexivity.
  - reflexivity.
  - reflexivity.
  - eapply ReportsRedirect; reflexivity.
  - reflexivity.
  - reflexivity.
  - apply SourceAsGiven. reflexivity.
  - reflexivity.
Defined.

(** * The attributes the operations assign *)

Lemma outside_names (n : string) (l : list string) : n ∉ l -> forall m, m ∈ l -> m <> n.
Proof. intros Hn m Hm ->. contradiction. Qed.

Ltac listed := solve [repeat constructor].

Section Footprints.

Variable http : request -> result value.
Variable json_call : request -> result value.
Variable find_all_li : value -> list li_tag.
Variable n : string.

Lemma writes_init title page_id redirect preload original_title locale session :
  n ∉ init_names ->
  untouched n (WikiPage_init title page_id redirect preload original_title locale session).
Proof.
  intros Hn. pose proof (outside_names _ _ Hn) as Hne.
  unfold WikiPage_init, touch.
  repeat first
    [ apply untouched_quiet; solve [quiet_tac]
    | apply untouched_schedule
    | apply untouched_setattr, Hne; listed
    | apply untouched_bind; [|intros]
    | apply untouched_for_each; intros
    | match goal with |- untouched _ (if ?b then _ else _) => destruct b end ].
Qed.

Lemma writes_load redirect preload :
  n ∉ load_names -> untouched n (WikiPage_load json_call find_all_li redirect preload).
Proof.
  intros Hn. pose proof (outside_names _ _ Hn) as Hne.
  assert (Hi : n ∉ init_names).
  { intros Hin. apply Hn. unfold init_names, load_names in *.
    repeat (apply elem_of_cons in Hin as [->|Hin]; [listed|]).
    now apply elem_of_nil in Hin. }
  unfold WikiPage_load.
  repeat first
    [ apply writes_init; assumption
    | apply untouched_quiet; solve [quiet_tac]
    | apply untouched_setattr, Hne; listed
    | apply untouched_bind; [|intros]
    | match goal with |- untouched _ (if ?b then _ else _) => destruct b end ].
Qed.

Lemma writes_html : n ∉ ["_html"] -> untouched n (WikiPage_html http).
Proof.
  intros Hn. pose proof (outside_names _ _ Hn) as Hne.
  unfold WikiPage_html.
  repeat first
    [ apply untouched_quiet; solve [quiet_tac]
    | apply untouched_setattr, Hne; listed
    | apply untouched_bind; [|intros]
    | match goal with |- untouched _ (if ?b then _ else _) => destruct b end ].
Qed.

Lemma writes_content : n ∉ content_names -> untouched n (WikiPage_content http).
Proof.
  intros Hn. pose proof (outside_names _ _ Hn) as Hne.
  unfold WikiPage_content.
  repeat first
    [ apply untouched_quiet; solve [apply quiet_own_page | apply quiet_add_selector | quiet_tac]
    | apply untouched_setattr, Hne; listed
    | apply untouched_bind; [|intros]
    | match goal with |- untouched _ (if ?b then _ else _) => destruct b end ].
Qed.

Lemma writes_summary : n ∉ ["_summary"] -> untouched n (WikiPage_summary http).
Proof.
  intros Hn. pose proof (outside_names _ _ Hn) as Hne.
  unfold WikiPage_summary.
  repeat first
    [ apply untouched_quiet; solve [apply quiet_own_page | apply quiet_add_selector | quiet_tac]
    | apply untouched_setattr, Hne; listed
    | apply untouched_bind; [|intros]
    | match goal with |- untouched _ (if ?b then _ else _) => destruct b end ].
Qed.

Lemma writes_section section_title :
  n ∉ content_names -> untouched n (WikiPage_section http section_title).
Proof.
  intros Hn. unfold WikiPage_section.
  repeat first
    [ apply writes_content; assumption
    | apply untouched_quiet; solve [quiet_tac]
    | apply untouched_bind; [|intros]
    | apply untouched_try
    | match goal with
      | |- untouched _ (match ?x with _ => _ end) => destruct x
      end ].
Qed.

(** Extra X9.  Every operation of the program assigns attributes of its
    own list only: an attribute outside [writes op] has after the operation
    the value, or the absence, it had before, whatever the server answered
    and whether the operation returned or raised.  So the constructor and
    the load never touch a cache, an accessor touches no cache but its own
    and no identity of the page, and the queries and [search] assign
    nothing. *)
Theorem operation_writes_its_own_attributes op w :
  n ∉ writes op ->
  obj (perform http json_call find_all_li op w) !! n = obj w !! n.
Proof.
  intros Hn. destruct op; cbn [perform writes] in *.
  - now apply writes_init.
  - now apply writes_load.
  - now destruct (continued_query_quiet json_call fuel query_params w) as [-> _].
  - now apply writes_html.
  - now apply writes_content.
  - unfold WikiPage_revision_id. revert w. untouched_tac.
  - unfold WikiPage_parent_id. revert w. untouched_tac.
  - now apply writes_summary.
  - now apply writes_section.
  - now destruct (quiet_search http self results suggestion w) as [-> _].
  - destruct (pending w) as [|t rest]; [reflexivity|].
    apply not_elem_of_app in Hn as [Hl Hc].
    destruct t; cbn [run_task].
    + change (obj w) with (obj (set_pending rest w)).
      apply untouched_bind; [now apply writes_load | intros; apply untouched_quiet, quiet_ret].
    + change (obj w) with (obj (set_pending rest w)). now apply writes_content.
Qed.

End Footprints.

Lemma writes_witness :
  obj (perform (http_extract "text") (http_extract "text") no_items OpContent (resolved_page "Full" "1")) !! "_summary" =
  obj (resolved_page "Full" "1") !! "_summary".
Proof.
  apply (operation_writes_its_own_attributes (http_extract "text") (http_extract "text") no_items
           "_summary" OpContent).
  apply (bool_decide_unpack _). vm_compute. exact I.
Defined.

(** * Requests and partial fetches of the accessors *)

Section Silence.

Variable http : request -> result value.

Lemma silent_ret {A : Type} (a : A) : silent (ret a).
Proof. intros w. reflexivity. Qed.

Lemma silent_raise {A : Type} e : silent (raise e : M A).
Proof. intros w. reflexivity. Qed.

Lemma silent_lift {A : Type} (r : result A) : silent (lift r).
Proof. intros w. reflexivity. Qed.

Lemma silent_getattr n : silent (getattr n).
Proof. intros w. unfold getattr. destruct (obj w !! n); reflexivity. Qed.

Lemma silent_getattr_default n d : silent (getattr_default n d).
Proof. intros w. reflexivity. Qed.

Lemma silent_hasattr n : silent (hasattr n).
Proof. intros w. reflexivity. Qed.

Lemma silent_setattr n v : silent (setattr n v).
Proof. intros w. reflexivity. Qed.

Lemma silent_getkey c s : silent (getkey c s).
Proof. apply silent_lift. Qed.

Lemma silent_getitem c k : silent (getitem c k).
Proof. apply silent_lift. Qed.

Lemma silent_contains s c : silent (contains s c).
Proof. apply silent_lift. Qed.

Lemma silent_assert b : silent (py_assert b).
Proof. destruct b; [apply silent_ret | apply silent_raise]. Qed.

Lemma silent_bind {A B : Type} (m : M A) (k : A -> M B) :
  silent m -> (forall a, silent (k a)) -> silent (bind m k).
Proof.
  intros Hm Hk w. unfold bind. specialize (Hm w).
  destruct (m w) as [[a|e] w1]; cbn [snd] in *; [|exact Hm].
  now rewrite Hk.
Qed.

Lemma silent_schedule t : silent (run_coroutine_threadsafe t).
Proof.
  intros w. unfold run_coroutine_threadsafe, bind, getattr.
  destruct (obj w !! "loop"); reflexivity.
Qed.

Lemma silent_for_each {A : Type} (f : A -> M unit) l :
  (forall a, silent (f a)) -> silent (for_each f l).
Proof.
  intros Hf. induction l as [|a l IH]; [apply silent_ret|].
  cbn [for_each]. apply silent_bind; auto.
Qed.

Lemma silent_map_m {A B : Type} (f : A -> M B) l :
  (forall a, silent (f a)) -> silent (map_m f l).
Proof.
  intros Hf. induction l as [|a l IH]; [apply silent_ret|].
  cbn [map_m]. apply silent_bind; [auto|]. intros b.
  apply silent_bind; [auto|]. intros bs. apply silent_ret.
Qed.

(** What is left of a computation after its request sends no other. *)
Lemma one_request {A : Type} session url params (k : value -> M A) w :
  (forall v, silent (k v)) ->
  log (snd (bind (session_get http session url params) k w)) =
  log w ++ [Request session url params].
Proof.
  intros Hk. unfold bind, session_get.
  destruct (http _); [now rewrite Hk | reflexivity].
Qed.

End Silence.

Create HintDb silent.
#[export] Hint Resolve silent_ret silent_raise silent_lift silent_getattr silent_getattr_default
  silent_hasattr silent_setattr silent_getkey silent_getitem silent_contains silent_assert
  silent_schedule : silent.

Ltac silent_tac :=
  repeat first
    [ solve [auto with silent]
    | apply silent_bind; [|intros]
    | apply silent_for_each; intros
    | apply silent_map_m; intros
    | match goal with
      | |- silent (if ?b then _ else _) => destruct b
      | |- silent (match ?x with _ => _ end) => destruct x
      end ].

Section PartialFetches.

Variable http : request -> result value.

Lemma add_selector_run {B : Type} params (k : dict -> M B) w p :
  selector_of (obj w) params = Some p ->
  bind (add_selector params) k w = k p w.
Proof.
  unfold selector_of, add_selector. intros H.
  rewrite run_bind, run_getattr_default.
  destruct (obj w !! "title") as [t|] eqn:Ht; cbn [from_option id] in *.
  - destruct t; cbn in H;
      first [ destruct (obj w !! "page_id") as [pid|] eqn:Hp; [|discriminate];
              cbn in H; injection H as <-;
              rewrite run_bind, (run_getattr _ _ _ _ Hp), run_ret; reflexivity
            | injection H as <-;
              rewrite run_bind, (run_getattr _ _ _ _ Ht), run_ret; reflexivity ].
  - destruct (obj w !! "page_id") as [pid|] eqn:Hp; [|discriminate].
    cbn in H. injection H as <-.
    rewrite run_bind, (run_getattr _ _ _ _ Hp), run_ret. reflexivity.
Qed.

(** Extra X10.  [content] stores what it has read as it goes.  When the
    response has a truthy extract of the page but lacks a revision id,
    [content] raises the error of the missing entry after it has stored the
    extract (and the revision id, when only the parent id is missing).  The
    extract is then returned by every later access from the cache, without
    a request, so the missing ids are never fetched: [_parent_id] stays as
    it was. *)
Theorem content_keeps_a_partial_fetch w rq resp pid v ids e :
  slot_empty Content w ->
  access_request Content w = Some rq ->
  http rq = Ret resp ->
  obj w !! "page_id" = Some pid ->
  field_of Content pid resp = Ret v ->
  truthy v = true ->
  partial_ids pid resp ids e ->
  let w' := World (stored ids (<["_content" := v]> (obj w))) (pending w) (log w ++ [rq]) in
  WikiPage_content http w = (Raise e, w') /\
  WikiPage_content http w' = (Ret v, w') /\
  obj w' !! "_parent_id" = obj w !! "_parent_id".
Proof.
  unfold slot_empty, slot, access_request.
  intros Hc Hrq Hh Hpid Hf Htrue Hids.
  destruct (obj w !! "session") as [session|] eqn:Hs; [|discriminate].
  destruct (obj w !! "endpoint") as [endpoint|] eqn:He; [|discriminate].
  cbn [mbind option_bind] in Hrq.
  destruct (selector_of (obj w) content_params) as [params|] eqn:Hsel; [|discriminate].
  cbn [mbind option_bind] in Hrq. injection Hrq as <-.
  unfold query_request in Hh.
  assert (Hcached : forall w', obj w' !! "_content" = Some v ->
            WikiPage_content http w' = (Ret v, w')).
  { intros w' Hslot. now apply (access_cached http Content). }
  unfold field_of, and_then in Hf.
  destruct (py_getitem resp (VStr "query")) as [q|] eqn:Hq; [|discriminate].
  destruct (py_getitem q (VStr "pages")) as [ps|] eqn:Hps; [|discriminate].
  destruct (py_getitem ps pid) as [p|] eqn:Hp; [|discriminate].
  destruct Hids as [e Hr | revid e Hr Hpa]; cbn [stored foldr fst snd].
  - split; [|split; [apply Hcached; lookup_tac | wsimpl; now rewrite !lookup_insert_ne by done]].
    unfold revision_field, and_then in Hr. rewrite Hq, Hps, Hp in Hr.
    unfold WikiPage_content, own_page.
    rewrite run_getattr_default, Hc. cbn [negb].
    rewrite run_bind, (add_selector_run _ _ _ _ Hsel).
    mrun.
    destruct (py_getitem p (VStr "revisions")) as [revs|] eqn:Hrevs;
      [|unfold getkey at 1; rewrite Hrevs, run_lift_Raise; now injection Hr as ->].
    mrun.
    destruct (py_getitem revs (VInt 0)) as [rev|] eqn:Hrev;
      [|unfold getitem at 1; rewrite Hrev, run_lift_Raise; now injection Hr as ->].
    mrun. unfold getkey at 1. rewrite Hr, run_lift_Raise. reflexivity.
  - split; [|split; [apply Hcached; lookup_tac | wsimpl; now rewrite !lookup_insert_ne by done]].
    unfold revision_field, and_then in Hr, Hpa. rewrite Hq, Hps, Hp in Hr, Hpa.
    destruct (py_getitem p (VStr "revisions")) as [revs|] eqn:Hrevs; [|discriminate].
    destruct (py_getitem revs (VInt 0)) as [rev|] eqn:Hrev; [|discriminate].
    unfold WikiPage_content, own_page.
    rewrite run_getattr_default, Hc. cbn [negb].
    rewrite run_bind, (add_selector_run _ _ _ _ Hsel).
    mrun. unfold getkey at 1. rewrite Hpa, run_lift_Raise. reflexivity.
Qed.

(** Extra X11.  Before the load has run, a page built from a title has no
    [page_id], and no accessor can serve it: [html], [content] and [summary]
    each send their request and then, on a response that has a [query] with
    [pages], raise [AttributeError] for [page_id].  Nothing is cached. *)
Theorem unresolved_page_serves_nothing a w rq resp q ps :
  slot_empty a w ->
  obj w !! "page_id" = None ->
  access_request a w = Some rq ->
  http rq = Ret resp ->
  py_getitem resp (VStr "query") = Ret q ->
  py_getitem q (VStr "pages") = Ret ps ->
  access http a w = (Raise (AttributeError "page_id"), set_log (log w ++ [rq]) w).
Proof.
  unfold slot_empty, access_request.
  intros Hc Hpid Hrq Hh Hq Hps.
  destruct (obj w !! "session") as [session|] eqn:Hs; [|discriminate].
  destruct (obj w !! "endpoint") as [endpoint|] eqn:He; [|discriminate].
  cbn [mbind option_bind] in Hrq.
  destruct a; cbn [access slot] in *.
  - destruct (obj w !! "title") as [t|] eqn:Ht; [|discriminate].
    cbn in Hrq. injection Hrq as <-. unfold query_request, html_params in Hh.
    unfold WikiPage_html. rewrite run_getattr_default, Hc. cbn [negb].
    mrun. rewrite run_getattr_missing by assumption. reflexivity.
  - destruct (selector_of (obj w) content_params) as [params|] eqn:Hsel; [|discriminate].
    cbn in Hrq. injection Hrq as <-. unfold query_request in Hh.
    unfold WikiPage_content, own_page. rewrite run_getattr_default, Hc. cbn [negb].
    rewrite run_bind, (add_selector_run _ _ _ _ Hsel).
    mrun. rewrite run_getattr_missing by assumption. reflexivity.
  - destruct (selector_of (obj w) summary_params) as [params|] eqn:Hsel; [|discriminate].
    cbn in Hrq. injection Hrq as <-. unfold query_request in Hh.
    unfold WikiPage_summary, own_page. rewrite run_getattr_default, Hc. cbn [negb].
    rewrite run_bind, (add_selector_run _ _ _ _ Hsel).
    mrun. rewrite run_getattr_missing by assumption. reflexivity.
Qed.

(** Extra X12.  A page built from an integer id has no title until its
    load has run.  On such a page [html] raises [AttributeError] for [title]
    before it sends anything; [content] and [summary] send their request,
    selecting the page by [pageids], and then look the integer up among the
    keys of the JSON object [pages], which are texts: they raise [KeyError]
    with the id.  Nothing is cached. *)
Theorem page_built_by_id_serves_nothing a w i rq resp q pages :
  obj w !! "title" = None ->
  obj w !! "page_id" = Some (VInt i) ->
  slot_empty Html w ->
  slot_empty a w ->
  a <> Html ->
  access_request a w = Some rq ->
  http rq = Ret resp ->
  py_getitem resp (VStr "query") = Ret q ->
  py_getitem q (VStr "pages") = Ret (VDict pages) ->
  access http Html w = (Raise (AttributeError "title"), w) /\
  (rq_params rq ≫= dict_get "pageids") = Some (VInt i) /\
  (rq_params rq ≫= dict_get "titles") = None /\
  access http a w = (Raise (KeyError (VInt i)), set_log (log w ++ [rq]) w).
Proof.
  unfold slot_empty, access_request.
  intros Ht Hpid Hh0 Hc Ha Hrq Hh Hq Hps.
  split.
  { cbn [access slot] in *. unfold WikiPage_html.
    rewrite run_getattr_default, Hh0. cbn [negb].
    rewrite run_bind, run_getattr_missing by assumption. reflexivity. }
  destruct (obj w !! "session") as [session|] eqn:Hs; [|discriminate].
  destruct (obj w !! "endpoint") as [endpoint|] eqn:He; [|discriminate].
  cbn [mbind option_bind] in Hrq.
  destruct a; [contradiction| |]; cbn [access slot] in *.
  - destruct (selector_of (obj w) content_params) as [params|] eqn:Hsel; [|discriminate].
    cbn in Hrq. injection Hrq as <-. unfold query_request in Hh.
    split; [|split].
    + unfold selector_of in Hsel. rewrite Ht, Hpid in Hsel. now injection Hsel as <-.
    + unfold selector_of in Hsel. rewrite Ht, Hpid in Hsel. now injection Hsel as <-.
    + unfold WikiPage_content, own_page. rewrite run_getattr_default, Hc. cbn [negb].
      rewrite run_bind, (add_selector_run _ _ _ _ Hsel).
      mrun. reflexivity.
  - destruct (selector_of (obj w) summary_params) as [params|] eqn:Hsel; [|discriminate].
    cbn in Hrq. injection Hrq as <-. unfold query_request in Hh.
    split; [|split].
    + unfold selector_of in Hsel. rewrite Ht, Hpid in Hsel. now injection Hsel as <-.
    + unfold selector_of in Hsel. rewrite Ht, Hpid in Hsel. now injection Hsel as <-.
    + unfold WikiPage_summary, own_page. rewrite run_getattr_default, Hc. cbn [negb].
      rewrite run_bind, (add_selector_run _ _ _ _ Hsel).
      mrun. reflexivity.
Qed.

End PartialFetches.

Lemma partial_fetch_witness :
  let w := resolved_page "Full" "1" in
  let rq := query_request default_session (endpoint_of "en")
              (dict_set "titles" (VStr "Full") content_params) in
  let w' := World (stored [("_revision_id", VInt 5)] (<["_content" := VStr "text"]> (obj w)))
                  (pending w) (log w ++ [rq]) in
  WikiPage_content http_no_parent w = (Raise (KeyError (VStr "parentid")), w') /\
  WikiPage_content http_no_parent w' = (Ret (VStr "text"), w') /\
  obj w' !! "_parent_id" = obj w !! "_parent_id".
Proof.
  intros w rq.
  eapply (content_keeps_a_partial_fetch http_no_parent w rq _ (VStr "1") (VStr "text")).
  - reflexivity.
  - vm_compute. reflexivity.
  - reflexivity.
  - reflexivity.
  - reflexivity.
  - reflexivity.
  - apply NoParentId; reflexivity.
Defined.

Lemma unresolved_page_witness :
  let w := World (constructed (VStr "A") (VStr EmptyString) "en" default_session) [] [] in
  access (http_extract "text") Summary w =
  (Raise (AttributeError "page_id"),
   set_log (log w ++ [query_request default_session (endpoint_of "en")
                        (dict_set "titles" (VStr "A") summary_params)]) w).
Proof.
  intros w.
  eapply (unresolved_page_serves_nothing (http_extract "text") Summary w).
  - reflexivity.
  - reflexivity.
  - vm_compute. reflexivity.
  - reflexivity.
  - reflexivity.
  - reflexivity.
Defined.

Lemma page_built_by_id_witness :
  let w := World (constructed_by_id (VInt 1) "en" default_session) [] [] in
  let rq := query_request default_session (endpoint_of "en")
              (dict_set "pageids" (VInt 1) summary_params) in
  access (http_extract "text") Html w = (Raise (AttributeError "title"), w) /\
  (rq_params rq ≫= dict_get "pageids") = Some (VInt 1) /\
  (rq_params rq ≫= dict_get "titles") = None /\
  access (http_extract "text") Summary w =
    (Raise (KeyError (VInt 1)), set_log (log w ++ [rq]) w).
Proof.
  intros w rq.
  eapply (page_built_by_id_serves_nothing (http_extract "text") Summary w 1 rq).
  - reflexivity.
  - reflexivity.
  - reflexivity.
  - reflexivity.
  - discriminate.
  - vm_compute. reflexivity.
  - reflexivity.
  - reflexivity.
  - reflexivity.
Defined.

(** * More on sections *)

Section Inside.

Lemma occurs_inside sub pre mid post i :
  occurs_at sub mid i -> occurs_at sub (pre +:+ mid +:+ post) (String.length pre + i).
Proof.
  intros (a & b & -> & <-). exists (pre +:+ a), (b +:+ post). split.
  - now rewrite !append_assoc.
  - apply length_append.
Qed.

Lemma absent_inside sub pre mid post :
  absent sub (pre +:+ mid +:+ post) -> absent sub mid.
Proof. intros H i Hi. exact (H _ (occurs_inside _ pre _ post _ Hi)). Qed.

Lemma lstrip_eq_suffix s : exists pre, s = pre +:+ lstrip_eq s.
Proof.
  induction s as [|c s [pre IH]]; [now exists EmptyString|].
  cbn [lstrip_eq]. destruct (Ascii.eqb c "="); [|now exists EmptyString].
  exists (String c pre). now rewrite append_cons, <- IH.
Qed.

Lemma lstrip_ws_suffix s : exists pre, s = pre +:+ lstrip_ws s.
Proof.
  induction s as [|c s [pre IH]]; [now exists EmptyString|].
  cbn [lstrip_ws]. destruct (is_space c); [|now exists EmptyString].
  exists (String c pre). now rewrite append_cons, <- IH.
Qed.

Lemma rstrip_ws_prefix s : exists post, s = rstrip_ws s +:+ post.
Proof.
  induction s as [|c s [post IH]]; [now exists EmptyString|].
  cbn [rstrip_ws]. destruct (rstrip_ws s) as [|c' r'] eqn:E.
  - rewrite append_nil in IH. subst post.
    destruct (is_space c); [now exists (String c s) | now exists s].
  - exists post. now rewrite append_cons, <- IH.
Qed.

Lemma stripped_inside s : exists pre post, s = pre +:+ strip (lstrip_eq s) +:+ post.
Proof.
  unfold strip.
  destruct (lstrip_eq_suffix s) as [p1 H1].
  destruct (lstrip_ws_suffix (lstrip_eq s)) as [p2 H2].
  destruct (rstrip_ws_prefix (lstrip_ws (lstrip_eq s))) as [post H3].
  exists (p1 +:+ p2), post.
  now rewrite append_assoc, <- H3, <- H2.
Qed.

Lemma rstrip_ws_again s : rstrip_ws (rstrip_ws s) = rstrip_ws s.
Proof.
  induction s as [|c s IH]; [reflexivity|].
  cbn [rstrip_ws]. destruct (rstrip_ws s) as [|c' r'] eqn:E.
  - destruct (is_space c) eqn:Ec; [reflexivity|].
    cbn [rstrip_ws]. now rewrite Ec.
  - cbn [rstrip_ws] in *. now rewrite IH.
Qed.

Lemma strip_lstrip s : lstrip_ws (strip s) = strip s.
Proof.
  unfold strip. destruct (lstrip_ws s) as [|c r] eqn:E; [reflexivity|].
  apply lstrip_ws_head in E. cbn [rstrip_ws].
  destruct (rstrip_ws r); [rewrite E|]; cbn [lstrip_ws]; now rewrite E.
Qed.

Lemma strip_rstrip s : rstrip_ws (strip s) = strip s.
Proof. apply rstrip_ws_again. Qed.

Lemma absent_before_first sub body tail :
  sub <> EmptyString ->
  first_at sub (body +:+ sub +:+ tail) (String.length body) -> absent sub body.
Proof.
  intros Hne [_ Hmin] i (a & b & -> & <-).
  specialize (Hmin (String.length a)).
  assert (String.length (a +:+ sub +:+ b) <= String.length a)%nat as Hle.
  { apply Hmin. exists a, (b +:+ sub +:+ tail). now rewrite !append_assoc. }
  rewrite !length_append in Hle.
  destruct sub; [congruence|]. cbn [String.length] in Hle. lia.
Qed.

End Inside.

Section MoreSections.

Variable http : request -> result value.

(** Extra X13.  The first [try] of [section] encloses the access to the
    content: when that access raises [ValueError], as a response that cannot
    be decoded makes it do, [section] returns [None] as if the heading were
    not there; every other error of the access is raised to the caller.
    The world is as the access left it. *)
Theorem section_hides_a_value_error t w e w1 :
  WikiPage_content http w = (Raise e, w1) ->
  WikiPage_section http t w =
  (match e with
   | ValueError _ => Ret VNone
   | _ => Raise e
   end, w1).
Proof.
  intros H. unfold WikiPage_section.
  unfold bind at 1, try_except_ValueError. unfold bind at 1. rewrite H.
  destruct e; reflexivity.
Qed.

(** Extra X14.  The text [section] returns for a heading that is found
    holds no [==] and neither begins nor ends with white space: it stops
    before the next heading of any level, so the text of subsections is not
    part of it. *)
Theorem section_text_is_trimmed t w c w1 :
  WikiPage_content http w = (Ret (VStr c), w1) ->
  exists r,
    WikiPage_section http t w = (Ret r, w1) /\
    (r = VNone \/
     exists s, r = VStr s /\ absent "==" s /\ lstrip_ws s = s /\ rstrip_ws s = s).
Proof.
  intros H. exists (section_value c t). split; [now apply section_run|].
  rewrite section_value_cut. pose proof (text_after_cut c t) as Hcut.
  destruct (cut c t) as [body|]; [right | now left].
  exists (strip (lstrip_eq body)). split; [reflexivity|]. split.
  - destruct (stripped_inside body) as (a & b & Hb).
    apply (absent_inside _ a _ b). rewrite <- Hb.
    inversion Hcut as [| pre rest body' tail Hc Hfirst Hrest Hnext | pre rest Hc Hfirst Habs];
      subst; [|assumption].
    apply (absent_before_first _ _ tail); [discriminate | assumption].
  - split; [apply strip_lstrip | apply strip_rstrip].
Qed.

End MoreSections.

Lemma section_value_error_witness :
  WikiPage_section http_bad_json "History" (resolved_page "Full" "1") =
  (match ValueError "Expecting value" with
   | ValueError _ => Ret VNone
   | _ => Raise (ValueError "Expecting value")
   end,
   set_log [query_request default_session (endpoint_of "en")
              (dict_set "titles" (VStr "Full") content_params)]
     (resolved_page "Full" "1")).
Proof.
  apply (section_hides_a_value_error http_bad_json "History" (resolved_page "Full" "1")).
  vm_compute. reflexivity.
Defined.

Lemma section_trimmed_witness :
  exists r,
    WikiPage_section (http_extract history_content) "History" (resolved_page "Full" "1") =
      (Ret r, snd (WikiPage_content (http_extract history_content) (resolved_page "Full" "1"))) /\
    (r = VNone \/
     exists s, r = VStr s /\ absent "==" s /\ lstrip_ws s = s /\ rstrip_ws s = s).
Proof.
  apply (section_text_is_trimmed (http_extract history_content) "History"
           (resolved_page "Full" "1") history_content).
  vm_compute. reflexivity.
Defined.
(** * More on the continued query *)

Section Conversations.

Variable json_call : request -> result value.

Lemma continued_turn_failed query_params prop params w session endpoint e :
  obj w !! "session" = Some session ->
  obj w !! "endpoint" = Some endpoint ->
  unawaited_json json_call (query_request session endpoint params) = Raise e ->
  continued_turn json_call query_params prop params w =
  (Raise e, set_log (log w ++ [query_request session endpoint params]) w).
Proof.
  intros Hs He Hh. unfold continued_turn, query_request in *.
  mrun. now rewrite (run_session_get_failed _ _ _ _ _ _ _ Hh).
Qed.

Lemma continued_loop_run session endpoint params prop page_id c rqs items s :
  pages_from (unawaited_json json_call) session endpoint params prop page_id c rqs items s ->
  forall fuel w,
    (length rqs < fuel)%nat ->
    obj w !! "session" = Some session ->
    obj w !! "endpoint" = Some endpoint ->
    obj w !! "page_id" = page_id ->
    continued_loop json_call fuel params prop c w =
    ((items, s), set_log (log w ++ rqs) w).
Proof.
  induction 1 as [c e Hu | c p resp items Hu Hh Hp | c p resp Hu Hh Hq | c p e Hu Hh
                 | c p resp items c' rqs rest s Hu Hh Hp Hrest IH];
    intros fuel w Hfuel Hs He Hpid; subst page_id;
    (destruct fuel as [|fuel]; [cbn in Hfuel; lia|]); cbn [continued_loop]; rewrite Hu.
  - rewrite app_nil_r. now destruct w.
  - erewrite continued_turn_run; [| eassumption ..]. reflexivity.
  - erewrite continued_turn_break; [| eassumption ..]. reflexivity.
  - erewrite continued_turn_failed; [| eassumption ..]. reflexivity.
  - erewrite continued_turn_run; [| eassumption ..]. cbv beta iota.
    rewrite IH by (wsimpl; first [assumption | cbn in Hfuel; lia | reflexivity]).
    unfold set_log. wsimpl. now rewrite <- app_assoc.
Qed.

(** Extra X15.  The continued query follows a conversation of any length,
    on a session whose [json()] gives the parsed answer without being
    awaited.  When the plain request is answered, and then each request
    that carries the parameters updated with the continuation of the answer
    before, the query yields the items of all the answers in order and
    sends exactly these requests.  It finishes at the first answer without
    continuation, and also at an answer without [query], whose continuation
    it ignores; when a request fails, or the parameters cannot be updated
    with a continuation, the error is raised after the items of the earlier
    answers have been yielded.  The page is unchanged. *)
Theorem continued_query_follows_the_conversation
    fuel query_params w session endpoint tq rqs items s :
  obj w !! "session" = Some session ->
  obj w !! "endpoint" = Some endpoint ->
  title_query_param_of (obj w) = Ret tq ->
  let params := dict_update query_params tq in
  let prop := default VNone (dict_get "prop" params) in
  pages_from (unawaited_json json_call) session endpoint params prop (obj w !! "page_id")
    (VDict []) rqs items s ->
  (length rqs < fuel)%nat ->
  WikiPage_continued_query json_call fuel query_params w =
  ((params, items, s), set_log (log w ++ rqs) w).
Proof.
  intros Hs He Htq params prop Hpages Hfuel.
  unfold WikiPage_continued_query. rewrite title_query_param_run, Htq.
  fold params. fold prop.
  now rewrite (continued_loop_run _ _ _ _ _ _ _ _ _ Hpages).
Qed.

End Conversations.

Lemma dict_get_set {A : Type} k k' (v : A) d :
  dict_get k (dict_set k' v d) = if String.eqb k k' then Some v else dict_get k d.
Proof.
  induction d as [|[k0 v0] d IH]; cbn.
  - reflexivity.
  - destruct (String.eqb k' k0) eqn:E0; cbn.
    + apply String.eqb_eq in E0. subst k0.
      destruct (String.eqb k k'); reflexivity.
    + rewrite IH. destruct (String.eqb k k0) eqn:E1; [|reflexivity].
      apply String.eqb_eq in E1. subst k0.
      destruct (String.eqb k k') eqn:E2; [|reflexivity].
      apply String.eqb_eq in E2. subst k'. rewrite String.eqb_refl in E0. discriminate.
Qed.

(** Extra X16.  The continued query changes the dictionary of its caller:
    the entry that selects the page, [titles] or [pageids], is set to the
    title or the id of the page, whatever the caller had put there, and
    every other entry is left as it was. *)
Theorem continued_query_rewrites_the_selector json_call fuel query_params w key v :
  title_query_param_of (obj w) = Ret [(key, v)] ->
  let params := fst (fst (fst (WikiPage_continued_query json_call fuel query_params w))) in
  dict_get key params = Some v /\
  (forall k, k <> key -> dict_get k params = dict_get k query_params) /\
  (key = "titles" /\ obj w !! "title" = Some v \/
   key = "pageids" /\ obj w !! "page_id" = Some v).
Proof.
  intros Htq params.
  assert (params = dict_set key v query_params) as ->.
  { unfold params, WikiPage_continued_query. rewrite title_query_param_run, Htq.
    destruct (continued_loop _ _ _ _ _ _) as [[? ?] ?]. reflexivity. }
  split; [|split].
  - now rewrite dict_get_set, String.eqb_refl.
  - intros k Hk. rewrite dict_get_set.
    destruct (String.eqb k key) eqn:E; [|reflexivity].
    now apply String.eqb_eq in E.
  - unfold title_query_param_of in Htq.
    repeat case_match; simplify_eq; auto.
Qed.

Lemma conversation_witness :
  let w := fresh_page "Alpha" "en" plain_session in
  let params := [("generator", VStr "links"); ("titles", VStr "Alpha")] in
  let rq c := query_request plain_session (endpoint_of "en") (params ++ c) in
  WikiPage_continued_query http_generator 5 [("generator", VStr "links")] w =
  ((params,
    [VDict [("pageid", VStr "12"); ("title", VStr "Beta")];
     VDict [("pageid", VStr "11"); ("title", VStr "Alpha")];
     VDict [("pageid", VStr "13"); ("title", VStr "Gamma")]],
    Finished),
   set_log (log w ++ [rq []; rq [("gplcontinue", VStr "g2")]]) w).
Proof.
  intros w params rq.
  eapply (continued_query_follows_the_conversation http_generator 5
            [("generator", VStr "links")] w plain_session (endpoint_of "en")
            [("titles", VStr "Alpha")]
            [rq []; rq [("gplcontinue", VStr "g2")]]
            ([snd (linked_page "12" "Beta"); snd (linked_page "11" "Alpha")] ++
             [snd (linked_page "13" "Gamma")])).
  - reflexivity.
  - reflexivity.
  - reflexivity.
  - eapply NextPage with (c' := VList [VList [VStr "gplcontinue"; VStr "g2"]]).
    + reflexivity.
    + reflexivity.
    + split; [|split; reflexivity].
      eapply (CarriesPages _ _ _ _ _ [linked_page "12" "Beta"; linked_page "11" "Alpha"]);
        [discriminate | reflexivity | reflexivity].
    + eapply LastPage.
      * reflexivity.
      * reflexivity.
      * split; [|reflexivity].
        eapply (CarriesPages _ _ _ _ _ [linked_page "13" "Gamma"]);
          [discriminate | reflexivity | reflexivity].
  - cbn. lia.
Defined.

Lemma failing_conversation_on_links :
  let w := resolved_page_on plain_session "Full" "1" in
  let params := [("prop", VStr "links"); ("titles", VStr "Full")] in
  let rq c := query_request plain_session (endpoint_of "en") (params ++ c) in
  WikiPage_continued_query http_links_failing 5 [("prop", VStr "links")] w =
  ((params, [VStr "L1"; VStr "L2"; VStr "L3"], Raised TransportError),
   set_log (log w ++ [rq []; rq [("plcontinue", VStr "p2")]; rq [("plcontinue", VStr "p3")]]) w).
Proof. vm_compute. reflexivity. Qed.

Lemma selector_witness :
  let w := resolved_page "Full" "1" in
  let params :=
    fst (fst (fst (WikiPage_continued_query http_links 5
                     [("titles", VStr "Other"); ("prop", VStr "links")] w))) in
  dict_get "titles" params = Some (VStr "Full") /\
  (forall k, k <> "titles" ->
     dict_get k params = dict_get k [("titles", VStr "Other"); ("prop", VStr "links")]) /\
  ("titles" = "titles" /\ obj w !! "title" = Some (VStr "Full") \/
   "titles" = "pageids" /\ obj w !! "page_id" = Some (VStr "Full")).
Proof.
  intros w.
  apply (continued_query_rewrites_the_selector http_links 5
           [("titles", VStr "Other"); ("prop", VStr "links")] w "titles" (VStr "Full")).
  reflexivity.
Defined.

(** * [AIOPedia]: summaries and pages *)

Section Summaries.

Variable http : request -> result value.
Variable soup_text : value -> result string.
Variable other_text : value -> string.

(** Extra X17.  [get_summary] sends one request, which names the title and
    the limit in the text of the URL, and returns the text of the snippet of
    the first hit followed by three dots; the other hits are not read. *)
Theorem get_summary_returns_first_snippet self w raw q found first snippet text :
  http (summary_request self) = Ret raw ->
  py_getitem raw (VStr "query") = Ret q ->
  py_getitem q (VStr "search") = Ret found ->
  py_getitem found (VInt 0) = Ret first ->
  py_getitem first (VStr "snippet") = Ret snippet ->
  soup_text snippet = Ret text ->
  AIOPedia_get_summary http soup_text self w =
  (Ret (VStr (text +:+ "...")), set_log (log w ++ [summary_request self]) w).
Proof.
  intros Hh Hq Hf H0 Hsn Htext.
  unfold AIOPedia_get_summary. unfold summary_request in Hh.
  mrun. reflexivity.
Qed.

(** Extra X18.  [get_summary] does not look for the [error] entry that
    [search] translates: on a response that reports an error, and so has no
    [query], it raises [KeyError] for [query]; on a response without hits
    it raises [IndexError].  Either way the one request was sent. *)
Theorem get_summary_does_not_translate_errors self w raw e :
  http (summary_request self) = Ret raw ->
  no_snippet raw e ->
  AIOPedia_get_summary http soup_text self w =
  (Raise e, set_log (log w ++ [summary_request self]) w).
Proof.
  intros Hh Hno. unfold AIOPedia_get_summary.
  unfold summary_request in Hh.
  destruct Hno as [info (_ & err & Herr & _) Hq | q Hq Hf].
  - destruct raw; try discriminate. cbn in Hq.
    mrun. unfold getkey at 1, py_getitem. unfold dict_has in Hq.
    destruct (dict_get "query" d); [discriminate|]. reflexivity.
  - mrun. reflexivity.
Qed.

End Summaries.

Section OneRequest.

Variable http : request -> result value.
Variable soup_text : value -> result string.

Lemma silent_search_found raw suggestion : silent (search_found raw suggestion).
Proof. unfold search_found. silent_tac. Qed.

(** Extra X19.  [search] and [get_summary] each send exactly one request,
    whatever the server answers and whether they return or raise, and touch
    neither the page nor the event loop. *)
Theorem searches_send_one_request self results suggestion w :
  snd (AIOPedia_search http self results suggestion w) =
    set_log (log w ++ [search_request self results suggestion]) w /\
  snd (AIOPedia_get_summary http soup_text self w) =
    set_log (log w ++ [summary_request self]) w.
Proof.
  split.
  - destruct (quiet_search http self results suggestion w) as [Ho Hp].
    assert (log (snd (AIOPedia_search http self results suggestion w)) =
            log w ++ [search_request self results suggestion]) as Hl.
    { unfold AIOPedia_search, search_request. cbv zeta.
      apply one_request. intros v.
      pose proof silent_search_found. silent_tac. }
    destruct (snd _) as [o p l]. cbn in *. now subst.
  - assert (quiet (AIOPedia_get_summary http soup_text self)) as Hq.
    { unfold AIOPedia_get_summary. quiet_tac. }
    destruct (Hq w) as [Ho Hp].
    assert (log (snd (AIOPedia_get_summary http soup_text self w)) =
            log w ++ [summary_request self]) as Hl.
    { unfold AIOPedia_get_summary, summary_request.
      apply one_request. intros v. silent_tac. }
    destruct (snd _) as [o p l]. cbn in *. now subst.
Qed.

End OneRequest.

Lemma get_summary_witness :
  AIOPedia_get_summary http_snippets text_as_is pedia empty_world =
  (Ret (VStr ("<span>Python</span> is a language" +:+ "...")),
   set_log (log empty_world ++ [summary_request pedia]) empty_world).
Proof.
  eapply (get_summary_returns_first_snippet http_snippets text_as_is pedia empty_world).
  - reflexivity.
  - reflexivity.
  - reflexivity.
  - reflexivity.
  - reflexivity.
  - reflexivity.
Defined.

Lemma get_summary_error_witness :
  AIOPedia_get_summary http_overloaded text_as_is pedia empty_world =
  (Raise (KeyError (VStr "query")),
   set_log (log empty_world ++ [summary_request pedia]) empty_world).
Proof.
  eapply (get_summary_does_not_translate_errors http_overloaded text_as_is pedia empty_world).
  - reflexivity.
  - eapply ErrorReported; [|reflexivity].
    split; [reflexivity|]. eexists. split; reflexivity.
Defined.

Lemma one_request_witness :
  snd (AIOPedia_search http_overloaded pedia (VInt 10) true empty_world) =
    set_log (log empty_world ++ [search_request pedia (VInt 10) true]) empty_world /\
  snd (AIOPedia_get_summary http_overloaded text_as_is pedia empty_world) =
    set_log (log empty_world ++ [summary_request pedia]) empty_world.
Proof.
  apply (searches_send_one_request http_overloaded text_as_is pedia (VInt 10) true empty_world).
Defined.

Section Pages.

Variable http : request -> result value.
Variable other_text : value -> string.

(** [search] asked for a suggestion, on a response that lists titles. *)
Lemma search_suggesting_run self results w raw query titles sg :
  http (search_request self results true) = Ret raw ->
  lists_titles raw query titles ->
  suggestion_of query = Ret sg ->
  AIOPedia_search http self results true w =
  (Ret (VTuple [VList titles; sg]),
   set_log (log w ++ [search_request self results true]) w).
Proof.
  intros Hh (Hin & Hq & found & items & Hf & Hit & Htitles) Hsg.
  unfold AIOPedia_search, search_found. unfold search_request in Hh.
  cbv zeta. mrun.
  unfold suggestion_of, and_then in Hsg.
  destruct (py_get query "searchinfo") as [si|] eqn:Hsi; [|discriminate].
  mrun. rewrite run_lift_Ret. destruct (truthy si).
  - rewrite (run_Ret _ _ _ _ _ (titles_run _ _ _ Htitles)).
    assert (Hsi' : py_getitem query (VStr "searchinfo") = Ret si).
    { destruct query; try discriminate. cbn in Hsi |- *. injection Hsi as <-.
      cbn in Hsg. destruct (dict_get "searchinfo" d); [reflexivity | discriminate]. }
    mrun. reflexivity.
  - injection Hsg as <-.
    rewrite (run_Ret _ _ _ _ _ (titles_run _ _ _ Htitles)). reflexivity.
Qed.

Lemma first_of_list x l : py_getitem (VList (x :: l)) (VInt 0) = Ret x.
Proof. reflexivity. Qed.

(** The constructor on a new object, by title and without preload. *)
Lemma new_page_run title redirect locale session w :
  truthy title = true ->
  bind new_object
    (fun _ => WikiPage_init title VNone redirect false (VStr EmptyString) locale session) w =
  (Ret tt,
   World (constructed title (VStr EmptyString) locale session)
         (pending w ++ [LoadTask redirect false]) (log w)).
Proof.
  intros Ht. unfold bind at 1, new_object.
  rewrite WikiPage_init_title by assumption. reflexivity.
Qed.

(** Extra X20.  [page] with [auto_suggest] searches for the title, asking
    for ten results and a suggestion, and settles on the suggestion when
    there is a truthy one and on the first result otherwise.  It stores that
    title in the [AIOPedia] object and constructs the page from it, with the
    locale and the session of the object and an empty original title; the
    load is scheduled with the redirect flag asked for.  The search request
    is the only one sent. *)
Theorem page_settles_on_the_suggestion
    self page_id redirect w raw query titles sg t :
  truthy (ap_title self) = true ->
  http (search_request self (VInt 10) true) = Ret raw ->
  lists_titles raw query titles ->
  suggestion_of query = Ret sg ->
  chosen_title titles sg = Some t ->
  truthy t = true ->
  AIOPedia_page http other_text self page_id true redirect false w =
  ((Ret tt, set_title t self),
   World (constructed t (VStr EmptyString) (ap_locale self) (ap_session self))
         (pending w ++ [LoadTask redirect false])
         (log w ++ [search_request self (VInt 10) true])).
Proof.
  intros Htitle Hh Hlist Hsg Hchosen Ht.
  unfold AIOPedia_page. rewrite Htitle.
  unfold suggested_title.
  rewrite (run_Ret _ _ _ _ _ (search_suggesting_run _ _ _ _ _ _ _ Hh Hlist Hsg)).
  cbn [unpack2 py_iter]. rewrite run_lift_Ret.
  unfold try_except_IndexError, chosen_title in *.
  destruct (truthy sg).
  - injection Hchosen as ->. unfold ret at 1.
    cbn [ap_title ap_locale ap_session set_title].
    rewrite new_page_run by assumption. reflexivity.
  - destruct titles as [|t0 titles]; [discriminate|]. injection Hchosen as ->.
    unfold getitem, lift. rewrite first_of_list.
    cbn [ap_title ap_locale ap_session set_title].
    rewrite new_page_run by assumption. reflexivity.
Qed.

(** Extra X21.  When the search finds no title and suggests nothing,
    [page] raises [PageError] with the title followed by
    [ does not exist.]; the [AIOPedia] object keeps its title, no page is
    constructed and nothing is scheduled. *)
Theorem page_without_candidate_raises_page_error
    self page_id redirect preload w raw query sg :
  truthy (ap_title self) = true ->
  http (search_request self (VInt 10) true) = Ret raw ->
  lists_titles raw query [] ->
  suggestion_of query = Ret sg ->
  truthy sg = false ->
  AIOPedia_page http other_text self page_id true redirect preload w =
  ((Raise (PageError (VStr (str_of other_text (ap_title self) +:+ " does not exist."))), self),
   set_log (log w ++ [search_request self (VInt 10) true]) w).
Proof.
  intros Htitle Hh Hlist Hsg Hfalse.
  unfold AIOPedia_page. rewrite Htitle.
  unfold suggested_title.
  rewrite (run_Ret _ _ _ _ _ (search_suggesting_run _ _ _ _ _ _ _ Hh Hlist Hsg)).
  cbn [unpack2 py_iter]. rewrite run_lift_Ret.
  unfold try_except_IndexError. rewrite Hfalse.
  reflexivity.
Qed.

(** The constructor on a new object, with preload. *)
Lemma new_page_preload title page_id redirect original_title locale session w :
  exists e w',
    bind new_object
      (fun _ => WikiPage_init title page_id redirect true original_title locale session) w =
    (Raise e, w') /\
    (truthy title || truthy page_id = true -> e = AttributeError "images").
Proof.
  unfold bind at 1, new_object. unfold WikiPage_init.
  destruct (truthy title) eqn:Ht; [|destruct (truthy page_id) eqn:Hp].
  - mrun. rewrite preload_loop_run. wsimpl.
    rewrite !first_lacking_insert by not_preloaded.
    eexists _, _. split; [reflexivity|]. reflexivity.
  - mrun. rewrite preload_loop_run. wsimpl.
    rewrite !first_lacking_insert by not_preloaded.
    eexists _, _. split; [reflexivity|]. reflexivity.
  - eexists _, _. split; [reflexivity|]. discriminate.
Qed.

(** Extra X22.  [page] called with [preload] never returns a page.  When
    it reaches the constructor, the constructor works on a new object,
    which has none of the attributes the preload loop reads, and raises;
    otherwise [page] has raised before.  Without [auto_suggest] and with a
    title or a page id, the error is the [AttributeError] for [images]. *)
Theorem page_with_preload_always_fails self page_id auto_suggest redirect w :
  exists e,
    fst (fst (AIOPedia_page http other_text self page_id auto_suggest redirect true w)) =
      Raise e /\
    (auto_suggest = false -> truthy (ap_title self) || truthy page_id = true ->
     e = AttributeError "images").
Proof.
  unfold AIOPedia_page.
  destruct (truthy (ap_title self)) eqn:Ht; [destruct auto_suggest|].
  - destruct (suggested_title http other_text self w) as [[t|e] w1].
    + destruct (new_page_preload (ap_title (set_title t self)) VNone redirect (VStr EmptyString)
                  (ap_locale (set_title t self)) (ap_session (set_title t self)) w1)
        as (e & w' & -> & _).
      exists e. split; [reflexivity | discriminate].
    + exists e. split; [reflexivity | discriminate].
  - destruct (new_page_preload (ap_title self) VNone redirect (VStr EmptyString)
                (ap_locale self) (ap_session self) w) as (e & w' & -> & He).
    exists e. split; [reflexivity|]. intros _ _. apply He. now rewrite Ht.
  - destruct (truthy page_id) eqn:Hp.
    + destruct (new_page_preload VNone page_id redirect (VStr EmptyString)
                  (ap_locale self) (ap_session self) w) as (e & w' & -> & He).
      exists e. split; [reflexivity|]. intros _ _. apply He. now rewrite Hp.
    + eexists. split; [reflexivity|]. discriminate.
Qed.

(** Extra X23.  An [AIOPedia] object with an empty title builds the page
    from the page id, without any request; without a truthy id either it
    raises [ValueError] and leaves everything as it was. *)
Theorem page_without_title_goes_by_id self page_id auto_suggest redirect w :
  truthy (ap_title self) = false ->
  AIOPedia_page http other_text self page_id auto_suggest redirect false w =
  if truthy page_id then
    ((Ret tt, self),
     World (constructed_by_id page_id (ap_locale self) (ap_session self))
           (pending w ++ [LoadTask redirect false]) (log w))
  else
    ((Raise (ValueError "Either a Title or a Page ID must be specified."), self), w).
Proof.
  intros Htitle. unfold AIOPedia_page. rewrite Htitle.
  destruct (truthy page_id) eqn:Hp; [|reflexivity].
  unfold bind at 1, new_object. unfold WikiPage_init. rewrite Hp. cbn [truthy].
  mrun. reflexivity.
Qed.

(** Extra X24.  Without [auto_suggest], [page] sends no request and gives
    the constructor the title of the [AIOPedia] object as it is, with
    [%20] for every space, and the locale and the session of the object: the
    load that is scheduled will ask the wiki of that locale for that
    title, the URL being one text. *)
Theorem page_forwards_title_locale_and_session
    title locale results session page_id redirect w :
  title <> EmptyString ->
  let self := AIOPedia_init title locale results session in
  let w' := World (constructed (VStr (replace_spaces title)) (VStr EmptyString) locale session)
                  (pending w ++ [LoadTask redirect false]) (log w) in
  AIOPedia_page http other_text self page_id false redirect false w = ((Ret tt, self), w') /\
  first_request w' =
    Some (Request session
            [Lit ("https://" +:+ locale +:+ ".wikipedia.org/w/api.php?action=query&format=json"
                  +:+ load_query +:+ "&titles=" +:+ replace_spaces title)] None).
Proof.
  intros Hne self w'.
  assert (Ht : truthy (VStr (replace_spaces title)) = true).
  { destruct title as [|c title]; [congruence|]. cbn [truthy replace_spaces].
    destruct (Ascii.eqb c " "); reflexivity. }
  split.
  - unfold AIOPedia_page, self, AIOPedia_init. cbn [ap_title ap_locale ap_session].
    rewrite Ht. rewrite new_page_run by assumption. reflexivity.
  - unfold w'. rewrite first_request_constructed by assumption.
    unfold load_request, endpoint_of. cbn [format].
    now rewrite !append_assoc.
Qed.

End Pages.

Lemma page_suggestion_witness :
  AIOPedia_page http_search question_mark pedia VNone true true false empty_world =
  ((Ret tt, set_title (VStr "python") pedia),
   World (constructed (VStr "python") (VStr EmptyString) (ap_locale pedia) (ap_session pedia))
         (pending empty_world ++ [LoadTask true false])
         (log empty_world ++ [search_request pedia (VInt 10) true])).
Proof.
  eapply (page_settles_on_the_suggestion http_search question_mark pedia VNone true empty_world
            _ _ [VStr "Python"; VStr "Pythons"] (VStr "python") (VStr "python")).
  - reflexivity.
  - reflexivity.
  - split; [reflexivity|]. split; [reflexivity|].
    eexists _, _. split; [reflexivity|]. split; [reflexivity|].
    repeat constructor.
  - reflexivity.
  - reflexivity.
  - reflexivity.
Defined.

Lemma page_error_witness :
  AIOPedia_page http_nothing question_mark pedia VNone true true false empty_world =
  ((Raise (PageError (VStr (str_of question_mark (ap_title pedia) +:+ " does not exist."))),
    pedia),
   set_log (log empty_world ++ [search_request pedia (VInt 10) true]) empty_world).
Proof.
  eapply (page_without_candidate_raises_page_error http_nothing question_mark pedia VNone
            true false empty_world _ _ VNone).
  - reflexivity.
  - reflexivity.
  - split; [reflexivity|]. split; [reflexivity|].
    eexists _, _. split; [reflexivity|]. split; [reflexivity|]. constructor.
  - reflexivity.
  - reflexivity.
Defined.

Lemma page_by_id_only_witness :
  AIOPedia_page http_search question_mark (AIOPedia_init EmptyString "fr" 1 (VObj 2)) (VInt 7)
    true true false empty_world =
  if truthy (VInt 7) then
    ((Ret tt, AIOPedia_init EmptyString "fr" 1 (VObj 2)),
     World (constructed_by_id (VInt 7) (ap_locale (AIOPedia_init EmptyString "fr" 1 (VObj 2)))
              (ap_session (AIOPedia_init EmptyString "fr" 1 (VObj 2))))
           (pending empty_world ++ [LoadTask true false]) (log empty_world))
  else
    ((Raise (ValueError "Either a Title or a Page ID must be specified."),
      AIOPedia_init EmptyString "fr" 1 (VObj 2)), empty_world).
Proof.
  apply (page_without_title_goes_by_id http_search question_mark
           (AIOPedia_init EmptyString "fr" 1 (VObj 2)) (VInt 7) true true empty_world).
  reflexivity.
Defined.

Lemma page_forwards_witness :
  let self := AIOPedia_init "New York" "fr" 1 (VObj 2) in
  let w' := World (constructed (VStr (replace_spaces "New York")) (VStr EmptyString) "fr" (VObj 2))
                  (pending empty_world ++ [LoadTask true false]) (log empty_world) in
  AIOPedia_page http_search question_mark self VNone false true false empty_world =
    ((Ret tt, self), w') /\
  first_request w' =
    Some (Request (VObj 2)
            [Lit ("https://" +:+ "fr" +:+ ".wikipedia.org/w/api.php?action=query&format=json"
                  +:+ load_query +:+ "&titles=" +:+ replace_spaces "New York")] None).
Proof.
  apply (page_forwards_title_locale_and_session http_search question_mark
           "New York" "fr" 1 (VObj 2) VNone true empty_world).
  discriminate.
Defined.

Lemma page_preload_witness :
  exists e,
    fst (fst (AIOPedia_page http_search question_mark pedia VNone false true true empty_world)) =
      Raise e /\
    (false = false -> truthy (ap_title pedia) || truthy VNone = true ->
     e = AttributeError "images").
Proof.
  apply (page_with_preload_always_fails http_search question_mark pedia VNone false true
           empty_world).
Defined.

(** * Equality of pages, escaping of titles, and the revision id *)

(** Extra X25.  [==] on pages reads [page_id] and [title] and nothing
    else: assigning any other attribute on either side does not change the
    answer.  A page whose load has not run lacks one of the two, so it is
    equal to no page, not even to itself. *)
Theorem page_equality_reads_id_and_title self other n v :
  n <> "page_id" ->
  n <> "title" ->
  WikiPage_eq (<[n := v]> self) other = WikiPage_eq self other /\
  WikiPage_eq self (<[n := v]> other) = WikiPage_eq self other /\
  (forall title original_title locale session,
     WikiPage_eq (constructed title original_title locale session) other = false /\
     WikiPage_eq other (constructed title original_title locale session) = false) /\
  (forall page_id locale session,
     WikiPage_eq (constructed_by_id page_id locale session) other = false /\
     WikiPage_eq other (constructed_by_id page_id locale session) = false).
Proof.
  intros Hp Ht. unfold WikiPage_eq.
  split; [|split; [|split]].
  - now rewrite !lookup_insert_ne by done.
  - now rewrite !lookup_insert_ne by done.
  - intros title original_title locale session.
    assert (constructed title original_title locale session !! "page_id" = None) as ->
      by (unfold constructed; now simplify_map_eq).
    split; [reflexivity|]. now destruct (other !! "page_id").
  - intros page_id locale session.
    assert (constructed_by_id page_id locale session !! "title" = None) as ->
      by (unfold constructed_by_id; now simplify_map_eq).
    assert (constructed_by_id page_id locale session !! "page_id" = Some page_id) as ->
      by (unfold constructed_by_id; now simplify_map_eq).
    split.
    + destruct (other !! "page_id"); [|reflexivity]. now destruct (py_eq _ _).
    + destruct (other !! "page_id"); [|reflexivity].
      destruct (py_eq _ _); [|reflexivity]. now destruct (other !! "title").
Qed.

Lemma page_equality_witness :
  WikiPage_eq (<["_content" := VStr "text"]> (obj (resolved_page "Full" "1")))
    (obj (resolved_page "Full" "1")) =
    WikiPage_eq (obj (resolved_page "Full" "1")) (obj (resolved_page "Full" "1")) /\
  WikiPage_eq (obj (resolved_page "Full" "1"))
    (<["_content" := VStr "text"]> (obj (resolved_page "Full" "1"))) =
    WikiPage_eq (obj (resolved_page "Full" "1")) (obj (resolved_page "Full" "1")) /\
  (forall title original_title locale session,
     WikiPage_eq (constructed title original_title locale session)
       (obj (resolved_page "Full" "1")) = false /\
     WikiPage_eq (obj (resolved_page "Full" "1"))
       (constructed title original_title locale session) = false) /\
  (forall page_id locale session,
     WikiPage_eq (constructed_by_id page_id locale session)
       (obj (resolved_page "Full" "1")) = false /\
     WikiPage_eq (obj (resolved_page "Full" "1"))
       (constructed_by_id page_id locale session) = false).
Proof.
  apply (page_equality_reads_id_and_title (obj (resolved_page "Full" "1"))
           (obj (resolved_page "Full" "1")) "_content" (VStr "text")).
  - discriminate.
  - discriminate.
Defined.

Section Escaping.

Lemma replace_spaces_append a b :
  replace_spaces (a +:+ b) = replace_spaces a +:+ replace_spaces b.
Proof.
  induction a as [|c a IH]; [reflexivity|].
  rewrite append_cons. cbn [replace_spaces].
  destruct (Ascii.eqb c " "); rewrite IH.
  - now rewrite append_assoc.
  - now rewrite append_cons.
Qed.

Lemma replace_spaces_get s i : String.get i (replace_spaces s) <> Some " "%char.
Proof.
  revert i. induction s as [|c s IH]; intros i.
  - destruct i; discriminate.
  - cbn [replace_spaces]. destruct (Ascii.eqb c " ") eqn:E.
    + destruct i as [|[|[|i]]]; try discriminate. apply IH.
    + destruct i as [|i]; [|apply IH].
      cbn. intros [= ->]. discriminate.
Qed.

(** Extra X26.  The title an [AIOPedia] object keeps holds no space: every
    space of the title given is replaced by [%20], and nothing else is
    escaped.  So a title with a space and the title that has [%20] in its
    place give the same object, and escaping again changes nothing. *)
Theorem kept_title_has_no_space title locale results session :
  exists t,
    ap_title (AIOPedia_init title locale results session) = VStr t /\
    (forall i, String.get i t <> Some " "%char) /\
    replace_spaces t = t /\
    (forall a b, title = a +:+ " " +:+ b ->
       AIOPedia_init (a +:+ "%20" +:+ b) locale results session =
       AIOPedia_init title locale results session).
Proof.
  exists (replace_spaces title). split; [reflexivity|].
  split; [apply replace_spaces_get|]. split.
  - induction title as [|c title IH]; [reflexivity|].
    cbn [replace_spaces]. destruct (Ascii.eqb c " ") eqn:E.
    + rewrite replace_spaces_append, IH. reflexivity.
    + cbn [replace_spaces]. now rewrite E, IH.
  - intros a b ->. unfold AIOPedia_init.
    now rewrite !replace_spaces_append.
Qed.

End Escaping.

Section RevisionAfterLoop.

Variable http : request -> result value.
Variable json_call : request -> result value.
Variable find_all_li : value -> list li_tag.

(** Extra X27.  The revision id of a page is served on the second access.
    On a resolved page whose content has not been fetched, [revision_id]
    schedules the content coroutine and raises [AttributeError] for
    [_revision_id]; once the event loop has run that coroutine, with its one
    request, [revision_id] returns the id of the response, and schedules the
    coroutine once more. *)
Theorem revision_id_is_served_after_the_loop w title pid session endpoint loop v fuel :
  slot_empty Content w ->
  obj w !! "_revision_id" = None ->
  obj w !! "_revid" = None ->
  pending w = [] ->
  obj w !! "title" = Some (VStr title) ->
  obj w !! "page_id" = Some pid ->
  obj w !! "session" = Some session ->
  obj w !! "endpoint" = Some endpoint ->
  obj w !! "loop" = Some loop ->
  serves http Content pid v ->
  exists w1 l rq resp revid,
    WikiPage_revision_id w = (Raise (AttributeError "_revision_id"), w1) /\
    pending w1 = [ContentTask] /\
    run_loop http json_call find_all_li (S fuel) (Run w1 []) = l /\
    done l = [(ContentTask, Ret v)] /\
    pending (state l) = [] /\
    log (state l) = log w ++ [rq] /\
    http rq = Ret resp /\
    revision_field "revid" pid resp = Ret revid /\
    WikiPage_revision_id (state l) = (Ret revid, set_pending [ContentTask] (state l)).
Proof.
  intros Hc Hrev Hg Hpend Ht Hp Hs He Hl Hserve.
  set (w1 := set_pending (pending w ++ [ContentTask]) w).
  set (w0 := set_pending [] w1).
  assert (Hc0 : slot_empty Content w0) by exact Hc.
  destruct (access_returns http Content w0 title pid session endpoint v)
    as [w2 Hrun]; try assumption.
  cbn [access] in Hrun.
  destruct (content_fetch http _ _ _ Hc0 Hrun)
    as (rq & resp & pid' & revid & parentid & Hlog & Hpe & Hh & _ & Hpid' & _ & Hr & _ & Ho).
  change (obj w0) with (obj w) in *. change (log w0) with (log w) in *.
  change (pending w0) with (@nil task) in *.
  rewrite Hp in Hpid'. injection Hpid' as <-.
  exists w1, (Run w2 [(ContentTask, Ret v)]), rq, resp, revid.
  split; [|split; [|split; [|split; [|split; [|split; [|split; [|split]]]]]]].
  - rewrite (revision_id_run _ Hg), Hl. now apply getattr_None.
  - unfold w1. wsimpl. now rewrite Hpend.
  - cbn [run_loop]. unfold loop_step.
    replace (pending (state (Run w1 []))) with [ContentTask]
      by (unfold w1; wsimpl; now rewrite Hpend).
    cbn [run_task state done app]. fold w0. rewrite Hrun.
    apply run_loop_idle. exact Hpe.
  - reflexivity.
  - exact Hpe.
  - exact Hlog.
  - exact Hh.
  - exact Hr.
  - wsimpl.
    rewrite revision_id_run by (rewrite Ho; now simplify_map_eq).
    replace (obj w2 !! "loop") with (Some loop) by (rewrite Ho; now simplify_map_eq).
    rewrite Hpe. cbn [app].
    apply getattr_Some. wsimpl. rewrite Ho. now simplify_map_eq.
Qed.

End RevisionAfterLoop.

Lemma revision_after_loop_witness :
  exists w1 l rq resp revid,
    WikiPage_revision_id (resolved_page "Full" "1") =
      (Raise (AttributeError "_revision_id"), w1) /\
    pending w1 = [ContentTask] /\
    run_loop (http_extract "text") (http_extract "text") no_items 1 (Run w1 []) = l /\
    done l = [(ContentTask, Ret (VStr "text"))] /\
    pending (state l) = [] /\
    log (state l) = log (resolved_page "Full" "1") ++ [rq] /\
    http_extract "text" rq = Ret resp /\
    revision_field "revid" (VStr "1") resp = Ret revid /\
    WikiPage_revision_id (state l) = (Ret revid, set_pending [ContentTask] (state l)).
Proof.
  eapply (revision_id_is_served_after_the_loop (http_extract "text") (http_extract "text") no_items
            (resolved_page "Full" "1") "Full" (VStr "1") default_session (endpoint_of "en")
            event_loop (VStr "text") 0).
  - reflexivity.
  - reflexivity.
  - reflexivity.
  - reflexivity.
  - reflexivity.
  - reflexivity.
  - reflexivity.
  - reflexivity.
  - reflexivity.
  - intros rq _. eexists _, _, _. repeat split; reflexivity.
Defined.

Lemma kept_title_witness :
  exists t,
    ap_title (AIOPedia_init "New York" "en" 1 (VObj 2)) = VStr t /\
    (forall i, String.get i t <> Some " "%char) /\
    replace_spaces t = t /\
    (forall a b, "New York" = a +:+ " " +:+ b ->
       AIOPedia_init (a +:+ "%20" +:+ b) "en" 1 (VObj 2) =
       AIOPedia_init "New York" "en" 1 (VObj 2)).
Proof.
  apply (kept_title_has_no_space "New York" "en" 1 (VObj 2)).
Defined.

(** * The module's session *)

Section ModuleSession.

Variable http : request -> result value.
Variable json_call : request -> result value.
Variable find_all_li : value -> list li_tag.

Lemma first_request_session w rq session :
  first_request w = Some rq -> obj w !! "session" = Some session -> rq_session rq = session.
Proof.
  unfold first_request. intros Hrq Hs. rewrite Hs in Hrq.
  destruct (obj w !! "endpoint") as [endpoint|]; [|discriminate].
  cbn [mbind option_bind] in Hrq.
  destruct (truthy _);
    [destruct (obj w !! "page_id") | destruct (obj w !! "title")];
    simplify_eq/=; reflexivity.
Qed.

Lemma load_on_module_session w redirect preload rq :
  first_request w = Some rq ->
  obj w !! "session" = Some default_session ->
  WikiPage_load json_call find_all_li redirect preload w =
  (Raise (unawaited_error json_call rq), set_log (log w ++ [rq]) w).
Proof.
  intros Hrq Hs. pose proof (first_request_session _ _ _ Hrq Hs) as Hsession.
  unfold unawaited_error. destruct (json_call rq) as [v|e] eqn:Hj.
  - eapply load_on_coroutine; [exact Hrq|].
    eapply unawaited_default; eassumption.
  - apply load_failed; [exact Hrq|]. unfold unawaited_json. now rewrite Hj.
Qed.

(** Extra X28.  On the module's session no page is resolved.  The
    constructor returns the page, and the load it scheduled sends its
    request and fails: with the error of the request when the request
    fails, and otherwise with [TypeError], [json()] not being awaited and
    the coroutine it returns having no items.  One request was sent,
    nothing waits, and the page has its title and neither page id nor
    URL, whatever the server answered. *)
Theorem nothing_resolves_on_the_module_session fuel title page_id redirect locale :
  truthy title = true ->
  let rq := load_request default_session (endpoint_of locale) "&titles=" title in
  exists l,
    resolve http json_call find_all_li (S fuel) title page_id redirect false locale
      default_session = (Ret tt, l) /\
    done l = [(LoadTask redirect false, Raise (unawaited_error json_call rq))] /\
    log (state l) = [rq] /\
    pending (state l) = [] /\
    identity_of l = (Some title, None, None).
Proof.
  intros Ht rq.
  unfold resolve. rewrite WikiPage_init_title by assumption.
  unfold empty_world. wsimpl. cbn [app run_loop].
  erewrite loop_step_load; cycle 1.
  { reflexivity. }
  { unfold set_pending, set_obj. wsimpl.
    apply load_on_module_session; [apply first_request_fresh; assumption | lookup_tac]. }
  rewrite run_loop_idle by reflexivity.
  eexists. split; [reflexivity|]. unfold identity_of. wsimpl.
  repeat split; now simplify_map_eq.
Qed.

(** Extra X29.  On a page of the module's session the continued query
    yields nothing: it sends its first request and fails, with the error of
    the request when the request fails, and otherwise with [TypeError] at
    the test for [query], [json()] not being awaited.  The dictionary of
    the caller has been updated with the selector of the page by then. *)
Theorem continued_query_yields_nothing_on_module_session fuel query_params w endpoint tq :
  obj w !! "session" = Some default_session ->
  obj w !! "endpoint" = Some endpoint ->
  title_query_param_of (obj w) = Ret tq ->
  let params := dict_update query_params tq in
  let rq := query_request default_session endpoint params in
  WikiPage_continued_query json_call (S fuel) query_params w =
  ((params, [], Raised (unawaited_error json_call rq)), set_log (log w ++ [rq]) w).
Proof.
  intros Hs He Htq params rq.
  unfold WikiPage_continued_query. rewrite title_query_param_run, Htq.
  fold params. cbn [continued_loop update_with].
  change (dict_update params []) with params. fold rq.
  unfold unawaited_error. destruct (json_call rq) as [v|e] eqn:Hj.
  - erewrite continued_turn_on_object; [reflexivity | eassumption ..|].
    eapply unawaited_default; [reflexivity | exact Hj].
  - erewrite continued_turn_failed; [reflexivity | eassumption ..|].
    unfold unawaited_json. fold rq. now rewrite Hj.
Qed.

End ModuleSession.

Lemma module_session_witness :
  exists l,
    resolve http_two_wikis http_two_wikis no_items 1 (VStr "B") VNone true false "en"
      default_session = (Ret tt, l) /\
    done l = [(LoadTask true false, Raise TypeError)] /\
    log (state l) = [load_request default_session (endpoint_of "en") "&titles=" (VStr "B")] /\
    pending (state l) = [] /\
    identity_of l = (Some (VStr "B"), None, None).
Proof.
  apply (nothing_resolves_on_the_module_session http_two_wikis http_two_wikis no_items
           0 (VStr "B") VNone true "en").
  reflexivity.
Defined.

Lemma module_session_query_witness :
  let w := fresh_page "Full" "en" default_session in
  let params := [("prop", VStr "links"); ("titles", VStr "Full")] in
  WikiPage_continued_query http_links 1 [("prop", VStr "links")] w =
  ((params, [], Raised TypeError),
   set_log (log w ++ [query_request default_session (endpoint_of "en") params]) w).
Proof.
  intros w params.
  apply (continued_query_yields_nothing_on_module_session http_links 0 [("prop", VStr "links")] w
           (endpoint_of "en") [("titles", VStr "Full")]).
  - reflexivity.
  - reflexivity.
  - reflexivity.
Defined.
